(** * Permission and validation rules of the meeting, milestone and
      checkpoint endpoints

    Shallow embedding of [backend/app/api/v1/meetings.py],
    [backend/app/api/v1/milestones.py] and of the request schemas in
    [backend/app/schemas/], followed by the properties the specification
    states about them.

    The relational store, the clock and the random source are external to the
    handlers.  They are modelled as follows.
    - A table with a primary key is a finite map from the key to the row;
      [team_members] and [notifications] are lists of rows.
    - A request runs in a session: handlers read and write the session's view
      of the store, and only [db_commit] copies that view to the committed
      store.  A request that raises leaves the committed store as it was.
    - A [datetime] is a wall-clock reading in microseconds together with an
      optional UTC offset ([None] for a naive value).  Adding or subtracting
      a duration raises [OverflowError] when the result leaves the years 1 to
      9999.
    - An ordered query returns rows that agree on the sort column in an order
      the store chooses; the choice is part of the request's environment.
    - Weights are Python floats in the source; they are only stored and
      compared with the bounds 0 and 1, and are modelled as rationals. *)

From Stdlib Require Import ZArith QArith String Ascii List Lia.
From stdpp Require Import base numbers option list strings gmap sorting.

Close Scope Q_scope.
Local Open Scope string_scope.
Local Open Scope Z_scope.

(** ** Python values *)

Definition UUID := N.

(** [datetime]: [wall] is the wall-clock reading in microseconds, [tzinfo] the
    UTC offset in microseconds of an aware value, [None] for a naive one. *)
Record datetime := mk_datetime { wall : Z; tzinfo : option Z }.

Definition timezone_utc : option Z := Some 0.

(** [timedelta(minutes=m)] in microseconds. *)
Definition timedelta_minutes (m : Z) : Z := m * 60000000.

(** The wall-clock readings a [datetime] can hold, in microseconds from
    1970-01-01T00:00:00: [datetime.min] is 0001-01-01T00:00:00, 719162 days
    earlier, and [datetime.max] is 9999-12-31T23:59:59.999999, the last
    microsecond of the 2932897th day from it. *)
Definition datetime_min_wall : Z := - (719162 * 86400000000).
Definition datetime_max_wall : Z := 2932897 * 86400000000 - 1.

Definition datetime_in_range (d : datetime) : bool :=
  bool_decide (datetime_min_wall ≤ wall d ≤ datetime_max_wall).

(** The durations a [timedelta] can hold, in microseconds: from
    [timedelta.min], -999999999 days, to [timedelta.max], one microsecond
    less than 1000000000 days. *)
Definition timedelta_in_range (delta : Z) : bool :=
  bool_decide (- (999999999 * 86400000000) ≤ delta < 1000000000 * 86400000000).

(** [timedelta(minutes=m)] as Python evaluates it: [None] stands for the
    [OverflowError] of a duration that a [timedelta] cannot hold. *)
Definition timedelta_of_minutes (m : Z) : option Z :=
  if timedelta_in_range (timedelta_minutes m) then Some (timedelta_minutes m) else None.

(** The wall clock moved by [delta], with the time zone kept. *)
Definition datetime_shift (d : datetime) (delta : Z) : datetime :=
  {| wall := wall d + delta; tzinfo := tzinfo d |}.

(** [d + delta] and [d - delta] as Python evaluates them: the arithmetic is on
    the wall clock, the time zone is kept, and a result before [datetime.min]
    or after [datetime.max] is an [OverflowError], which is [None] here. *)
Definition datetime_add (d : datetime) (delta : Z) : option datetime :=
  let r := datetime_shift d delta in
  if datetime_in_range r then Some r else None.

Definition datetime_sub (d : datetime) (delta : Z) : option datetime :=
  datetime_add d (- delta).

(** [d.replace(tzinfo=tz)] *)
Definition datetime_replace_tzinfo (d : datetime) (tz : option Z) : datetime :=
  {| wall := wall d; tzinfo := tz |}.

(** Ordering of two datetimes.  Two naive values compare by wall clock, two
    aware values by instant; a naive and an aware value do not compare
    (Python raises [TypeError]), which is [None] here. *)
Definition datetime_compare (a b : datetime) : option comparison :=
  match tzinfo a, tzinfo b with
  | None, None => Some (wall a ?= wall b)
  | Some oa, Some ob => Some ((wall a - oa) ?= (wall b - ob))
  | _, _ => None
  end.

Definition datetime_le (a b : datetime) : option bool :=
  match datetime_compare a b with
  | Some Gt => Some false
  | Some _ => Some true
  | None => None
  end.

Definition datetime_gt (a b : datetime) : option bool :=
  match datetime_compare a b with
  | Some Gt => Some true
  | Some _ => Some false
  | None => None
  end.

(** Truth value of an optional string: [None] and the empty string are falsy. *)
Definition str_truthy (s : option string) : bool :=
  match s with
  | Some (String _ _) => true
  | _ => false
  end.

(** Truth value of an optional integer: [None] and [0] are falsy. *)
Definition int_truthy (n : option Z) : bool :=
  match n with
  | Some k => negb (k =? 0)
  | None => false
  end.

(** ** [secrets.token_urlsafe]

    [token_urlsafe(n)] is the URL-safe base64 text of [n] random bytes with the
    padding stripped.  The padding character is not in the alphabet, so the
    encoder below simply emits no padding. *)

Definition urlsafe_alphabet : list ascii :=
  list_ascii_of_string
    "ABCDEFGHIJKLMNOPQRSTUVWXYZabcdefghijklmnopqrstuvwxyz0123456789-_".

Definition b64_char (n : N) : ascii :=
  nth (N.to_nat n) urlsafe_alphabet "A"%char.

Fixpoint b64_sextets (bs : list N) : list N :=
  match bs with
  | a :: b :: c :: rest =>
      N.shiftr a 2
      :: N.lor (N.shiftl (N.land a 3) 4) (N.shiftr b 4)
      :: N.lor (N.shiftl (N.land b 15) 2) (N.shiftr c 6)
      :: N.land c 63
      :: b64_sextets rest
  | [a; b] =>
      [N.shiftr a 2;
       N.lor (N.shiftl (N.land a 3) 4) (N.shiftr b 4);
       N.shiftl (N.land b 15) 2]
  | [a] => [N.shiftr a 2; N.shiftl (N.land a 3) 4]
  | [] => []
  end.

Definition token_bytes (entropy : nat -> Byte.byte) (n : nat) : list N :=
  map (fun i => Byte.to_N (entropy i)) (seq 0 n).

Definition token_urlsafe (entropy : nat -> Byte.byte) (n : nat) : string :=
  string_of_list_ascii (map b64_char (b64_sextets (token_bytes entropy n))).

(** ** Rows of the store

    Modelled from the spec: the ORM classes of [app.models.all_models] are not
    part of the sources at hand.  Each record has the attributes the handlers
    read or write, with the names the handlers use; an attribute the handlers
    may leave or set to [None] is an [option]. *)

Record User := { user_id : UUID; role_id : Z }.

Record Team := { team_id : Z; team_class_id : Z }.

Record TeamMember := { tm_team_id : Z; tm_user_id : UUID; tm_role : string }.

Record Meeting := {
  meeting_id : Z;
  m_team_id : Z;
  m_title : option string;
  m_start_time : option datetime;
  m_end_time : option datetime;
  m_link_url : option string;
  m_organizer_id : UUID;
  m_created_at : datetime
}.

Record Notification := {
  n_user_id : UUID;
  n_title : string;
  n_message : string;
  n_notification_type : string;
  n_related_entity_type : string;
  n_related_entity_id : Z
}.

Record AcademicClass := { class_id : Z; lecturer_id : UUID }.

(** Modelled from the spec: a milestone has an "identifier, owning
    academic-class identifier, title, optional description, due date, weight
    (fraction of final grade, 0-1), creator identifier". *)
Record Milestone := {
  milestone_id : Z;
  ms_class_id : Z;
  ms_title : option string;
  ms_description : option string;
  ms_due_date : datetime;
  ms_weight : option Q;
  ms_created_by : UUID
}.

Record Checkpoint := {
  checkpoint_id : Z;
  cp_milestone_id : Z;
  cp_team_id : Z;
  cp_title : option string;
  cp_status : option string
}.

Record DB := {
  teams : gmap Z Team;
  team_members : list TeamMember;
  meetings : gmap Z Meeting;
  notifications : list Notification;
  classes : gmap Z AcademicClass;
  milestones : gmap Z Milestone;
  checkpoints : gmap Z Checkpoint
}.

(** ** Requests

    What a handler sees of the outside: the clock (its [k]-th reading during the
    request, in UTC microseconds), the offset of the server's local time, the
    bytes the operating system's random source hands out, and the order in
    which the store returns rows that an [ORDER BY] leaves tied.  That order
    is the store's choice and may differ from one request to the next;
    [row_order] ranks the rows, by primary key, for the request at hand. *)
Record Env := {
  utc_clock : nat -> Z;
  local_utcoffset : Z;
  entropy : nat -> Byte.byte;
  row_order : Z -> Z
}.

Record State := {
  committed : DB;   (* what the store holds *)
  session : DB;     (* the session's view: committed rows and pending changes *)
  ticks : nat       (* clock readings taken so far *)
}.

Inductive Exn :=
| HTTPException (status_code : Z) (detail : string)
| ValueError (msg : string)
| TypeError
| AttributeError
| InvalidRequestError
| OverflowError
| JWTError.

Inductive Result (A : Type) :=
| Ok (a : A)
| Raise (e : Exn).
Arguments Ok {A} a.
Arguments Raise {A} e.

Definition Req (A : Type) : Type := Env -> State -> Result A * State.

#[global] Instance req_ret : MRet Req := fun A a _ s => (Ok a, s).

#[global] Instance req_bind : MBind Req := fun A B f m env s =>
  match m env s with
  | (Ok a, s') => f a env s'
  | (Raise e, s') => (Raise e, s')
  end.

Definition raise {A} (e : Exn) : Req A := fun _ s => (Raise e, s).

Definition get_session : Req DB := fun _ s => (Ok (session s), s).

Definition put_session (d : DB) : Req unit := fun _ s =>
  (Ok tt, {| committed := committed s; session := d; ticks := ticks s |}).

(** [await db.commit()] *)
Definition db_commit : Req unit := fun _ s =>
  (Ok tt, {| committed := session s; session := session s; ticks := ticks s |}).

(** The [k]-th clock reading of a request as [datetime.now(tz)] presents it:
    naive local time when [tz] is [None], the same instant at offset [off]
    otherwise. *)
Definition clock_reading (env : Env) (k : nat) (tz : option Z) : datetime :=
  let t := utc_clock env k in
  match tz with
  | None => {| wall := t + local_utcoffset env; tzinfo := None |}
  | Some off => {| wall := t + off; tzinfo := Some off |}
  end.

(** [datetime.now(tz)]: takes the next clock reading. *)
Definition datetime_now (tz : option Z) : Req datetime := fun env s =>
  (Ok (clock_reading env (ticks s) tz),
   {| committed := committed s; session := session s; ticks := S (ticks s) |}).

(** A comparison that raises [TypeError] when Python does. *)
Definition py_cmp (c : option bool) : Req bool :=
  match c with
  | Some b => mret b
  | None => raise TypeError
  end.

(** Date arithmetic that raises [OverflowError] when Python does. *)
Definition py_arith {A} (r : option A) : Req A :=
  match r with
  | Some v => mret v
  | None => raise OverflowError
  end.

(** The rank the store gives a row in this request's ordered queries. *)
Definition store_order : Req (Z -> Z) := fun env s => (Ok (row_order env), s).

(** Running a handler on a store: the request starts from a fresh session and
    what remains afterwards is the committed store. *)
Definition run {A} (h : Req A) (env : Env) (db : DB) : Result A * DB :=
  let '(r, s) := h env {| committed := db; session := db; ticks := 0 |} in
  (r, committed s).

(** ** Access to the store *)

(** The key an auto-incremented primary key column hands out next. *)
Definition next_key {V} (t : gmap Z V) : Z :=
  1 + map_fold (fun k _ acc => Z.max k acc) 0 t.

(** [for x in l: body(x)] *)
Fixpoint for_each {A} (l : list A) (body : A -> Req unit) : Req unit :=
  match l with
  | [] => mret tt
  | x :: l' => body x;; for_each l' body
  end.

Definition with_meetings (d : DB) (t : gmap Z Meeting) : DB :=
  {| teams := teams d; team_members := team_members d; meetings := t;
     notifications := notifications d; classes := classes d;
     milestones := milestones d; checkpoints := checkpoints d |}.

Definition with_notifications (d : DB) (l : list Notification) : DB :=
  {| teams := teams d; team_members := team_members d; meetings := meetings d;
     notifications := l; classes := classes d;
     milestones := milestones d; checkpoints := checkpoints d |}.

Definition with_milestones (d : DB) (t : gmap Z Milestone) : DB :=
  {| teams := teams d; team_members := team_members d; meetings := meetings d;
     notifications := notifications d; classes := classes d;
     milestones := t; checkpoints := checkpoints d |}.

Definition with_checkpoints (d : DB) (t : gmap Z Checkpoint) : DB :=
  {| teams := teams d; team_members := team_members d; meetings := meetings d;
     notifications := notifications d; classes := classes d;
     milestones := milestones d; checkpoints := t |}.

(** [select(Meeting).where(Meeting.meeting_id == meeting_id)], [.scalar()] *)
Definition select_meeting (id : Z) : Req (option Meeting) :=
  d ← get_session; mret (meetings d !! id).

(** [select(TeamMember).where(TeamMember.team_id == team_id)], [.scalars().all()] *)
Definition select_team_members (team : Z) : Req (list TeamMember) :=
  d ← get_session;
  mret (filter (fun m => tm_team_id m = team) (team_members d)).

(** [db.add(meeting)] followed by [await db.flush()]: the row enters the
    session and receives its primary key. *)
Definition db_add_flush_meeting (row : Z -> Meeting) : Req Meeting :=
  d ← get_session;
  let m := row (next_key (meetings d)) in
  put_session (with_meetings d (<[meeting_id m := m]> (meetings d)));;
  mret m.

(** An attribute assignment on a loaded meeting: the session holds the
    modified object. *)
Definition db_dirty_meeting (m : Meeting) : Req unit :=
  d ← get_session;
  put_session (with_meetings d (<[meeting_id m := m]> (meetings d))).

(** [db.add(Notification(...))] *)
Definition db_add_notification (n : Notification) : Req unit :=
  d ← get_session;
  put_session (with_notifications d (notifications d ++ [n])).

(** [await db.delete(meeting)] *)
Definition db_delete_meeting (m : Meeting) : Req unit :=
  d ← get_session;
  put_session (with_meetings d (delete (meeting_id m) (meetings d))).

(** [await db.refresh(meeting)] *)
Definition db_refresh_meeting (m : Meeting) : Req Meeting :=
  d ← get_session;
  match meetings d !! meeting_id m with
  | Some m' => mret m'
  | None => raise InvalidRequestError
  end.

(** ** [schemas/meeting.py] *)

Record MeetingCreate := {
  mc_team_id : Z;
  mc_title : string;
  mc_start_time : datetime;
  mc_end_time : datetime;
  mc_meeting_link : option string
}.

Record MeetingUpdate := {
  mu_title : option string;
  mu_start_time : option datetime;
  mu_end_time : option datetime;
  mu_meeting_link : option string
}.

Record MeetingResponse := {
  r_meeting_id : Z;
  r_team_id : Z;
  r_title : option string;
  r_start_time : option datetime;
  r_end_time : option datetime;
  r_meeting_link : option string;
  r_created_by : UUID;
  r_created_at : datetime
}.

(** [MeetingCreate.validate_end_time]; [start_time] is [info.data.get("start_time")]. *)
Definition validate_end_time (start_time : option datetime) (end_time : datetime)
  : Result datetime :=
  match start_time with
  | Some st =>
      match datetime_le end_time st with
      | Some true => Raise (ValueError "end_time must be greater than start_time")
      | Some false => Ok end_time
      | None => Raise TypeError
      end
  | None => Ok end_time
  end.

(** [MeetingUpdate.validate_end_time_update] *)
Definition validate_end_time_update (start_time end_time : option datetime)
  : Result (option datetime) :=
  match start_time, end_time with
  | Some st, Some en =>
      match datetime_le en st with
      | Some true => Raise (ValueError "end_time must be greater than start_time")
      | Some false => Ok end_time
      | None => Raise TypeError
      end
  | _, _ => Ok end_time
  end.

(** ** [api/v1/meetings.py] *)

Definition now_utc : Req datetime := datetime_now timezone_utc.

Definition gen_peer_room_id : Req string := fun env s =>
  (Ok (token_urlsafe (entropy env) 10), s).

Definition require_team_exists (team : Z) : Req Team :=
  d ← get_session;
  match teams d !! team with
  | Some t => mret t
  | None => raise (HTTPException 404 "Team not found")
  end.

Definition require_team_member (team : Z) (user : UUID) : Req TeamMember :=
  d ← get_session;
  match find (fun m => bool_decide (tm_team_id m = team ∧ tm_user_id m = user))
             (team_members d) with
  | Some tm => mret tm
  | None => raise (HTTPException 403 "You are not a member of this team")
  end.

Definition to_response (meeting : Meeting) : MeetingResponse :=
  {| r_meeting_id := meeting_id meeting;
     r_team_id := m_team_id meeting;
     r_title := m_title meeting;
     r_start_time := m_start_time meeting;
     r_end_time := m_end_time meeting;
     r_meeting_link := m_link_url meeting;
     r_created_by := m_organizer_id meeting;
     r_created_at := m_created_at meeting |}.

Definition set_title (m : Meeting) (v : option string) : Meeting :=
  {| meeting_id := meeting_id m; m_team_id := m_team_id m; m_title := v;
     m_start_time := m_start_time m; m_end_time := m_end_time m;
     m_link_url := m_link_url m; m_organizer_id := m_organizer_id m;
     m_created_at := m_created_at m |}.

Definition set_start_time (m : Meeting) (v : option datetime) : Meeting :=
  {| meeting_id := meeting_id m; m_team_id := m_team_id m; m_title := m_title m;
     m_start_time := v; m_end_time := m_end_time m;
     m_link_url := m_link_url m; m_organizer_id := m_organizer_id m;
     m_created_at := m_created_at m |}.

Definition set_end_time (m : Meeting) (v : option datetime) : Meeting :=
  {| meeting_id := meeting_id m; m_team_id := m_team_id m; m_title := m_title m;
     m_start_time := m_start_time m; m_end_time := v;
     m_link_url := m_link_url m; m_organizer_id := m_organizer_id m;
     m_created_at := m_created_at m |}.

Definition set_link_url (m : Meeting) (v : option string) : Meeting :=
  {| meeting_id := meeting_id m; m_team_id := m_team_id m; m_title := m_title m;
     m_start_time := m_start_time m; m_end_time := m_end_time m;
     m_link_url := v; m_organizer_id := m_organizer_id m;
     m_created_at := m_created_at m |}.

(** [if v is not None: obj.attr = v] *)
Definition assign_if_given {R V} (set : R -> option V -> R) (obj : R) (v : option V) : R :=
  match v with
  | Some _ => set obj v
  | None => obj
  end.

(** [if remind_at.tzinfo is None: remind_at = remind_at.replace(tzinfo=timezone.utc)] *)
Definition utc_if_naive (d : datetime) : datetime :=
  match tzinfo d with
  | None => datetime_replace_tzinfo d timezone_utc
  | Some _ => d
  end.

(** The reminder a meeting's creation leaves for one team member. *)
Definition reminder (isoformat : datetime -> string) (payload : MeetingCreate)
    (meeting : Meeting) (m : TeamMember) : Notification :=
  {| n_user_id := tm_user_id m;
     n_title := "Meeting reminder";
     n_message := "Meeting '" +:+ mc_title payload +:+ "' starts at "
                  +:+ isoformat (mc_start_time payload);
     n_notification_type := "info";
     n_related_entity_type := "meeting";
     n_related_entity_id := meeting_id meeting |}.

Section Meetings.

(** [datetime.isoformat], the text of a datetime in a reminder's message. *)
Variable isoformat : datetime -> string.

(** POST /meetings *)
Definition create_meeting (payload : MeetingCreate) (current_user : User)
  : Req MeetingResponse :=
  require_team_exists (mc_team_id payload);;
  require_team_member (mc_team_id payload) (user_id current_user);;
  (* payload.meeting_link or gen_peer_room_id() *)
  link_url ← (if str_truthy (mc_meeting_link payload)
              then mret (default EmptyString (mc_meeting_link payload))
              else gen_peer_room_id);
  created_at ← now_utc;
  meeting ← db_add_flush_meeting (fun k =>
    {| meeting_id := k;
       m_team_id := mc_team_id payload;
       m_title := Some (mc_title payload);
       m_start_time := Some (mc_start_time payload);
       m_end_time := Some (mc_end_time payload);
       m_link_url := Some link_url;
       m_organizer_id := user_id current_user;
       m_created_at := created_at |});
  (* remind_at = payload.start_time - timedelta(minutes=15) *)
  remind_at ← py_arith (datetime_sub (mc_start_time payload) (timedelta_minutes 15));
  let remind_at := utc_if_naive remind_at in
  now ← now_utc;
  pending ← py_cmp (datetime_gt remind_at now);
  (if pending : bool then
     members ← select_team_members (mc_team_id payload);
     for_each members (fun m =>
       db_add_notification (reminder isoformat payload meeting m))
   else mret tt);;
  db_commit;;
  meeting ← db_refresh_meeting meeting;
  mret (to_response meeting).

End Meetings.

(** The permission test shared by update and cancel:
    organizer OR team LEADER OR (admin / lecturer, [role_id] 1 or 4). *)
Definition may_mutate (current_user : User) (tm : TeamMember) (meeting : Meeting) : bool :=
  let is_privileged := bool_decide (role_id current_user ∈ [1; 4]) in
  let is_leader := String.eqb (tm_role tm) "LEADER" in
  let is_organizer := N.eqb (m_organizer_id meeting) (user_id current_user) in
  is_privileged || is_leader || is_organizer.

(** The four conditional assignments of [update_meeting]. *)
Definition apply_update (meeting : Meeting) (payload : MeetingUpdate) : Meeting :=
  let meeting := assign_if_given set_title meeting (mu_title payload) in
  let meeting := assign_if_given set_start_time meeting (mu_start_time payload) in
  let meeting := assign_if_given set_end_time meeting (mu_end_time payload) in
  let meeting := assign_if_given set_link_url meeting (mu_meeting_link payload) in
  meeting.

(** PUT /meetings/{meeting_id} *)
Definition update_meeting (id : Z) (payload : MeetingUpdate) (current_user : User)
  : Req MeetingResponse :=
  r ← select_meeting id;
  match r with
  | None => raise (HTTPException 404 "Meeting not found")
  | Some meeting =>
      tm ← require_team_member (m_team_id meeting) (user_id current_user);
      if negb (may_mutate current_user tm meeting)
      then raise (HTTPException 403 "Not allowed to update this meeting")
      else
        let meeting := apply_update meeting payload in
        db_dirty_meeting meeting;;
        bad ← match m_start_time meeting, m_end_time meeting with
              | Some st, Some en => py_cmp (datetime_le en st)
              | _, _ => mret false
              end;
        if bad : bool
        then raise (HTTPException 400 "end_time must be greater than start_time")
        else
          db_commit;;
          meeting ← db_refresh_meeting meeting;
          mret (to_response meeting)
  end.

Record CancelResponse := { c_message : string; c_meeting_id : Z }.

(** DELETE /meetings/{meeting_id} *)
Definition cancel_meeting (id : Z) (current_user : User) : Req CancelResponse :=
  r ← select_meeting id;
  match r with
  | None => raise (HTTPException 404 "Meeting not found")
  | Some meeting =>
      tm ← require_team_member (m_team_id meeting) (user_id current_user);
      if negb (may_mutate current_user tm meeting)
      then raise (HTTPException 403 "Not allowed to cancel this meeting")
      else
        db_delete_meeting meeting;;
        db_commit;;
        mret {| c_message := "Meeting cancelled"; c_meeting_id := id |}
  end.

Record JoinResponse := {
  j_meeting_id : Z;
  j_team_id : Z;
  j_peer_room_id : option string
}.

(** POST /meetings/{meeting_id}/join *)
Definition join_meeting (id : Z) (current_user : User) : Req JoinResponse :=
  r ← select_meeting id;
  match r with
  | None => raise (HTTPException 404 "Meeting not found")
  | Some meeting =>
      require_team_member (m_team_id meeting) (user_id current_user);;
      meeting ← (if negb (str_truthy (m_link_url meeting))
                 then
                   token ← gen_peer_room_id;
                   let meeting := set_link_url meeting (Some token) in
                   db_dirty_meeting meeting;;
                   db_commit;;
                   db_refresh_meeting meeting
                 else mret meeting);
      mret {| j_meeting_id := id;
              j_team_id := m_team_id meeting;
              j_peer_room_id := m_link_url meeting |}
  end.

(** ** [schemas/milestone.py] *)

(** A field of a partial-update schema: left out of the request, or given
    (possibly as an explicit null).  [model_dump(exclude_unset=True)] keeps the
    given ones. *)
Inductive Field (A : Type) :=
| Unset
| Given (v : A).
Arguments Unset {A}.
Arguments Given {A} v.

Record MilestoneCreate := {
  msc_class_id : Z;
  msc_title : string;
  msc_description : option string;
  msc_due_date : datetime;
  msc_weight : Q
}.

(** The body of a creation request before validation: [weight] may be left out. *)
Record MilestoneCreateBody := {
  body_class_id : Z;
  body_title : string;
  body_description : option string;
  body_due_date : datetime;
  body_weight : option Q
}.

Definition str_len (s : string) : Z := Z.of_nat (String.length s).

(** Validation of [MilestoneCreate]: [class_id > 0], [1 <= len(title) <= 255],
    [0 <= weight <= 1] with default [1.0]. *)
Definition parse_MilestoneCreate (b : MilestoneCreateBody) : option MilestoneCreate :=
  let w := default 1%Q (body_weight b) in
  if (0 <? body_class_id b)
     && (1 <=? str_len (body_title b)) && (str_len (body_title b) <=? 255)
     && Qle_bool 0 w && Qle_bool w 1
  then Some {| msc_class_id := body_class_id b;
               msc_title := body_title b;
               msc_description := body_description b;
               msc_due_date := body_due_date b;
               msc_weight := w |}
  else None.

Record MilestoneUpdate := {
  msu_title : Field (option string);
  msu_description : Field (option string);
  msu_due_date : Field (option datetime);
  msu_weight : Field (option Q)
}.

Record CheckpointCreate := {
  cc_milestone_id : Z;
  cc_team_id : Z;
  cc_title : string;
  cc_status : option string
}.

(** The body of a checkpoint creation before validation: [status] may be left
    out, or given as a string or as null. *)
Record CheckpointCreateBody := {
  ccb_milestone_id : Z;
  ccb_team_id : Z;
  ccb_title : string;
  ccb_status : Field (option string)
}.

(** Validation of [CheckpointCreate]: both identifiers [> 0],
    [1 <= len(title) <= 255], [status] defaults to ["pending"]. *)
Definition parse_CheckpointCreate (b : CheckpointCreateBody) : option CheckpointCreate :=
  if (0 <? ccb_milestone_id b) && (0 <? ccb_team_id b)
     && (1 <=? str_len (ccb_title b)) && (str_len (ccb_title b) <=? 255)
  then Some {| cc_milestone_id := ccb_milestone_id b;
               cc_team_id := ccb_team_id b;
               cc_title := ccb_title b;
               cc_status := match ccb_status b with
                            | Unset => Some "pending"
                            | Given v => v
                            end |}
  else None.

Record MilestoneListResponse := {
  lr_milestone_id : Z;
  lr_class_id : Z;
  lr_title : option string;
  lr_due_date : datetime;
  lr_created_by : UUID;
  lr_checkpoint_count : nat
}.

(** ** [api/v1/milestones.py] *)

Definition select_milestone (id : Z) : Req (option Milestone) :=
  d ← get_session; mret (milestones d !! id).

Definition select_class (id : Z) : Req (option AcademicClass) :=
  d ← get_session; mret (classes d !! id).

Definition select_team (id : Z) : Req (option Team) :=
  d ← get_session; mret (teams d !! id).

(** [db.add(new_milestone)]; the primary key is assigned when the commit
    flushes the row. *)
Definition db_add_milestone (row : Z -> Milestone) : Req Milestone :=
  d ← get_session;
  let m := row (next_key (milestones d)) in
  put_session (with_milestones d (<[milestone_id m := m]> (milestones d)));;
  mret m.

Definition db_dirty_milestone (m : Milestone) : Req unit :=
  d ← get_session;
  put_session (with_milestones d (<[milestone_id m := m]> (milestones d))).

Definition db_refresh_milestone (m : Milestone) : Req Milestone :=
  d ← get_session;
  match milestones d !! milestone_id m with
  | Some m' => mret m'
  | None => raise InvalidRequestError
  end.

(** [await db.delete(milestone)]: the milestone goes, and with it the
    checkpoints it owns. *)
Definition db_delete_milestone (m : Milestone) : Req unit :=
  d ← get_session;
  put_session
    (with_checkpoints
       (with_milestones d (delete (milestone_id m) (milestones d)))
       (filter (fun kc => cp_milestone_id kc.2 ≠ milestone_id m) (checkpoints d))).

Definition db_add_checkpoint (row : Z -> Checkpoint) : Req Checkpoint :=
  d ← get_session;
  let c := row (next_key (checkpoints d)) in
  put_session (with_checkpoints d (<[checkpoint_id c := c]> (checkpoints d)));;
  mret c.

Definition db_refresh_checkpoint (c : Checkpoint) : Req Checkpoint :=
  d ← get_session;
  match checkpoints d !! checkpoint_id c with
  | Some c' => mret c'
  | None => raise InvalidRequestError
  end.

(** [due_date <= datetime.now(due_date.tzinfo)] raises the 400 of both
    milestone handlers. *)
Definition require_future (due_date : datetime) : Req unit :=
  now ← datetime_now (tzinfo due_date);
  late ← py_cmp (datetime_le due_date now);
  if late : bool
  then raise (HTTPException 400 "Due date must be in the future")
  else mret tt.

Section Milestones.

(** What the [weight] attribute of a new row holds when the constructor is
    not given one: the default of the column, declared in the model class. *)
Variable weight_column_default : option Q.

(** POST /milestones *)
Definition create_milestone (milestone_data : MilestoneCreate) (current_user : User)
  : Req Milestone :=
  r ← select_class (msc_class_id milestone_data);
  match r with
  | None => raise (HTTPException 404 "Class not found")
  | Some academic_class =>
      if negb (N.eqb (lecturer_id academic_class) (user_id current_user))
      then raise (HTTPException 403 "Only the class lecturer can create milestones")
      else
        require_future (msc_due_date milestone_data);;
        new_milestone ← db_add_milestone (fun k =>
          {| milestone_id := k;
             ms_class_id := msc_class_id milestone_data;
             ms_title := Some (msc_title milestone_data);
             ms_description := msc_description milestone_data;
             ms_due_date := msc_due_date milestone_data;
             ms_weight := weight_column_default;
             ms_created_by := user_id current_user |});
        db_commit;;
        db_refresh_milestone new_milestone
  end.

End Milestones.

(** [setattr(milestone, field, value)] for the four fields of [MilestoneUpdate]. *)
Definition setattr_title (m : Milestone) (v : option string) : Milestone :=
  {| milestone_id := milestone_id m; ms_class_id := ms_class_id m; ms_title := v;
     ms_description := ms_description m; ms_due_date := ms_due_date m;
     ms_weight := ms_weight m; ms_created_by := ms_created_by m |}.

Definition setattr_description (m : Milestone) (v : option string) : Milestone :=
  {| milestone_id := milestone_id m; ms_class_id := ms_class_id m;
     ms_title := ms_title m; ms_description := v; ms_due_date := ms_due_date m;
     ms_weight := ms_weight m; ms_created_by := ms_created_by m |}.

Definition setattr_due_date (m : Milestone) (v : datetime) : Milestone :=
  {| milestone_id := milestone_id m; ms_class_id := ms_class_id m;
     ms_title := ms_title m; ms_description := ms_description m; ms_due_date := v;
     ms_weight := ms_weight m; ms_created_by := ms_created_by m |}.

Definition setattr_weight (m : Milestone) (v : option Q) : Milestone :=
  {| milestone_id := milestone_id m; ms_class_id := ms_class_id m;
     ms_title := ms_title m; ms_description := ms_description m;
     ms_due_date := ms_due_date m; ms_weight := v;
     ms_created_by := ms_created_by m |}.

(** One step of [for field, value in update_data.items(): setattr(...)]. *)
Definition setattr_if_given {R V} (set : R -> V -> R) (obj : R) (f : Field V) : R :=
  match f with
  | Given v => set obj v
  | Unset => obj
  end.

(** PUT /milestones/{milestone_id} *)
Definition update_milestone (id : Z) (milestone_update : MilestoneUpdate)
    (current_user : User) : Req Milestone :=
  r ← select_milestone id;
  match r with
  | None => raise (HTTPException 404 "Milestone not found")
  | Some milestone =>
      if negb (N.eqb (ms_created_by milestone) (user_id current_user))
      then raise (HTTPException 403 "Only the creating lecturer can update this milestone")
      else
        (* a given due date is checked; a null one has no [tzinfo] *)
        due_date ← match msu_due_date milestone_update with
                   | Unset => mret Unset
                   | Given None => raise AttributeError
                   | Given (Some d) => require_future d;; mret (Given d)
                   end;
        let milestone := setattr_if_given setattr_title milestone
                           (msu_title milestone_update) in
        let milestone := setattr_if_given setattr_description milestone
                           (msu_description milestone_update) in
        let milestone := setattr_if_given setattr_due_date milestone due_date in
        let milestone := setattr_if_given setattr_weight milestone
                           (msu_weight milestone_update) in
        db_dirty_milestone milestone;;
        db_commit;;
        db_refresh_milestone milestone
  end.

(** DELETE /milestones/{milestone_id} *)
Definition delete_milestone (id : Z) (current_user : User) : Req unit :=
  r ← select_milestone id;
  match r with
  | None => raise (HTTPException 404 "Milestone not found")
  | Some milestone =>
      if negb (N.eqb (ms_created_by milestone) (user_id current_user))
      then raise (HTTPException 403 "Only the creating lecturer can delete this milestone")
      else
        db_delete_milestone milestone;;
        db_commit
  end.

(** POST /milestones/{milestone_id}/checkpoints *)
Definition create_checkpoint (id : Z) (checkpoint_data : CheckpointCreate)
    (current_user : User) : Req Checkpoint :=
  if negb (cc_milestone_id checkpoint_data =? id)
  then raise (HTTPException 400 "Milestone ID mismatch")
  else
    r ← select_milestone id;
    match r with
    | None => raise (HTTPException 404 "Milestone not found")
    | Some milestone =>
        (* [milestone.academic_class.lecturer_id] *)
        ac ← select_class (ms_class_id milestone);
        match ac with
        | None => raise AttributeError
        | Some academic_class =>
            if negb (N.eqb (lecturer_id academic_class) (user_id current_user))
            then raise (HTTPException 403 "Only the class lecturer can create checkpoints")
            else
              t ← select_team (cc_team_id checkpoint_data);
              match t with
              | None => raise (HTTPException 404 "Team not found")
              | Some team =>
                  if negb (team_class_id team =? ms_class_id milestone)
                  then raise (HTTPException 400 "Team does not belong to this class")
                  else
                    new_checkpoint ← db_add_checkpoint (fun k =>
                      {| checkpoint_id := k;
                         cp_milestone_id := id;
                         cp_team_id := cc_team_id checkpoint_data;
                         cp_title := Some (cc_title checkpoint_data);
                         cp_status :=
                           if str_truthy (cc_status checkpoint_data)
                           then cc_status checkpoint_data
                           else Some "pending" |});
                    db_commit;;
                    db_refresh_checkpoint new_checkpoint
              end
        end
    end.

(** The instant a stored datetime sorts by. *)
Definition instant (d : datetime) : Z := wall d - default 0 (tzinfo d).

(** [query.order_by(column)]: the rows in ascending order of the column.
    Rows that agree on the column come in the order of the ranks the store
    gives them for this query. *)
Definition order_by {A} (key : A -> Z) (rank : A -> Z) (l : list A) : list A :=
  @merge_sort A (fun a b => key a < key b ∨ (key a = key b ∧ rank a ≤ rank b))
    (fun a b => decide (key a < key b ∨ (key a = key b ∧ rank a ≤ rank b))) l.

(** [select(func.count(Checkpoint.checkpoint_id)).where(Checkpoint.milestone_id == id)] *)
Definition checkpoint_count (d : DB) (id : Z) : nat :=
  length (filter (fun kc => cp_milestone_id kc.2 = id) (map_to_list (checkpoints d))).

(** GET /milestones *)
Definition list_milestones (class_filter : option Z) (skip limit : nat)
  : Req (list MilestoneListResponse) :=
  d ← get_session;
  rank ← store_order;
  let query := (map_to_list (milestones d)).*2 in
  let query := if int_truthy class_filter
               then filter (fun m => Some (ms_class_id m) = class_filter) query
               else query in
  let query := take limit (drop skip
                 (order_by (fun m => instant (ms_due_date m))
                           (fun m => rank (milestone_id m)) query)) in
  mret (map (fun milestone =>
               {| lr_milestone_id := milestone_id milestone;
                  lr_class_id := ms_class_id milestone;
                  lr_title := ms_title milestone;
                  lr_due_date := ms_due_date milestone;
                  lr_created_by := ms_created_by milestone;
                  lr_checkpoint_count := checkpoint_count d (milestone_id milestone) |})
            query).

(** GET /milestones/{milestone_id}/checkpoints *)
Definition list_checkpoints (id : Z) (team_filter : option Z) : Req (list Checkpoint) :=
  r ← select_milestone id;
  match r with
  | None => raise (HTTPException 404 "Milestone not found")
  | Some _ =>
      d ← get_session;
      rank ← store_order;
      let query := filter (fun c => cp_milestone_id c = id)
                          (map_to_list (checkpoints d)).*2 in
      let query := if int_truthy team_filter
                   then filter (fun c => Some (cp_team_id c) = team_filter) query
                   else query in
      mret (order_by checkpoint_id (fun c => rank (checkpoint_id c)) query)
  end.

(** ** The read endpoints of [api/v1/meetings.py] *)

Record MeetingList := {
  ml_team_id : Z;
  ml_total : nat;
  ml_meetings : list MeetingResponse
}.

(** [Meeting.start_time.asc()]: meetings in the order of their start instants.
    Where a meeting without a start time goes is the store's choice; here it
    is placed after those that have one. *)
Definition start_time_asc (a b : Meeting) : Prop :=
  match m_start_time a, m_start_time b with
  | Some x, Some y => instant x ≤ instant y
  | Some _, None => True
  | None, Some _ => False
  | None, None => True
  end.

#[global] Instance start_time_asc_dec a b : Decision (start_time_asc a b).
Proof.
  unfold start_time_asc.
  destruct (m_start_time a), (m_start_time b); apply _.
Defined.

(** The order of a query by start time: meetings that [start_time_asc] leaves
    tied come in the order of the ranks the store gives them for the query. *)
Definition start_time_asc_ranked (rank : Z -> Z) (a b : Meeting) : Prop :=
  start_time_asc a b
  ∧ (start_time_asc b a → rank (meeting_id a) ≤ rank (meeting_id b)).

#[global] Instance start_time_asc_ranked_dec rank a b :
  Decision (start_time_asc_ranked rank a b).
Proof. unfold start_time_asc_ranked. apply _. Defined.

(** GET /meetings?team_id= *)
Definition list_meetings (team : Z) (current_user : User) : Req MeetingList :=
  require_team_exists team;;
  require_team_member team (user_id current_user);;
  d ← get_session;
  rank ← store_order;
  let meetings :=
    merge_sort (start_time_asc_ranked rank)
      (filter (fun m => m_team_id m = team) (map_to_list (meetings d)).*2) in
  mret {| ml_team_id := team;
          ml_total := length meetings;
          ml_meetings := map to_response meetings |}.

(** GET /meetings/{meeting_id} *)
Definition meeting_detail (id : Z) (current_user : User) : Req MeetingResponse :=
  r ← select_meeting id;
  match r with
  | None => raise (HTTPException 404 "Meeting not found")
  | Some meeting =>
      require_team_member (m_team_id meeting) (user_id current_user);;
      mret (to_response meeting)
  end.

(** ** The remaining endpoints of [api/v1/milestones.py] *)

Record CheckpointUpdate := {
  cu_title : Field (option string);
  cu_status : Field (option string)
}.

(** [selectinload(Milestone.checkpoints)]: the checkpoints that refer to the
    milestone. *)
Definition milestone_checkpoints (d : DB) (m : Milestone) : list Checkpoint :=
  filter (fun c => cp_milestone_id c = milestone_id m) (map_to_list (checkpoints d)).*2.

(** GET /milestones/{milestone_id}: the milestone with its checkpoints loaded. *)
Definition get_milestone (id : Z) (current_user : User)
  : Req (Milestone * list Checkpoint) :=
  r ← select_milestone id;
  match r with
  | None => raise (HTTPException 404 "Milestone not found")
  | Some milestone =>
      d ← get_session;
      mret (milestone, milestone_checkpoints d milestone)
  end.

(** [select(Checkpoint).where(Checkpoint.checkpoint_id == checkpoint_id,
    Checkpoint.milestone_id == milestone_id)], [.scalar_one_or_none()] *)
Definition select_checkpoint (mid cid : Z) : Req (option Checkpoint) :=
  d ← get_session;
  mret (match checkpoints d !! cid with
        | Some c => if cp_milestone_id c =? mid then Some c else None
        | None => None
        end).

(** [checkpoint.milestone.academic_class.lecturer_id]: an attribute of a
    missing parent is an [AttributeError]. *)
Definition checkpoint_lecturer (c : Checkpoint) : Req UUID :=
  d ← get_session;
  match milestones d !! cp_milestone_id c with
  | None => raise AttributeError
  | Some milestone =>
      match classes d !! ms_class_id milestone with
      | None => raise AttributeError
      | Some academic_class => mret (lecturer_id academic_class)
      end
  end.

Definition setattr_cp_title (c : Checkpoint) (v : option string) : Checkpoint :=
  {| checkpoint_id := checkpoint_id c; cp_milestone_id := cp_milestone_id c;
     cp_team_id := cp_team_id c; cp_title := v; cp_status := cp_status c |}.

Definition setattr_cp_status (c : Checkpoint) (v : option string) : Checkpoint :=
  {| checkpoint_id := checkpoint_id c; cp_milestone_id := cp_milestone_id c;
     cp_team_id := cp_team_id c; cp_title := cp_title c; cp_status := v |}.

Definition db_dirty_checkpoint (c : Checkpoint) : Req unit :=
  d ← get_session;
  put_session (with_checkpoints d (<[checkpoint_id c := c]> (checkpoints d))).

(** [await db.delete(checkpoint)] *)
Definition db_delete_checkpoint (c : Checkpoint) : Req unit :=
  d ← get_session;
  put_session (with_checkpoints d (delete (checkpoint_id c) (checkpoints d))).

(** The fields of [CheckpointUpdate] that were given, written to the row. *)
Definition apply_checkpoint_update (c : Checkpoint) (u : CheckpointUpdate) : Checkpoint :=
  let c := setattr_if_given setattr_cp_title c (cu_title u) in
  let c := setattr_if_given setattr_cp_status c (cu_status u) in
  c.

(** PUT /milestones/{milestone_id}/checkpoints/{checkpoint_id} *)
Definition update_checkpoint (mid cid : Z) (checkpoint_update : CheckpointUpdate)
    (current_user : User) : Req Checkpoint :=
  r ← select_checkpoint mid cid;
  match r with
  | None => raise (HTTPException 404 "Checkpoint not found")
  | Some checkpoint =>
      lecturer ← checkpoint_lecturer checkpoint;
      if negb (N.eqb lecturer (user_id current_user))
      then raise (HTTPException 403 "Only the class lecturer can update checkpoints")
      else
        let checkpoint := apply_checkpoint_update checkpoint checkpoint_update in
        db_dirty_checkpoint checkpoint;;
        db_commit;;
        db_refresh_checkpoint checkpoint
  end.

(** DELETE /milestones/{milestone_id}/checkpoints/{checkpoint_id} *)
Definition delete_checkpoint (mid cid : Z) (current_user : User) : Req unit :=
  r ← select_checkpoint mid cid;
  match r with
  | None => raise (HTTPException 404 "Checkpoint not found")
  | Some checkpoint =>
      lecturer ← checkpoint_lecturer checkpoint;
      if negb (N.eqb lecturer (user_id current_user))
      then raise (HTTPException 403 "Only the class lecturer can delete checkpoints")
      else
        db_delete_checkpoint checkpoint;;
        db_commit
  end.

(** ** [schemas/user.py] *)

Inductive RoleName := ADMIN | STAFF | HEAD_OF_DEPARTMENT | LECTURER | STUDENT.

#[global] Instance RoleName_eq_dec : EqDecision RoleName.
Proof. solve_decision. Defined.

(** The value of each member of the enumeration. *)
Definition RoleName_value (r : RoleName) : string :=
  match r with
  | ADMIN => "Admin"
  | STAFF => "Staff"
  | HEAD_OF_DEPARTMENT => "Head Of Department"
  | LECTURER => "Lecturer"
  | STUDENT => "Student"
  end.

(** [RoleName(value)]: the member with that value, if any. *)
Definition RoleName_of_value (v : string) : option RoleName :=
  find (fun r => String.eqb (RoleName_value r) v)
       [ADMIN; STAFF; HEAD_OF_DEPARTMENT; LECTURER; STUDENT].

(** The dictionary [ROLE_NAME_TO_ID], in the order it is written. *)
Definition ROLE_NAME_TO_ID : list (RoleName * Z) :=
  [(ADMIN, 1); (STAFF, 2); (HEAD_OF_DEPARTMENT, 3); (LECTURER, 4); (STUDENT, 5)].

(** [d[key]] on a dictionary literal; [None] stands for [KeyError]. *)
Definition dict_get {K V} `{EqDecision K} (d : list (K * V)) (key : K) : option V :=
  snd <$> find (fun kv => bool_decide (kv.1 = key)) d.

Record UserCreate := {
  uc_email : string;
  uc_full_name : option string;
  uc_is_active : option bool;
  uc_password : string;
  uc_role_name : RoleName;
  uc_dept_id : option Z
}.

(** [UserCreate.get_role_id] *)
Definition get_role_id (self : UserCreate) : option Z :=
  dict_get ROLE_NAME_TO_ID (uc_role_name self).

(** ** [core/security.py] *)

(** The settings [create_access_token] reads. *)
Record Settings := {
  ACCESS_TOKEN_EXPIRE_MINUTES : Z;
  SECRET_KEY : string;
  ALGORITHM : string
}.

(** The dictionary [to_encode]. *)
Record TokenClaims := { exp : datetime; sub : string }.

(** [datetime.utcnow()]: the next clock reading as a naive UTC value. *)
Definition datetime_utcnow : Req datetime := fun env s =>
  (Ok {| wall := utc_clock env (ticks s); tzinfo := None |},
   {| committed := committed s; session := session s; ticks := S (ticks s) |}).

(** Truth value of an optional [timedelta] (in microseconds): [None] and a
    zero duration are falsy. *)
Definition timedelta_truthy (delta : option Z) : bool :=
  match delta with
  | Some k => negb (k =? 0)
  | None => false
  end.

Section Security.

(** [jose.jwt.encode(claims, key, algorithm=...)]; [None] when the library
    raises, as it does for an algorithm it does not know. *)
Variable jwt_encode : TokenClaims -> string -> string -> option string.

Variable settings : Settings.

(** [create_access_token]; [subject] is [str(subject)]. *)
Definition create_access_token (subject : string) (expires_delta : option Z)
  : Req string :=
  expire ← (if timedelta_truthy expires_delta
            then now ← datetime_utcnow;
                 py_arith (datetime_add now (default 0 expires_delta))
            else now ← datetime_utcnow;
                 delta ← py_arith (timedelta_of_minutes
                                     (ACCESS_TOKEN_EXPIRE_MINUTES settings));
                 py_arith (datetime_add now delta));
  let to_encode := {| exp := expire; sub := subject |} in
  match jwt_encode to_encode (SECRET_KEY settings) (ALGORITHM settings) with
  | Some encoded_jwt => mret encoded_jwt
  | None => raise JWTError
  end.

End Security.

(** ** A small store to run the handlers on *)

Module Sample.

Definition alice : User := {| user_id := 11%N; role_id := 5 |}.
Definition bob : User := {| user_id := 12%N; role_id := 5 |}.
Definition admin : User := {| user_id := 13%N; role_id := 1 |}.
Definition lecturer : User := {| user_id := 14%N; role_id := 4 |}.
Definition other_lecturer : User := {| user_id := 15%N; role_id := 4 |}.
Definition tutor : User := {| user_id := 16%N; role_id := 4 |}.

Definition noon : datetime := {| wall := 43200000000; tzinfo := Some 0 |}.
Definition one_pm : datetime := {| wall := 46800000000; tzinfo := Some 0 |}.
Definition two_pm : datetime := {| wall := 50400000000; tzinfo := Some 0 |}.
Definition ten_to_one : datetime := {| wall := 46200000000; tzinfo := Some 0 |}.

(** An update that moves the end of a meeting to 12:50. *)
Definition end_early : MeetingUpdate :=
  {| mu_title := Some "Standup (short)"; mu_start_time := None;
     mu_end_time := Some ten_to_one; mu_meeting_link := None |}.

(** A clock that reads noon UTC throughout, a server on UTC, and a random
    source that hands out the bytes 0, 1, 2, ... *)
Definition env : Env :=
  {| utc_clock := fun _ => 43200000000;
     local_utcoffset := 0;
     entropy := fun i => default Byte.x00 (Byte.of_N (N.of_nat i));
     row_order := fun k => k |}.

(** Bob schedules a meeting for 14:00, without a link of his own. *)
Definition kickoff : MeetingCreate :=
  {| mc_team_id := 7; mc_title := "Kickoff"; mc_start_time := one_pm;
     mc_end_time := two_pm; mc_meeting_link := Some EmptyString |}.

(** The same meeting starting at 12:15: its reminder time is noon sharp. *)
Definition kickoff_soon : MeetingCreate :=
  {| mc_team_id := 7; mc_title := "Kickoff";
     mc_start_time := {| wall := 44100000000; tzinfo := Some 0 |};
     mc_end_time := two_pm; mc_meeting_link := Some EmptyString |}.

Definition isoformat (d : datetime) : string := "1970-01-01T13:00:00+00:00".

Definition kickoff_response : MeetingResponse :=
  {| r_meeting_id := 2; r_team_id := 7; r_title := Some "Kickoff";
     r_start_time := Some one_pm; r_end_time := Some two_pm;
     r_meeting_link := Some "AAECAwQFBgcICQ"; r_created_by := 12%N;
     r_created_at := noon |}.

Definition standup : Meeting :=
  {| meeting_id := 1; m_team_id := 7; m_title := Some "Standup";
     m_start_time := Some one_pm; m_end_time := Some two_pm;
     m_link_url := Some "room-1"; m_organizer_id := 11%N; m_created_at := noon |}.

Definition proposal : Milestone :=
  {| milestone_id := 1; ms_class_id := 3; ms_title := Some "Project Proposal";
     ms_description := None; ms_due_date := two_pm; ms_weight := Some (1 # 2)%Q;
     ms_created_by := 14%N |}.

(** A milestone of class 3 that the lecturer of another class created. *)
Definition handover : Milestone :=
  {| milestone_id := 2; ms_class_id := 3; ms_title := Some "Handover";
     ms_description := Some "Hand the project over"; ms_due_date := one_pm;
     ms_weight := None; ms_created_by := 15%N |}.

(** A checkpoint request for team 7 under milestone 1 that names no status,
    and the same request for team 8, which belongs to class 4. *)
Definition first_draft : CheckpointCreateBody :=
  {| ccb_milestone_id := 1; ccb_team_id := 7; ccb_title := "First draft";
     ccb_status := Unset |}.

Definition first_draft_data : CheckpointCreate :=
  {| cc_milestone_id := 1; cc_team_id := 7; cc_title := "First draft";
     cc_status := Some "pending" |}.

Definition foreign_draft_data : CheckpointCreate :=
  {| cc_milestone_id := 1; cc_team_id := 8; cc_title := "First draft";
     cc_status := Some "pending" |}.

(** A milestone request for class 3, due at 13:00, with the given weight. *)
Definition report (w : Q) : MilestoneCreate :=
  {| msc_class_id := 3; msc_title := "Report"; msc_description := None;
     msc_due_date := one_pm; msc_weight := w |}.

(** An update that moves a due date, and nothing else, to the given time. *)
Definition move_due_date (t : datetime) : MilestoneUpdate :=
  {| msu_title := Unset; msu_description := Unset;
     msu_due_date := Given (Some t); msu_weight := Unset |}.

Definition eleven_am : datetime := {| wall := 39600000000; tzinfo := Some 0 |}.

Definition draft : Checkpoint :=
  {| checkpoint_id := 1; cp_milestone_id := 1; cp_team_id := 7;
     cp_title := Some "Initial Draft"; cp_status := Some "pending" |}.

Definition db : DB :=
  {| teams := {[ 7 := {| team_id := 7; team_class_id := 3 |};
                 8 := {| team_id := 8; team_class_id := 4 |} ]};
     team_members := [ {| tm_team_id := 7; tm_user_id := 11%N; tm_role := "LEADER" |};
                       {| tm_team_id := 7; tm_user_id := 12%N; tm_role := "MEMBER" |};
                       {| tm_team_id := 7; tm_user_id := 16%N; tm_role := "MEMBER" |};
                       {| tm_team_id := 8; tm_user_id := 14%N; tm_role := "MEMBER" |} ];
     meetings := {[ 1 := standup ]};
     notifications := [];
     classes := {[ 3 := {| class_id := 3; lecturer_id := 14%N |};
                   4 := {| class_id := 4; lecturer_id := 15%N |} ]};
     milestones := {[ 1 := proposal; 2 := handover ]};
     checkpoints := {[ 1 := draft ]} |}.

End Sample.

(** Variations of the sample store and of the sample request. *)
Module Cases.

(** The sample store with the room of its meeting not yet allocated. *)
Definition unplanned : Meeting := set_link_url Sample.standup None.

Definition db : DB := with_meetings Sample.db {[ 1 := unplanned ]}.

(** A meeting that starts at [datetime.min], in UTC. *)
Definition year_one : MeetingCreate :=
  {| mc_team_id := 7; mc_title := "Kickoff";
     mc_start_time := {| wall := datetime_min_wall; tzinfo := Some 0 |};
     mc_end_time := Sample.two_pm; mc_meeting_link := None |}.

(** The sample store with both milestones due at 14:00, and a request during
    which the store returns tied rows in descending order of their keys. *)
Definition same_due : DB :=
  with_milestones Sample.db
    {[ 1 := Sample.proposal; 2 := setattr_due_date Sample.handover Sample.two_pm ]}.

Definition descending : Env :=
  {| utc_clock := utc_clock Sample.env;
     local_utcoffset := local_utcoffset Sample.env;
     entropy := entropy Sample.env;
     row_order := fun k => - k |}.

End Cases.

(** ** Vocabulary of the properties *)

(** The user has a membership row on the team. *)
Definition is_member (d : DB) (team : Z) (user : UUID) : Prop :=
  ∃ tm, tm ∈ team_members d ∧ tm_team_id tm = team ∧ tm_user_id tm = user.

(** The membership row [require_team_member] hands back. *)
Definition membership (d : DB) (team : Z) (user : UUID) : option TeamMember :=
  find (fun m => bool_decide (tm_team_id m = team ∧ tm_user_id m = user))
       (team_members d).

(** Outcome and committed store of a request. *)
Definition outcome {A} (h : Req A) (env : Env) (d : DB) : Result A := (run h env d).1.
Definition store_after {A} (h : Req A) (env : Env) (d : DB) : DB := (run h env d).2.

Definition is_forbidden {A} (r : Result A) : Prop :=
  ∃ detail, r = Raise (HTTPException 403 detail).

Definition is_validation_error {A} (r : Result A) : Prop :=
  ∃ detail, r = Raise (HTTPException 400 detail).

Definition no_update : MeetingUpdate :=
  {| mu_title := None; mu_start_time := None; mu_end_time := None;
     mu_meeting_link := None |}.

(** The membership rows of a team, as [create_meeting] selects them. *)
Definition team_rows (d : DB) (team : Z) : list TeamMember :=
  filter (fun m => tm_team_id m = team) (team_members d).

(** The room identifier [create_meeting] stores. *)
Definition stored_link (env : Env) (payload : MeetingCreate) : string :=
  if str_truthy (mc_meeting_link payload)
  then default EmptyString (mc_meeting_link payload)
  else token_urlsafe (entropy env) 10.

(** The row [create_meeting] adds: the first clock reading of the request is
    its creation time. *)
Definition new_meeting (env : Env) (d : DB) (payload : MeetingCreate) (u : User)
  : Meeting :=
  {| meeting_id := next_key (meetings d);
     m_team_id := mc_team_id payload;
     m_title := Some (mc_title payload);
     m_start_time := Some (mc_start_time payload);
     m_end_time := Some (mc_end_time payload);
     m_link_url := Some (stored_link env payload);
     m_organizer_id := user_id u;
     m_created_at := clock_reading env 0 timezone_utc |}.

(** The reminder time of a meeting: 15 minutes before the start, a naive
    start time being taken as UTC. *)
Definition remind_at (payload : MeetingCreate) : datetime :=
  utc_if_naive (datetime_shift (mc_start_time payload) (- timedelta_minutes 15)).

(** The reminder time is a value a [datetime] can hold. *)
Definition reminder_representable (payload : MeetingCreate) : Prop :=
  datetime_min_wall ≤ wall (mc_start_time payload) - 15 * 60 * 1000000
  ≤ datetime_max_wall.

(** The current time [create_meeting] compares the reminder time with: the
    second clock reading of the request. *)
Definition reminder_check_time (env : Env) : datetime :=
  clock_reading env 1 timezone_utc.

(** [a <= b] and [a > b] as Python evaluates them to true. *)
Definition at_or_before (a b : datetime) : Prop := datetime_le a b = Some true.
Definition strictly_after (a b : datetime) : Prop := datetime_gt a b = Some true.

(** The current time a due date is compared with: the first clock reading of
    the request, in the due date's own time zone (naive local time for a naive
    due date). *)
Definition due_date_check_time (env : Env) (due_date : datetime) : datetime :=
  clock_reading env 0 (tzinfo due_date).

(** Every row is stored under its own primary key. *)
Definition keys_ok (d : DB) : Prop :=
  (∀ k m, meetings d !! k = Some m → meeting_id m = k)
  ∧ (∀ k m, milestones d !! k = Some m → milestone_id m = k)
  ∧ (∀ k c, checkpoints d !! k = Some c → checkpoint_id c = k).

(** Every checkpoint refers to a stored milestone and to a stored team of
    the milestone's class. *)
Definition checkpoints_ok (d : DB) : Prop :=
  ∀ k c, checkpoints d !! k = Some c →
    ∃ ms team, milestones d !! cp_milestone_id c = Some ms
               ∧ teams d !! cp_team_id c = Some team
               ∧ team_class_id team = ms_class_id ms.

(** A meeting ends strictly after it starts, when it has both times. *)
Definition times_ok (m : Meeting) : Prop :=
  ∀ st en, m_start_time m = Some st → m_end_time m = Some en → strictly_after en st.

Definition meetings_ok (d : DB) : Prop :=
  ∀ k m, meetings d !! k = Some m → times_ok m.

(** The permission rule of update and cancel, for a caller whose membership
    row is [tm]. *)
Definition allowed (u : User) (tm : TeamMember) (meeting : Meeting) : Prop :=
  role_id u = 1 ∨ role_id u = 4 ∨ tm_role tm = "LEADER"
  ∨ m_organizer_id meeting = user_id u.

(** The consistency of the store that the handlers rely on and keep. *)
Definition store_ok (d : DB) : Prop := keys_ok d ∧ checkpoints_ok d.


(** The filter of a listing: a missing or zero identifier selects everything. *)
Definition selected (wanted : option Z) (actual : Z) : Prop :=
  int_truthy wanted = false ∨ wanted = Some actual.

#[global] Instance selected_dec wanted actual : Decision (selected wanted actual).
Proof. unfold selected. apply _. Defined.

(** * Properties *)

(** ** The store and the request monad *)

Lemma next_key_bound {V} (t : gmap Z V) k v :
  t !! k = Some v → k < next_key t.
Proof.
  unfold next_key. revert k v.
  apply (map_fold_weak_ind
    (fun (r : Z) (m : gmap Z V) => ∀ k v, m !! k = Some v → k < 1 + r)
    (fun k _ acc => Z.max k acc) 0).
  - intros k v Hk. by rewrite lookup_empty in Hk.
  - intros i x m r _ IH k v Hk.
    destruct (decide (i = k)) as [->|Hne].
    + lia.
    + rewrite lookup_insert_ne in Hk by done.
      specialize (IH k v Hk). lia.
Qed.

(** The key handed out next is not in use. *)
Lemma next_key_fresh {V} (t : gmap Z V) : t !! next_key t = None.
Proof.
  destruct (t !! next_key t) as [v|] eqn:E; [|done].
  apply next_key_bound in E. lia.
Qed.

Lemma membership_of_member d team user :
  is_member d team user →
  ∃ tm, membership d team user = Some tm
        ∧ tm_team_id tm = team ∧ tm_user_id tm = user.
Proof.
  intros (tm & Hin & Ht & Hu). unfold membership.
  destruct (find _ (team_members d)) as [tm'|] eqn:E.
  - exists tm'. split; [done|].
    apply find_some in E as [_ E]. by apply bool_decide_eq_true in E.
  - exfalso. apply list_elem_of_In in Hin.
    pose proof (find_none _ _ E _ Hin) as H. simpl in H.
    apply bool_decide_eq_false in H. by apply H.
Qed.

Lemma membership_of_stranger d team user :
  ¬ is_member d team user → membership d team user = None.
Proof.
  intros Hno. unfold membership.
  destruct (find _ (team_members d)) as [tm|] eqn:E; [|done].
  exfalso. apply Hno. apply find_some in E as [Hin E].
  apply bool_decide_eq_true in E. exists tm.
  split; [by apply list_elem_of_In | done].
Qed.

(** Unfolds the monad down to a case analysis on the store. *)
Ltac run_request :=
  unfold outcome, store_after, run, is_forbidden, is_validation_error;
  repeat (progress (
    unfold mbind, mret, req_bind, req_ret, raise,
      select_meeting, select_milestone, select_class, select_team,
      select_team_members, require_team_exists, require_team_member,
      db_dirty_meeting, db_delete_meeting, db_refresh_meeting,
      db_dirty_milestone, db_delete_milestone, db_refresh_milestone,
      db_add_milestone, db_add_checkpoint, db_refresh_checkpoint,
      db_add_flush_meeting, db_add_notification, db_commit,
      require_future, datetime_now, get_session, put_session, py_cmp,
      store_order;
    simpl)).

(** ** Meetings: who may update and cancel *)

Lemma privileged_may_mutate u tm meeting :
  role_id u = 1 ∨ role_id u = 4 → may_mutate u tm meeting = true.
Proof.
  intros H. unfold may_mutate.
  rewrite bool_decide_eq_true_2; [done|].
  destruct H as [-> | ->]; set_solver.
Qed.

(** C1, as amended.  A member of the meeting's team who holds global role 1
    or 4 is never refused with Forbidden when updating the meeting, and
    cancels it successfully, whatever their role on the team and whoever
    organised the meeting. *)
Theorem privileged_member_may_update_and_cancel env d id meeting u :
  meetings d !! id = Some meeting →
  is_member d (m_team_id meeting) (user_id u) →
  role_id u = 1 ∨ role_id u = 4 →
  (∀ payload, ¬ is_forbidden (outcome (update_meeting id payload u) env d))
  ∧ run (cancel_meeting id u) env d
    = (Ok {| c_message := "Meeting cancelled"; c_meeting_id := id |},
       with_meetings d (delete (meeting_id meeting) (meetings d))).
Proof.
  intros Hm Hmem Hrole.
  apply membership_of_member in Hmem as (tm & Htm & _).
  unfold membership in Htm.
  split.
  - intros payload. unfold update_meeting. run_request. rewrite Hm. simpl. rewrite Htm. simpl.
    rewrite (privileged_may_mutate _ _ _ Hrole). simpl.
    set (m' := apply_update _ _).
    destruct (m_start_time m') as [st|], (m_end_time m') as [en|]; simpl;
      try (rewrite lookup_insert_eq; simpl; intros [? ?]; discriminate).
    destruct (datetime_le en st) as [[|]|]; simpl;
      try (rewrite lookup_insert_eq; simpl); intros [? ?]; discriminate.
  - unfold cancel_meeting. run_request. rewrite Hm. simpl. rewrite Htm. simpl.
    by rewrite (privileged_may_mutate _ _ _ Hrole).
Qed.

Lemma privileged_member_may_update_and_cancel_witness :
  (meetings Sample.db !! 1 = Some Sample.standup
   ∧ is_member Sample.db (m_team_id Sample.standup) (user_id Sample.tutor)
   ∧ (role_id Sample.tutor = 1 ∨ role_id Sample.tutor = 4))
  ∧ ((∀ payload, ¬ is_forbidden
         (outcome (update_meeting 1 payload Sample.tutor) Sample.env Sample.db))
     ∧ run (cancel_meeting 1 Sample.tutor) Sample.env Sample.db
       = (Ok {| c_message := "Meeting cancelled"; c_meeting_id := 1 |},
          with_meetings Sample.db
            (delete (meeting_id Sample.standup) (meetings Sample.db)))).
Proof.
  assert (H1 : meetings Sample.db !! 1 = Some Sample.standup) by reflexivity.
  assert (H2 : is_member Sample.db (m_team_id Sample.standup) (user_id Sample.tutor)).
  { exists {| tm_team_id := 7; tm_user_id := 16%N; tm_role := "MEMBER" |}.
    split; [|split; reflexivity]. simpl. repeat constructor. }
  assert (H3 : role_id Sample.tutor = 1 ∨ role_id Sample.tutor = 4)
    by (right; reflexivity).
  split; [done|].
  exact (privileged_member_may_update_and_cancel
           Sample.env Sample.db 1 Sample.standup Sample.tutor H1 H2 H3).
Defined.

(** C1 as stated fails: an administrator who has no membership row on the
    meeting's team is refused by [require_team_member], on update and on
    cancel alike, before the role is looked at. *)
Lemma admin_outside_the_team_is_forbidden :
  meetings Sample.db !! 1 = Some Sample.standup
  ∧ role_id Sample.admin = 1
  ∧ outcome (update_meeting 1 no_update Sample.admin) Sample.env Sample.db
    = Raise (HTTPException 403 "You are not a member of this team")
  ∧ outcome (cancel_meeting 1 Sample.admin) Sample.env Sample.db
    = Raise (HTTPException 403 "You are not a member of this team").
Proof. repeat split; vm_compute; reflexivity. Qed.

(** The membership guard comes first for every caller. *)
Lemma stranger_is_forbidden env d id meeting u :
  meetings d !! id = Some meeting →
  ¬ is_member d (m_team_id meeting) (user_id u) →
  (∀ payload, run (update_meeting id payload u) env d
     = (Raise (HTTPException 403 "You are not a member of this team"), d))
  ∧ run (cancel_meeting id u) env d
    = (Raise (HTTPException 403 "You are not a member of this team"), d)
  ∧ run (join_meeting id u) env d
    = (Raise (HTTPException 403 "You are not a member of this team"), d).
Proof.
  intros Hm Hno. apply membership_of_stranger in Hno. unfold membership in Hno.
  repeat split; [intros payload; unfold update_meeting
                | unfold cancel_meeting | unfold join_meeting];
    run_request; rewrite Hm; simpl; by rewrite Hno.
Qed.

(** A plain member who neither leads the team nor organised the meeting is
    refused (the scenario of the specification). *)
Example plain_member_cannot_cancel :
  run (cancel_meeting 1 Sample.bob) Sample.env Sample.db
  = (Raise (HTTPException 403 "Not allowed to cancel this meeting"), Sample.db).
Proof. vm_compute. reflexivity. Qed.

(** ** Meetings: the time check of an update *)

(** C3.  When the meeting that results from applying the given fields has an
    end time at or before its start time, the update commits nothing: the
    store is what it was before the request.  The request does not succeed,
    and for a caller who passes the permission test it fails with the 400
    validation error. *)
Theorem update_with_end_before_start_is_rejected env d id meeting payload u st en :
  meetings d !! id = Some meeting →
  m_start_time (apply_update meeting payload) = Some st →
  m_end_time (apply_update meeting payload) = Some en →
  datetime_le en st = Some true →
  store_after (update_meeting id payload u) env d = d
  ∧ (∀ r, outcome (update_meeting id payload u) env d ≠ Ok r)
  ∧ (∀ tm, membership d (m_team_id meeting) (user_id u) = Some tm →
           may_mutate u tm meeting = true →
           outcome (update_meeting id payload u) env d
           = Raise (HTTPException 400 "end_time must be greater than start_time")).
Proof.
  intros Hm Hst Hen Hle.
  unfold update_meeting, membership. run_request. rewrite Hm. simpl.
  destruct (find _ (team_members d)) as [tm|]; simpl.
  - destruct (may_mutate u tm meeting) eqn:Hmay; simpl.
    + rewrite Hst, Hen. simpl. rewrite Hle. simpl.
      split_and!; [done | done | by intros tm' _ _].
    + split_and!; [done | done |]. intros tm' [= <-]. congruence.
  - split_and!; [done | done |]. intros tm' [=].
Qed.

Lemma update_with_end_before_start_is_rejected_witness :
  (meetings Sample.db !! 1 = Some Sample.standup
   ∧ m_start_time (apply_update Sample.standup Sample.end_early) = Some Sample.one_pm
   ∧ m_end_time (apply_update Sample.standup Sample.end_early) = Some Sample.ten_to_one
   ∧ datetime_le Sample.ten_to_one Sample.one_pm = Some true)
  ∧ (store_after (update_meeting 1 Sample.end_early Sample.alice) Sample.env Sample.db
     = Sample.db
     ∧ outcome (update_meeting 1 Sample.end_early Sample.alice) Sample.env Sample.db
       = Raise (HTTPException 400 "end_time must be greater than start_time")).
Proof.
  assert (H1 : meetings Sample.db !! 1 = Some Sample.standup) by reflexivity.
  assert (H2 : m_start_time (apply_update Sample.standup Sample.end_early)
               = Some Sample.one_pm) by reflexivity.
  assert (H3 : m_end_time (apply_update Sample.standup Sample.end_early)
               = Some Sample.ten_to_one) by reflexivity.
  assert (H4 : datetime_le Sample.ten_to_one Sample.one_pm = Some true) by reflexivity.
  split; [done|].
  destruct (update_with_end_before_start_is_rejected
              Sample.env Sample.db 1 Sample.standup Sample.end_early Sample.alice
              Sample.one_pm Sample.ten_to_one H1 H2 H3 H4) as (Hd & _ & Hr).
  split; [exact Hd|].
  apply (Hr {| tm_team_id := 7; tm_user_id := 11%N; tm_role := "LEADER" |});
    reflexivity.
Defined.

(** The session did hold the modified meeting when the check failed; it is
    the missing commit that keeps the store unchanged. *)
Example rejected_update_had_touched_the_session :
  let s := (update_meeting 1 Sample.end_early Sample.alice Sample.env
              {| committed := Sample.db; session := Sample.db; ticks := 0 |}).2 in
  m_title <$> meetings (session s) !! 1 = Some (Some "Standup (short)")
  ∧ m_title <$> meetings (committed s) !! 1 = Some (Some "Standup").
Proof. split; vm_compute; reflexivity. Qed.

(** A naive and an aware time do not compare: the update stops with
    [TypeError], again without a commit. *)
Example update_mixing_naive_and_aware :
  run (update_meeting 1
         {| mu_title := None; mu_start_time := None;
            mu_end_time := Some {| wall := 46200000000; tzinfo := None |};
            mu_meeting_link := None |}
         Sample.alice) Sample.env Sample.db
  = (Raise TypeError, Sample.db).
Proof. vm_compute. reflexivity. Qed.

(** ** Meetings: joining *)

(** A join of a meeting with a room, by a member. *)
Lemma join_with_room env d id meeting room u :
  meetings d !! id = Some meeting →
  m_link_url meeting = Some room →
  room ≠ EmptyString →
  is_member d (m_team_id meeting) (user_id u) →
  run (join_meeting id u) env d
  = (Ok {| j_meeting_id := id; j_team_id := m_team_id meeting;
           j_peer_room_id := Some room |}, d).
Proof.
  intros Hm Hroom Hne Hu. apply membership_of_member in Hu as (tm & Htm & _).
  unfold membership in Htm. unfold join_meeting. run_request.
  rewrite Hm. simpl. rewrite Htm. simpl. rewrite Hroom.
  destruct room; [done|]. simpl. by rewrite Hroom.
Qed.

(** C5.  On a meeting whose room identifier is set (a non-empty string), a
    member's join returns that identifier and leaves the store as it is; a
    second join, by any member, returns the same identifier and again writes
    nothing. *)
Theorem join_is_idempotent env1 env2 d id meeting room u1 u2 :
  meetings d !! id = Some meeting →
  m_link_url meeting = Some room →
  room ≠ EmptyString →
  is_member d (m_team_id meeting) (user_id u1) →
  is_member d (m_team_id meeting) (user_id u2) →
  let answer := {| j_meeting_id := id; j_team_id := m_team_id meeting;
                   j_peer_room_id := Some room |} in
  let d1 := store_after (join_meeting id u1) env1 d in
  outcome (join_meeting id u1) env1 d = Ok answer
  ∧ outcome (join_meeting id u2) env2 d1 = Ok answer
  ∧ store_after (join_meeting id u2) env2 d1 = d1
  ∧ d1 = d.
Proof.
  intros Hm Hroom Hne Hu1 Hu2. simpl. unfold outcome, store_after.
  rewrite (join_with_room env1 d id meeting room u1) by done. simpl.
  by rewrite (join_with_room env2 d id meeting room u2).
Qed.

Lemma join_is_idempotent_witness :
  (meetings Sample.db !! 1 = Some Sample.standup
   ∧ m_link_url Sample.standup = Some "room-1"
   ∧ "room-1" ≠ EmptyString
   ∧ is_member Sample.db 7 (user_id Sample.bob)
   ∧ is_member Sample.db 7 (user_id Sample.alice))
  ∧ outcome (join_meeting 1 Sample.alice) Sample.env
      (store_after (join_meeting 1 Sample.bob) Sample.env Sample.db)
    = Ok {| j_meeting_id := 1; j_team_id := 7; j_peer_room_id := Some "room-1" |}.
Proof.
  assert (H1 : meetings Sample.db !! 1 = Some Sample.standup) by reflexivity.
  assert (H2 : m_link_url Sample.standup = Some "room-1") by reflexivity.
  assert (H3 : "room-1" ≠ EmptyString) by discriminate.
  assert (H4 : is_member Sample.db 7 (user_id Sample.bob)).
  { exists {| tm_team_id := 7; tm_user_id := 12%N; tm_role := "MEMBER" |}.
    split; [|split; reflexivity]. simpl. repeat constructor. }
  assert (H5 : is_member Sample.db 7 (user_id Sample.alice)).
  { exists {| tm_team_id := 7; tm_user_id := 11%N; tm_role := "LEADER" |}.
    split; [|split; reflexivity]. simpl. repeat constructor. }
  split; [done|].
  exact (proj1 (proj2 (join_is_idempotent Sample.env Sample.env Sample.db 1
                         Sample.standup "room-1" Sample.bob Sample.alice
                         H1 H2 H3 H4 H5))).
Defined.

(** ** Meetings: creation *)

Lemma with_notifications_id d : with_notifications d (notifications d) = d.
Proof. by destruct d. Qed.

Lemma for_each_add_notifications (f : TeamMember → Notification) members env s :
  for_each members (fun m => db_add_notification (f m)) env s
  = (Ok tt,
     {| committed := committed s;
        session := with_notifications (session s)
                     (notifications (session s) ++ map f members);
        ticks := ticks s |}).
Proof.
  revert s. induction members as [|m members IH]; intros s; simpl.
  - rewrite app_nil_r, with_notifications_id. by destruct s.
  - run_request. rewrite IH. simpl. by rewrite <- app_assoc.
Qed.

(** The reminder time is aware, so it always compares with the clock. *)
Lemma remind_at_compares env payload :
  datetime_gt (remind_at payload) (reminder_check_time env)
  = Some (utc_clock env 1
          <? wall (mc_start_time payload) - 900000000
             - default 0 (tzinfo (mc_start_time payload))).
Proof.
  unfold remind_at, utc_if_naive, reminder_check_time, clock_reading, datetime_gt,
    datetime_compare, datetime_shift, timedelta_minutes.
  destruct (mc_start_time payload) as [w [off|]]; simpl;
    match goal with
    | |- context [?a ?= ?b] => destruct (Z.compare_spec a b)
    end;
    f_equal; symmetry; first [apply Z.ltb_ge; lia | apply Z.ltb_lt; lia].
Qed.

(** The subtraction of the 15 minutes: its result when a [datetime] can hold
    it, an [OverflowError] otherwise. *)
Lemma reminder_time_sub payload :
  reminder_representable payload →
  datetime_sub (mc_start_time payload) (timedelta_minutes 15)
  = Some (datetime_shift (mc_start_time payload) (- timedelta_minutes 15)).
Proof.
  unfold reminder_representable, datetime_sub, datetime_add, datetime_in_range.
  intros H. rewrite bool_decide_eq_true_2; [done|].
  unfold datetime_shift, timedelta_minutes. simpl. lia.
Qed.

Lemma reminder_time_overflow payload :
  ¬ reminder_representable payload →
  datetime_sub (mc_start_time payload) (timedelta_minutes 15) = None.
Proof.
  unfold reminder_representable, datetime_sub, datetime_add, datetime_in_range.
  intros H. rewrite bool_decide_eq_false_2; [done|].
  unfold datetime_shift, timedelta_minutes. simpl. lia.
Qed.

(** What a creation by a member of an existing team does. *)
Lemma create_meeting_runs iso env d payload u t tm :
  teams d !! mc_team_id payload = Some t →
  membership d (mc_team_id payload) (user_id u) = Some tm →
  reminder_representable payload →
  let meeting := new_meeting env d payload u in
  ∃ pending,
    datetime_gt (remind_at payload) (reminder_check_time env) = Some pending
    ∧ run (create_meeting iso payload u) env d
      = (Ok (to_response meeting),
         with_notifications
           (with_meetings d (<[meeting_id meeting := meeting]> (meetings d)))
           (notifications d
            ++ if pending
               then map (reminder iso payload meeting)
                        (team_rows d (mc_team_id payload))
               else [])).
Proof.
  intros Ht Htm Hr meeting. unfold membership in Htm.
  eexists. split; [apply remind_at_compares|].
  pose proof (remind_at_compares env payload) as Hcmp.
  unfold reminder_check_time, clock_reading, timezone_utc, remind_at in Hcmp.
  unfold create_meeting, run. rewrite (reminder_time_sub _ Hr).
  repeat (progress (
    unfold mbind, mret, req_bind, req_ret, raise, require_team_exists,
      require_team_member, get_session, put_session, now_utc, datetime_now,
      db_add_flush_meeting, select_team_members, db_commit, db_refresh_meeting,
      py_arith;
    simpl)).
  rewrite Ht. simpl. rewrite Htm. simpl.
  subst meeting. unfold new_meeting, stored_link, clock_reading, timezone_utc.
  destruct (str_truthy (mc_meeting_link payload)); unfold gen_peer_room_id;
    simpl; rewrite Hcmp; unfold py_cmp, mret, req_ret; simpl;
    set (pending := utc_clock env 1 <? _);
    (destruct pending; simpl;
     [ rewrite for_each_add_notifications; simpl;
       rewrite lookup_insert_eq; simpl; done
     | rewrite lookup_insert_eq; simpl; by rewrite app_nil_r ]).
Qed.

(** A member's creation whose reminder time no [datetime] can hold raises
    [OverflowError]; the meeting it had flushed is not committed. *)
Lemma create_meeting_overflows iso env d payload u t tm :
  teams d !! mc_team_id payload = Some t →
  membership d (mc_team_id payload) (user_id u) = Some tm →
  ¬ reminder_representable payload →
  run (create_meeting iso payload u) env d = (Raise OverflowError, d).
Proof.
  intros Ht Htm Hr. unfold membership in Htm.
  unfold create_meeting, run. rewrite (reminder_time_overflow _ Hr).
  repeat (progress (
    unfold mbind, mret, req_bind, req_ret, raise, require_team_exists,
      require_team_member, get_session, put_session, now_utc, datetime_now,
      db_add_flush_meeting, py_arith;
    simpl)).
  rewrite Ht. simpl. rewrite Htm. simpl.
  by destruct (str_truthy (mc_meeting_link payload)).
Qed.

(** A creation succeeds only for a member of an existing team. *)
Lemma create_meeting_succeeds_inv iso env d payload u resp :
  outcome (create_meeting iso payload u) env d = Ok resp →
  ∃ t tm, teams d !! mc_team_id payload = Some t
          ∧ membership d (mc_team_id payload) (user_id u) = Some tm.
Proof.
  unfold membership.
  destruct (teams d !! mc_team_id payload) as [t|] eqn:Ht;
    [destruct (find (fun m => bool_decide (tm_team_id m = mc_team_id payload
                                            ∧ tm_user_id m = user_id u))
                    (team_members d)) as [tm|] eqn:Htm|].
  - eauto.
  - unfold create_meeting. run_request. rewrite Ht. simpl. rewrite Htm. done.
  - unfold create_meeting. run_request. rewrite Ht. done.
Qed.

(** A creation succeeds only when a [datetime] can hold its reminder time. *)
Lemma create_meeting_succeeds_range iso env d payload u resp :
  outcome (create_meeting iso payload u) env d = Ok resp →
  reminder_representable payload.
Proof.
  intros Hok.
  destruct (create_meeting_succeeds_inv _ _ _ _ _ _ Hok) as (t & tm & Ht & Htm).
  destruct (decide (reminder_representable payload)) as [Hr|Hr]; [done|].
  unfold outcome in Hok.
  by rewrite (create_meeting_overflows iso env d payload u t tm Ht Htm Hr) in Hok.
Qed.

Lemma membership_row d team user tm :
  membership d team user = Some tm →
  tm ∈ team_rows d team ∧ tm_user_id tm = user.
Proof.
  unfold membership, team_rows. intros H.
  apply find_some in H as [Hin H]. apply bool_decide_eq_true in H as [Ht Hu].
  split; [|done]. apply list_elem_of_filter. split; [done|].
  by apply list_elem_of_In.
Qed.

(** One reminder per membership row, each referring to the meeting. *)
Lemma reminders_count_and_target iso payload meeting rows :
  let new := map (reminder iso payload meeting) rows in
  length new = length rows
  ∧ map n_user_id new = map tm_user_id rows
  ∧ Forall (fun n => n_related_entity_type n = "meeting"
                     ∧ n_related_entity_id n = meeting_id meeting) new.
Proof.
  simpl. split_and!.
  - apply length_map.
  - rewrite map_map. done.
  - apply Forall_forall. intros n Hn. apply list_elem_of_fmap in Hn as (m & -> & _).
    done.
Qed.

(** In a list made from another, as many entries carry a value as entries of
    the other list do. *)
Lemma count_by_key {A B} (f : A → UUID) (g : B → UUID) (l : list A) (l' : list B) v :
  map f l = map g l' →
  length (filter (fun x => f x = v) l) = length (filter (fun y => g y = v) l').
Proof.
  revert l'. induction l as [|x l IH]; intros [|y l'] [=]; [done|].
  rewrite !filter_cons. specialize (IH l' ltac:(done)).
  destruct (decide (f x = v)), (decide (g y = v)); simpl; congruence.
Qed.

(** C4.  A successful creation stores the new meeting under the identifier
    it answers with, and appends to the notifications a list [new] that
    depends on the start time.  The reminder time is the start time minus 15
    minutes, a start time without a time zone being read as UTC; the current
    time is the clock reading taken for the check, the second of the request.
    - When the reminder time is strictly after the current time, [new] holds
      one notification for each membership row of the team, in the order of
      the rows: it is addressed to the row's user, its entity type is
      ["meeting"] and its entity identifier is that of the new meeting.  So
      every user gets as many notifications as the user has membership rows
      on the team, and the organizer, who is a member, is addressed.
    - When the reminder time is at or before the current time, [new] is
      empty: no notification is created. *)
Theorem reminders_of_a_new_meeting iso env d payload u resp :
  outcome (create_meeting iso payload u) env d = Ok resp →
  let d' := store_after (create_meeting iso payload u) env d in
  let members := filter (fun m => tm_team_id m = mc_team_id payload) (team_members d) in
  let start_time := mc_start_time payload in
  let remind_instant :=
    wall start_time - 15 * 60 * 1000000 - default 0 (tzinfo start_time) in
  let now := utc_clock env 1 in
  ∃ meeting new,
    meetings d !! r_meeting_id resp = None
    ∧ meetings d' !! r_meeting_id resp = Some meeting
    ∧ resp = to_response meeting
    ∧ notifications d' = (notifications d ++ new)%list
    ∧ (now < remind_instant →
         map n_user_id new = map tm_user_id members
         ∧ Forall (fun n => n_related_entity_type n = "meeting"
                            ∧ n_related_entity_id n = r_meeting_id resp) new
         ∧ (∀ v, length (filter (fun n => n_user_id n = v) new)
                 = length (filter (fun m => tm_user_id m = v) members))
         ∧ (∃ n, n ∈ new ∧ n_user_id n = user_id u))
    ∧ (remind_instant ≤ now → new = []).
Proof.
  intros Hok d' members start_time remind_instant now.
  destruct (create_meeting_succeeds_inv _ _ _ _ _ _ Hok) as (t & tm & Ht & Htm).
  destruct (create_meeting_runs iso env d payload u t tm Ht Htm
              (create_meeting_succeeds_range _ _ _ _ _ _ Hok))
    as (pending & Hcmp & Hrun).
  rewrite remind_at_compares in Hcmp. injection Hcmp as Hcmp.
  subst d'. unfold outcome, store_after in *. rewrite Hrun in Hok |- *.
  simpl in Hok. injection Hok as <-. simpl.
  eexists (new_meeting env d payload u), _.
  split_and!.
  - apply next_key_fresh.
  - by rewrite lookup_insert_eq.
  - done.
  - reflexivity.
  - intros Hdue.
    assert (pending = true) as ->.
    { rewrite <- Hcmp. apply Z.ltb_lt. subst remind_instant now start_time. lia. }
    destruct (reminders_count_and_target iso payload
                (new_meeting env d payload u) members) as (_ & Husers & Hrefs).
    split_and!.
    + exact Husers.
    + exact Hrefs.
    + intros v. by apply count_by_key.
    + destruct (membership_row _ _ _ _ Htm) as [Hin Hu].
      exists (reminder iso payload (new_meeting env d payload u) tm).
      split; [|done]. apply list_elem_of_fmap. by exists tm.
  - intros Hpast.
    assert (pending = false) as ->; [|done].
    rewrite <- Hcmp. apply Z.ltb_ge. subst remind_instant now start_time. lia.
Qed.

Lemma reminders_of_a_new_meeting_witness :
  outcome (create_meeting Sample.isoformat Sample.kickoff Sample.bob)
    Sample.env Sample.db = Ok Sample.kickoff_response
  ∧ ∃ meeting new,
      meetings Sample.db !! 2 = None
      ∧ meetings (store_after (create_meeting Sample.isoformat Sample.kickoff Sample.bob)
                    Sample.env Sample.db) !! 2 = Some meeting
      ∧ notifications (store_after (create_meeting Sample.isoformat Sample.kickoff
                                      Sample.bob) Sample.env Sample.db)
        = (notifications Sample.db ++ new)%list
      ∧ map n_user_id new = [11%N; 12%N; 16%N]
      ∧ Forall (fun n => n_related_entity_type n = "meeting"
                         ∧ n_related_entity_id n = 2) new.
Proof.
  assert (H : outcome (create_meeting Sample.isoformat Sample.kickoff Sample.bob)
                Sample.env Sample.db = Ok Sample.kickoff_response)
    by (vm_compute; reflexivity).
  split; [exact H|].
  destruct (reminders_of_a_new_meeting Sample.isoformat Sample.env Sample.db
              Sample.kickoff Sample.bob Sample.kickoff_response H)
    as (meeting & new & H1 & H2 & _ & H4 & Hdue & _).
  destruct (Hdue ltac:(reflexivity)) as (Husers & Hrefs & _).
  exists meeting, new. split_and!; assumption.
Defined.

(** The three members of the team each get their reminder. *)
Example kickoff_reminders :
  map (fun n => (n_user_id n, n_related_entity_type n, n_related_entity_id n))
      (notifications (store_after (create_meeting Sample.isoformat Sample.kickoff
                                     Sample.bob) Sample.env Sample.db))
  = [(11%N, "meeting", 2); (12%N, "meeting", 2); (16%N, "meeting", 2)].
Proof. vm_compute. reflexivity. Qed.

(** A reminder time equal to the clock reading is not in the future. *)
Example kickoff_soon_has_no_reminders :
  outcome (create_meeting Sample.isoformat Sample.kickoff_soon Sample.bob)
    Sample.env Sample.db
  = Ok {| r_meeting_id := 2; r_team_id := 7; r_title := Some "Kickoff";
          r_start_time := Some {| wall := 44100000000; tzinfo := Some 0 |};
          r_end_time := Some Sample.two_pm;
          r_meeting_link := Some "AAECAwQFBgcICQ"; r_created_by := 12%N;
          r_created_at := Sample.noon |}
  ∧ notifications (store_after (create_meeting Sample.isoformat Sample.kickoff_soon
                                  Sample.bob) Sample.env Sample.db)
    = [].
Proof. split; vm_compute; reflexivity. Qed.

(** A start time in the first 15 minutes of year 1 has no reminder time: the
    subtraction raises, after the flush and before the commit. *)
Example start_at_datetime_min_overflows :
  run (create_meeting Sample.isoformat Cases.year_one Sample.bob) Sample.env Sample.db
  = (Raise OverflowError, Sample.db).
Proof. vm_compute. reflexivity. Qed.

(** ** Meetings: the room of a created meeting *)

Lemma b64_sextets_nonempty a bs : b64_sextets (a :: bs) ≠ [].
Proof. by destruct bs as [|b [|c bs]]. Qed.

(** The token is not the empty string. *)
Lemma token_urlsafe_nonempty ent n : token_urlsafe ent (S n) ≠ EmptyString.
Proof.
  unfold token_urlsafe, token_bytes.
  change (seq 0 (S n)) with (0%nat :: seq 1 n). rewrite map_cons.
  destruct (b64_sextets (_ :: _)) as [|x xs] eqn:E.
  - by apply b64_sextets_nonempty in E.
  - done.
Qed.

Lemma b64_sextets_length bs :
  length (b64_sextets bs) = ((4 * length bs + 2) / 3)%nat.
Proof.
  induction bs as [bs IH] using (induction_ltof1 _ (@length N)).
  unfold ltof in IH.
  destruct bs as [|a [|b [|c bs]]]; try reflexivity.
  cbn [b64_sextets length]. rewrite IH by (simpl; lia).
  replace (4 * S (S (S (length bs))) + 2)%nat
    with ((4 * length bs + 2) + 4 * 3)%nat by lia.
  rewrite Nat.div_add by lia. lia.
Qed.

(** [token_urlsafe(10)] has 14 characters. *)
Lemma gen_peer_room_id_length ent : String.length (token_urlsafe ent 10) = 14%nat.
Proof.
  unfold token_urlsafe.
  assert (H : ∀ l, String.length (string_of_list_ascii l) = length l).
  { induction l as [|c l IH]; simpl; congruence. }
  rewrite H, length_map, b64_sextets_length.
  unfold token_bytes. rewrite length_map, length_seq. reflexivity.
Qed.

Lemma stored_link_nonempty env payload : stored_link env payload ≠ EmptyString.
Proof.
  unfold stored_link.
  destruct (mc_meeting_link payload) as [[|c l]|]; simpl;
    try apply token_urlsafe_nonempty. done.
Qed.

(** C9.  A meeting created by [create_meeting] is stored with a non-empty
    room identifier: the supplied link when it is a non-empty string, a
    generated token when the link is absent or empty.  On the resulting
    store, a join of that meeting by any member returns this identifier and
    writes nothing, so the allocation branch of [join_meeting] is not taken. *)
Theorem created_meeting_has_a_room iso env d payload u resp :
  outcome (create_meeting iso payload u) env d = Ok resp →
  let d' := store_after (create_meeting iso payload u) env d in
  ∃ room meeting,
    room ≠ EmptyString
    ∧ meetings d' !! r_meeting_id resp = Some meeting
    ∧ m_link_url meeting = Some room
    ∧ r_meeting_link resp = Some room
    ∧ (mc_meeting_link payload = None ∨ mc_meeting_link payload = Some EmptyString →
         room = token_urlsafe (entropy env) 10)
    ∧ (∀ link, mc_meeting_link payload = Some link → link ≠ EmptyString → room = link)
    ∧ (∀ env' u', is_member d' (m_team_id meeting) (user_id u') →
         run (join_meeting (r_meeting_id resp) u') env' d'
         = (Ok {| j_meeting_id := r_meeting_id resp;
                  j_team_id := m_team_id meeting;
                  j_peer_room_id := Some room |}, d')).
Proof.
  intros Hok d'.
  destruct (create_meeting_succeeds_inv _ _ _ _ _ _ Hok) as (t & tm & Ht & Htm).
  destruct (create_meeting_runs iso env d payload u t tm Ht Htm
              (create_meeting_succeeds_range _ _ _ _ _ _ Hok))
    as (pending & _ & Hrun).
  subst d'. unfold outcome, store_after in *. rewrite Hrun in Hok |- *.
  simpl in Hok. injection Hok as <-. simpl.
  exists (stored_link env payload), (new_meeting env d payload u).
  pose proof (stored_link_nonempty env payload) as Hne.
  split_and!; try done.
  - by rewrite lookup_insert_eq.
  - unfold stored_link. by intros [-> | ->].
  - unfold stored_link. intros link -> Hlink. by destruct link.
  - intros env' u' Hu'.
    apply membership_of_member in Hu' as (tm' & Htm' & _).
    unfold membership in Htm'. simpl in Htm'.
    unfold join_meeting. run_request. rewrite lookup_insert_eq. simpl.
    rewrite Htm'. simpl.
    destruct (stored_link env payload) eqn:E; [done|]. simpl.
    by rewrite E.
Qed.

Lemma created_meeting_has_a_room_witness :
  outcome (create_meeting Sample.isoformat Sample.kickoff Sample.bob)
    Sample.env Sample.db = Ok Sample.kickoff_response
  ∧ ∃ room meeting,
      room ≠ EmptyString
      ∧ meetings (store_after (create_meeting Sample.isoformat Sample.kickoff
                                 Sample.bob) Sample.env Sample.db)
          !! r_meeting_id Sample.kickoff_response = Some meeting
      ∧ m_link_url meeting = Some room
      ∧ r_meeting_link Sample.kickoff_response = Some room.
Proof.
  assert (H : outcome (create_meeting Sample.isoformat Sample.kickoff Sample.bob)
                Sample.env Sample.db = Ok Sample.kickoff_response)
    by (vm_compute; reflexivity).
  split; [exact H|].
  destruct (created_meeting_has_a_room Sample.isoformat Sample.env Sample.db
              Sample.kickoff Sample.bob Sample.kickoff_response H)
    as (room & meeting & H1 & H2 & H3 & H4 & _).
  exists room, meeting. done.
Defined.

(** ** Milestones: who may update and delete *)

(** C6.  On an existing milestone, a caller other than its creator gets the
    403 of the handler from update and from delete, and the store is
    unchanged; so an update or delete that succeeds was made by the creator.
    Neither the caller's global role nor the lecturer of the class enters. *)
Theorem only_the_creator_mutates_a_milestone env d id ms u :
  milestones d !! id = Some ms →
  (user_id u ≠ ms_created_by ms →
     (∀ upd, run (update_milestone id upd u) env d
             = (Raise (HTTPException 403
                         "Only the creating lecturer can update this milestone"), d))
     ∧ run (delete_milestone id u) env d
       = (Raise (HTTPException 403
                   "Only the creating lecturer can delete this milestone"), d))
  ∧ (∀ upd r, outcome (update_milestone id upd u) env d = Ok r →
              user_id u = ms_created_by ms)
  ∧ (∀ r, outcome (delete_milestone id u) env d = Ok r →
          user_id u = ms_created_by ms).
Proof.
  intros Hms.
  assert (Hne : user_id u ≠ ms_created_by ms →
                N.eqb (ms_created_by ms) (user_id u) = false).
  { intros H. apply N.eqb_neq. congruence. }
  split_and!.
  - intros Hu. specialize (Hne Hu). split.
    + intros upd. unfold update_milestone. run_request. rewrite Hms. simpl.
      by rewrite Hne.
    + unfold delete_milestone. run_request. rewrite Hms. simpl. by rewrite Hne.
  - intros upd r. destruct (decide (user_id u = ms_created_by ms)) as [|Hu]; [done|].
    specialize (Hne Hu). unfold update_milestone. run_request. rewrite Hms. simpl.
    by rewrite Hne.
  - intros r. destruct (decide (user_id u = ms_created_by ms)) as [|Hu]; [done|].
    specialize (Hne Hu). unfold delete_milestone. run_request. rewrite Hms. simpl.
    by rewrite Hne.
Qed.

Lemma only_the_creator_mutates_a_milestone_witness :
  milestones Sample.db !! 1 = Some Sample.proposal
  ∧ user_id Sample.admin ≠ ms_created_by Sample.proposal
  ∧ (∀ upd, run (update_milestone 1 upd Sample.admin) Sample.env Sample.db
            = (Raise (HTTPException 403
                        "Only the creating lecturer can update this milestone"),
               Sample.db))
  ∧ run (delete_milestone 1 Sample.admin) Sample.env Sample.db
    = (Raise (HTTPException 403
                "Only the creating lecturer can delete this milestone"), Sample.db).
Proof.
  assert (H1 : milestones Sample.db !! 1 = Some Sample.proposal) by reflexivity.
  assert (H2 : user_id Sample.admin ≠ ms_created_by Sample.proposal) by discriminate.
  split; [exact H1|]. split; [exact H2|].
  exact (proj1 (only_the_creator_mutates_a_milestone
                  Sample.env Sample.db 1 Sample.proposal Sample.admin H1) H2).
Defined.

(** The creator's delete removes the milestone and the checkpoints under it. *)
Lemma creator_deletes_milestone env d id ms u :
  milestones d !! id = Some ms →
  user_id u = ms_created_by ms →
  run (delete_milestone id u) env d
  = (Ok tt,
     with_checkpoints
       (with_milestones d (delete (milestone_id ms) (milestones d)))
       (filter (fun kc => cp_milestone_id kc.2 ≠ milestone_id ms) (checkpoints d))).
Proof.
  intros Hms Hu. unfold delete_milestone. run_request. rewrite Hms. simpl.
  rewrite Hu, N.eqb_refl. done.
Qed.

(** The lecturer of the class is refused on a milestone someone else created. *)
Example class_lecturer_is_not_the_creator :
  lecturer_id <$> classes Sample.db !! ms_class_id Sample.handover
  = Some (user_id Sample.lecturer)
  ∧ run (delete_milestone 2 Sample.lecturer) Sample.env Sample.db
    = (Raise (HTTPException 403
                "Only the creating lecturer can delete this milestone"), Sample.db).
Proof. split; vm_compute; reflexivity. Qed.

(** ** Checkpoints: creation *)

(** C7.  For a validated request by the lecturer of the class of an existing
    milestone, naming an existing team: if the team's class is not the
    milestone's, the creation fails with a 400 validation error and the store
    is unchanged; if it is, the identifiers of path and body agree, and the
    request names no status (the field is left out or null), the checkpoint is
    stored with status ["pending"]. *)
Theorem checkpoint_team_must_belong_to_the_class env d id body data u ms ac team :
  parse_CheckpointCreate body = Some data →
  milestones d !! id = Some ms →
  classes d !! ms_class_id ms = Some ac →
  lecturer_id ac = user_id u →
  teams d !! cc_team_id data = Some team →
  (team_class_id team ≠ ms_class_id ms →
     is_validation_error (outcome (create_checkpoint id data u) env d)
     ∧ store_after (create_checkpoint id data u) env d = d)
  ∧ (team_class_id team = ms_class_id ms →
     cc_milestone_id data = id →
     ccb_status body = Unset ∨ ccb_status body = Given None →
     ∃ cp, outcome (create_checkpoint id data u) env d = Ok cp
           ∧ cp_status cp = Some "pending"
           ∧ cp_milestone_id cp = id
           ∧ cp_team_id cp = cc_team_id data
           ∧ checkpoints d !! checkpoint_id cp = None
           ∧ store_after (create_checkpoint id data u) env d
             = with_checkpoints d (<[checkpoint_id cp := cp]> (checkpoints d))).
Proof.
  intros Hparse Hms Hac Hlec Hteam. split.
  - intros Hcls. unfold create_checkpoint.
    destruct (cc_milestone_id data =? id) eqn:Hid; simpl.
    + run_request. rewrite Hms. simpl. rewrite Hac. simpl.
      rewrite Hlec, N.eqb_refl. simpl. rewrite Hteam. simpl.
      apply Z.eqb_neq in Hcls. rewrite Hcls. simpl. eauto.
    + run_request. eauto.
  - intros Hcls Hid Hstatus.
    assert (Hst : (if str_truthy (cc_status data) then cc_status data
                   else Some "pending") = Some "pending").
    { unfold parse_CheckpointCreate in Hparse.
      destruct (_ && _); [|done]. injection Hparse as <-. simpl.
      by destruct Hstatus as [-> | ->]. }
    unfold create_checkpoint. apply Z.eqb_eq in Hid. rewrite Hid. simpl.
    run_request. rewrite Hms. simpl. rewrite Hac. simpl.
    rewrite Hlec, N.eqb_refl. simpl. rewrite Hteam. simpl.
    apply Z.eqb_eq in Hcls. rewrite Hcls. simpl.
    rewrite lookup_insert_eq. simpl. rewrite Hst.
    eexists. split_and!; try done. simpl. apply next_key_fresh.
Qed.

Lemma checkpoint_team_must_belong_to_the_class_witness :
  (parse_CheckpointCreate Sample.first_draft = Some Sample.first_draft_data
   ∧ milestones Sample.db !! 1 = Some Sample.proposal
   ∧ classes Sample.db !! ms_class_id Sample.proposal
     = Some {| class_id := 3; lecturer_id := 14%N |}
   ∧ teams Sample.db !! cc_team_id Sample.first_draft_data
     = Some {| team_id := 7; team_class_id := 3 |})
  ∧ ∃ cp, outcome (create_checkpoint 1 Sample.first_draft_data Sample.lecturer)
            Sample.env Sample.db = Ok cp
          ∧ cp_status cp = Some "pending".
Proof.
  assert (H0 : parse_CheckpointCreate Sample.first_draft
               = Some Sample.first_draft_data) by reflexivity.
  assert (H1 : milestones Sample.db !! 1 = Some Sample.proposal) by reflexivity.
  assert (H2 : classes Sample.db !! ms_class_id Sample.proposal
               = Some {| class_id := 3; lecturer_id := 14%N |}) by reflexivity.
  assert (H3 : lecturer_id {| class_id := 3; lecturer_id := 14%N |}
               = user_id Sample.lecturer) by reflexivity.
  assert (H4 : teams Sample.db !! cc_team_id Sample.first_draft_data
               = Some {| team_id := 7; team_class_id := 3 |}) by reflexivity.
  split; [done|].
  destruct (proj2 (checkpoint_team_must_belong_to_the_class
                     Sample.env Sample.db 1 Sample.first_draft
                     Sample.first_draft_data Sample.lecturer Sample.proposal
                     _ _ H0 H1 H2 H3 H4)
              eq_refl eq_refl (or_introl eq_refl))
    as (cp & Hok & Hst & _).
  exists cp. done.
Defined.

(** The scenario of the specification: a team of another class is refused. *)
Example checkpoint_for_a_foreign_team :
  run (create_checkpoint 1 Sample.foreign_draft_data Sample.lecturer)
    Sample.env Sample.db
  = (Raise (HTTPException 400 "Team does not belong to this class"), Sample.db).
Proof. vm_compute. reflexivity. Qed.

(** ** Milestones: the due date *)

(** A due date always compares with the current time it is checked against,
    and is either at or before it, or strictly after it. *)
Lemma due_date_compares env due :
  (at_or_before due (due_date_check_time env due)
   ∧ ¬ strictly_after due (due_date_check_time env due))
  ∨ (strictly_after due (due_date_check_time env due)
     ∧ datetime_le due (due_date_check_time env due) = Some false).
Proof.
  unfold at_or_before, strictly_after, due_date_check_time, clock_reading,
    datetime_le, datetime_gt, datetime_compare.
  destruct due as [w [off|]]; simpl;
    match goal with
    | |- context [?a ?= ?b] => destruct (a ?= b)
    end; naive_solver.
Qed.

(** Creation by the lecturer of the class. *)
Lemma create_milestone_due_date dflt env d u data ac :
  classes d !! msc_class_id data = Some ac →
  lecturer_id ac = user_id u →
  let now := due_date_check_time env (msc_due_date data) in
  (at_or_before (msc_due_date data) now →
     run (create_milestone dflt data u) env d
     = (Raise (HTTPException 400 "Due date must be in the future"), d))
  ∧ (strictly_after (msc_due_date data) now →
     ∃ new, run (create_milestone dflt data u) env d
            = (Ok new, with_milestones d (<[milestone_id new := new]> (milestones d)))
            ∧ milestones d !! milestone_id new = None
            ∧ ms_due_date new = msc_due_date data).
Proof.
  intros Hac Hlec now. subst now. split.
  - intros Hle. unfold at_or_before, due_date_check_time in Hle.
    unfold create_milestone. run_request. rewrite Hac. simpl.
    rewrite Hlec, N.eqb_refl. simpl. by rewrite Hle.
  - intros Hgt.
    destruct (due_date_compares env (msc_due_date data)) as [[_ H]|[_ Hle]]; [done|].
    unfold due_date_check_time in Hle.
    unfold create_milestone. run_request. rewrite Hac. simpl.
    rewrite Hlec, N.eqb_refl. simpl. rewrite Hle. simpl.
    rewrite lookup_insert_eq. simpl.
    match goal with |- ∃ _, (Ok ?m, _) = _ ∧ _ => exists m end.
    split_and!; [reflexivity | apply next_key_fresh | reflexivity].
Qed.

(** Update by the creator, with a due date among the given fields. *)
Lemma update_milestone_due_date env d u id ms upd due :
  milestones d !! id = Some ms →
  ms_created_by ms = user_id u →
  msu_due_date upd = Given (Some due) →
  let now := due_date_check_time env due in
  (at_or_before due now →
     run (update_milestone id upd u) env d
     = (Raise (HTTPException 400 "Due date must be in the future"), d))
  ∧ (strictly_after due now →
     ∃ ms', run (update_milestone id upd u) env d
            = (Ok ms', with_milestones d (<[milestone_id ms := ms']> (milestones d)))
            ∧ ms_due_date ms' = due).
Proof.
  intros Hms Hby Hupd now. subst now. split.
  - intros Hle. unfold at_or_before, due_date_check_time in Hle.
    unfold update_milestone. run_request. rewrite Hms. simpl.
    rewrite Hby, N.eqb_refl. simpl. rewrite Hupd. simpl. by rewrite Hle.
  - intros Hgt.
    destruct (due_date_compares env due) as [[_ H]|[_ Hle]]; [done|].
    unfold due_date_check_time in Hle.
    unfold update_milestone. run_request. rewrite Hms. simpl.
    rewrite Hby, N.eqb_refl. simpl. rewrite Hupd. simpl. rewrite Hle. simpl.
    destruct (msu_title upd), (msu_description upd), (msu_weight upd); simpl;
      rewrite lookup_insert_eq; simpl;
      match goal with |- ∃ _, (Ok ?m, _) = _ ∧ _ => exists m end;
      (split; reflexivity).
Qed.

(** C8.  The lecturer of the class creating a milestone, and the creator of a
    milestone updating it with a due date: a due date at or before the current
    time is rejected with the 400 validation error and nothing is stored; a
    due date strictly after the current time is accepted and stored. *)
Theorem due_date_must_be_in_the_future dflt env d u :
  let rejected := Raise (HTTPException 400 "Due date must be in the future") in
  (∀ data ac,
     classes d !! msc_class_id data = Some ac →
     lecturer_id ac = user_id u →
     let now := due_date_check_time env (msc_due_date data) in
     (at_or_before (msc_due_date data) now →
        run (create_milestone dflt data u) env d = (rejected, d))
     ∧ (strictly_after (msc_due_date data) now →
        ∃ new, run (create_milestone dflt data u) env d
               = (Ok new,
                  with_milestones d (<[milestone_id new := new]> (milestones d)))
               ∧ milestones d !! milestone_id new = None
               ∧ ms_due_date new = msc_due_date data))
  ∧ (∀ id ms upd due,
       milestones d !! id = Some ms →
       ms_created_by ms = user_id u →
       msu_due_date upd = Given (Some due) →
       let now := due_date_check_time env due in
       (at_or_before due now →
          run (update_milestone id upd u) env d = (rejected, d))
       ∧ (strictly_after due now →
          ∃ ms', run (update_milestone id upd u) env d
                 = (Ok ms',
                    with_milestones d (<[milestone_id ms := ms']> (milestones d)))
                 ∧ ms_due_date ms' = due)).
Proof.
  split.
  - intros data ac. apply create_milestone_due_date.
  - intros id ms upd due. apply update_milestone_due_date.
Qed.

Lemma due_date_must_be_in_the_future_witness :
  (classes Sample.db !! msc_class_id (Sample.report 1)
   = Some {| class_id := 3; lecturer_id := 14%N |}
   ∧ milestones Sample.db !! 1 = Some Sample.proposal
   ∧ ms_created_by Sample.proposal = user_id Sample.lecturer
   ∧ strictly_after Sample.one_pm (due_date_check_time Sample.env Sample.one_pm)
   ∧ at_or_before Sample.eleven_am (due_date_check_time Sample.env Sample.eleven_am))
  ∧ (∃ new, run (create_milestone None (Sample.report 1) Sample.lecturer)
              Sample.env Sample.db
            = (Ok new, with_milestones Sample.db
                         (<[milestone_id new := new]> (milestones Sample.db)))
            ∧ milestones Sample.db !! milestone_id new = None
            ∧ ms_due_date new = Sample.one_pm)
  ∧ run (update_milestone 1 (Sample.move_due_date Sample.eleven_am) Sample.lecturer)
      Sample.env Sample.db
    = (Raise (HTTPException 400 "Due date must be in the future"), Sample.db).
Proof.
  assert (H1 : classes Sample.db !! msc_class_id (Sample.report 1)
               = Some {| class_id := 3; lecturer_id := 14%N |}) by reflexivity.
  assert (H2 : lecturer_id {| class_id := 3; lecturer_id := 14%N |}
               = user_id Sample.lecturer) by reflexivity.
  assert (H3 : milestones Sample.db !! 1 = Some Sample.proposal) by reflexivity.
  assert (H4 : ms_created_by Sample.proposal = user_id Sample.lecturer)
    by reflexivity.
  assert (H5 : msu_due_date (Sample.move_due_date Sample.eleven_am)
               = Given (Some Sample.eleven_am)) by reflexivity.
  assert (H6 : strictly_after Sample.one_pm
                 (due_date_check_time Sample.env Sample.one_pm)) by reflexivity.
  assert (H7 : at_or_before Sample.eleven_am
                 (due_date_check_time Sample.env Sample.eleven_am)) by reflexivity.
  split; [done|].
  destruct (due_date_must_be_in_the_future None Sample.env Sample.db
              Sample.lecturer) as [Hcreate Hupdate].
  destruct (Hcreate (Sample.report 1) _ H1 H2) as [_ Hcreate'].
  destruct (Hupdate 1 Sample.proposal (Sample.move_due_date Sample.eleven_am)
              Sample.eleven_am H3 H4 H5) as [Hupdate' _].
  split; [exact (Hcreate' H6) | exact (Hupdate' H7)].
Defined.

(** A due date equal to the clock reading is not in the future. *)
Example due_now_is_rejected :
  run (update_milestone 1 (Sample.move_due_date Sample.noon) Sample.lecturer)
    Sample.env Sample.db
  = (Raise (HTTPException 400 "Due date must be in the future"), Sample.db).
Proof. vm_compute. reflexivity. Qed.

(** A due date given as null has no [tzinfo] to ask the clock with. *)
Example null_due_date_is_an_error :
  run (update_milestone 1
         {| msu_title := Unset; msu_description := Unset;
            msu_due_date := Given None; msu_weight := Unset |}
         Sample.lecturer) Sample.env Sample.db
  = (Raise AttributeError, Sample.db).
Proof. vm_compute. reflexivity. Qed.

(** ** Milestones: the weight *)

(** C2, creation.  [create_milestone] does not hand the request's weight to
    the new row: whatever fraction the request carries, the row is stored with
    the default of the weight column.  Here two requests that differ in their
    weight only (1/5 and 1) store the same milestone. *)
Theorem create_milestone_ignores_the_weight (dflt : option Q) :
  let created w :=
    run (create_milestone dflt (Sample.report w) Sample.lecturer)
      Sample.env Sample.db in
  created (1 # 5)%Q = created 1%Q
  ∧ ∃ new, (created (1 # 5)%Q).1 = Ok new
           ∧ ms_weight new = dflt
           ∧ milestones (created (1 # 5)%Q).2 !! milestone_id new = Some new.
Proof.
  simpl. split; [reflexivity|].
  eexists. split_and!; vm_compute; reflexivity.
Qed.

(** The same on every store: the outcome of a creation does not depend on the
    weight of the request. *)
Lemma create_milestone_weight_irrelevant dflt env d u data w :
  run (create_milestone dflt data u) env d
  = run (create_milestone dflt
           {| msc_class_id := msc_class_id data; msc_title := msc_title data;
              msc_description := msc_description data;
              msc_due_date := msc_due_date data; msc_weight := w |} u) env d.
Proof. reflexivity. Qed.

(** C2, update.  An update by the creator that gives a weight stores it, as it
    stores a given title and description. *)
Lemma update_milestone_replaces_weight env d id ms u upd w :
  milestones d !! id = Some ms →
  ms_created_by ms = user_id u →
  msu_due_date upd = Unset →
  msu_weight upd = Given w →
  ∃ ms', run (update_milestone id upd u) env d
         = (Ok ms', with_milestones d (<[milestone_id ms := ms']> (milestones d)))
         ∧ ms_weight ms' = w
         ∧ ms_due_date ms' = ms_due_date ms.
Proof.
  intros Hms Hby Hdue Hw.
  unfold update_milestone. run_request. rewrite Hms. simpl.
  rewrite Hby, N.eqb_refl. simpl. rewrite Hdue, Hw. simpl.
  destruct (msu_title upd), (msu_description upd); simpl;
    rewrite lookup_insert_eq; simpl;
    match goal with |- ∃ _, (Ok ?m, _) = _ ∧ _ => exists m end;
    (split_and!; reflexivity).
Qed.

(** ** Listings: an identifier of 0 as a filter *)

Lemma StronglySorted_lookup {A} (R : relation A) (l : list A) i j a b :
  StronglySorted R l → (i < j)%nat →
  l !! i = Some a → l !! j = Some b → R a b.
Proof.
  intros Hs. revert i j. induction Hs as [|x l Hs IH Hx]; intros i j Hij Hi Hj.
  - by rewrite lookup_nil in Hi.
  - destruct j as [|j]; [lia|]. simpl in Hj. destruct i as [|i]; simpl in Hi.
    + injection Hi as ->. rewrite Forall_forall in Hx. apply Hx.
      by apply list_elem_of_lookup_2 in Hj.
    + apply (IH i j); [lia | done | done].
Qed.

Lemma elem_of_rows {V} (t : gmap Z V) (x : V) :
  x ∈ (map_to_list t).*2 ↔ ∃ k, t !! k = Some x.
Proof.
  rewrite list_elem_of_fmap. split.
  - intros ([k y] & -> & Hin). exists k. by apply elem_of_map_to_list in Hin.
  - intros [k Hk]. exists (k, x). split; [done|]. by apply elem_of_map_to_list.
Qed.

Lemma filter_selected {A} (key : A → Z) (wanted : option Z) (l : list A) :
  (if int_truthy wanted
   then filter (fun x => Some (key x) = wanted) l
   else l)
  = filter (fun x => selected wanted (key x)) l.
Proof.
  destruct (int_truthy wanted) eqn:E.
  - apply list_filter_iff. intros x. unfold selected. split; [by right|].
    intros [?|?]; [congruence|done].
  - symmetry. induction l as [|x l IH]; [done|].
    rewrite filter_cons_True by (by left). by rewrite IH.
Qed.

Lemma order_by_strongly_sorted {A} (key rank : A → Z) (l : list A) :
  StronglySorted (fun a b => key a ≤ key b) (order_by key rank l).
Proof.
  unfold order_by.
  set (R := fun a b => key a < key b ∨ (key a = key b ∧ rank a ≤ rank b)).
  match goal with
  | |- StronglySorted _ ?sorted =>
      assert (Hs : StronglySorted R sorted);
      [ apply (@StronglySorted_merge_sort _ R);
        [ intros x y z; unfold R; lia | intros x y; unfold R; lia ]
      | revert Hs; generalize sorted; intros l0 Hs ]
  end.
  induction Hs as [|x l' Hs IH Hx]; constructor; [done|].
  eapply Forall_impl; [exact Hx|]. unfold R. simpl. lia.
Qed.

Lemma order_by_sorted {A} (key rank : A → Z) (l : list A) i j a b :
  (i < j)%nat →
  order_by key rank l !! i = Some a → order_by key rank l !! j = Some b →
  key a ≤ key b.
Proof.
  apply (StronglySorted_lookup (fun a b => key a ≤ key b)).
  apply order_by_strongly_sorted.
Qed.

Lemma order_by_perm {A} (key rank : A → Z) (l : list A) : order_by key rank l ≡ₚ l.
Proof. unfold order_by. apply merge_sort_Permutation. Qed.



(** What the checkpoint listing of a stored milestone answers. *)
Lemma list_checkpoints_arranged env d id team ms :
  milestones d !! id = Some ms →
  ∃ rows,
    run (list_checkpoints id team) env d = (Ok rows, d)
    ∧ rows ≡ₚ filter (fun c => selected team (cp_team_id c))
                (filter (fun c => cp_milestone_id c = id)
                        (map_to_list (checkpoints d)).*2)
    ∧ StronglySorted (fun a b => checkpoint_id a ≤ checkpoint_id b) rows.
Proof.
  intros Hms.
  exists (order_by checkpoint_id (fun c => row_order env (checkpoint_id c))
            (filter (fun c => selected team (cp_team_id c))
               (filter (fun c => cp_milestone_id c = id)
                       (map_to_list (checkpoints d)).*2))).
  split_and!.
  - unfold list_checkpoints. run_request. rewrite Hms. simpl.
    by rewrite (filter_selected cp_team_id).
  - apply order_by_perm.
  - apply order_by_strongly_sorted.
Qed.




(** No milestone of the sample store belongs to a class 0, and both are
    listed, by due date; a filter on a class without milestones lists none. *)
Example list_milestones_of_class_zero :
  map lr_milestone_id
    (match outcome (list_milestones (Some 0) 0 100) Sample.env Sample.db with
     | Ok l => l
     | Raise _ => []
     end) = [2; 1]
  ∧ outcome (list_milestones (Some 4) 0 100) Sample.env Sample.db = Ok [].
Proof. split; vm_compute; reflexivity. Qed.

Example list_checkpoints_of_team_zero :
  outcome (list_checkpoints 1 (Some 0)) Sample.env Sample.db = Ok [Sample.draft]
  ∧ outcome (list_checkpoints 1 (Some 8)) Sample.env Sample.db = Ok [].
Proof. split; vm_compute; reflexivity. Qed.

(** ** Supplements *)

(** When no user has two membership rows on the team, each member is
    addressed by exactly one of the reminders. *)
Lemma one_reminder_per_member iso payload meeting (rows : list TeamMember) v :
  NoDup (map tm_user_id rows) →
  (∃ tm, tm ∈ rows ∧ tm_user_id tm = v) →
  length (filter (fun n => n_user_id n = v)
                 (map (reminder iso payload meeting) rows)) = 1%nat.
Proof.
  assert (Hnone : ∀ l : list TeamMember, v ∉ map tm_user_id l →
            filter (fun n => n_user_id n = v)
                   (map (reminder iso payload meeting) l) = []).
  { induction l as [|m l IH]; intros Hv; [done|]. simpl in *.
    apply not_elem_of_cons in Hv as [Hne Hv].
    rewrite filter_cons_False by (simpl; congruence). by apply IH. }
  induction rows as [|m rows IH]; intros Hnd (tm & Hin & Hv).
  - by apply elem_of_nil in Hin.
  - simpl in *. apply NoDup_cons in Hnd as [Hm Hnd].
    destruct (decide (tm_user_id m = v)) as [Heq|Hne].
    + rewrite filter_cons_True by done. simpl.
      rewrite Hnone; [done|]. by rewrite <- Heq.
    + rewrite filter_cons_False by done.
      apply IH; [done|]. exists tm. split; [|done].
      apply elem_of_cons in Hin as [->|Hin]; [done|done].
Qed.

(** The weight a validated creation request carries lies between 0 and 1, and
    is 1 when the body names none. *)
Lemma parse_MilestoneCreate_weight body data :
  parse_MilestoneCreate body = Some data →
  (0 <= msc_weight data)%Q ∧ (msc_weight data <= 1)%Q
  ∧ (body_weight body = None → msc_weight data = 1%Q)
  ∧ (∀ w, body_weight body = Some w → msc_weight data = w).
Proof.
  unfold parse_MilestoneCreate. intros H.
  destruct (_ && _) eqn:E; [|done]. injection H as <-. simpl.
  repeat (apply andb_prop in E as [E ?]).
  split_and!.
  - by apply Qle_bool_iff.
  - by apply Qle_bool_iff.
  - by intros ->.
  - by intros w ->.
Qed.

(** X29.  Joining twice agrees whatever the link was before: the first join
    of a meeting without a room allocates one, the second, by any member,
    finds it, returns the same identifier and writes nothing. *)
Lemma join_twice_agrees env1 env2 d id meeting u1 u2 :
  meetings d !! id = Some meeting →
  meeting_id meeting = id →
  is_member d (m_team_id meeting) (user_id u1) →
  is_member d (m_team_id meeting) (user_id u2) →
  let d1 := store_after (join_meeting id u1) env1 d in
  ∃ room,
    room ≠ EmptyString
    ∧ outcome (join_meeting id u1) env1 d
      = Ok {| j_meeting_id := id; j_team_id := m_team_id meeting;
              j_peer_room_id := Some room |}
    ∧ run (join_meeting id u2) env2 d1
      = (Ok {| j_meeting_id := id; j_team_id := m_team_id meeting;
               j_peer_room_id := Some room |}, d1).
Proof.
  intros Hm Hid Hu1 Hu2 d1.
  destruct (str_truthy (m_link_url meeting)) eqn:Hlink.
  - destruct (m_link_url meeting) as [[|c room]|] eqn:Hroom; try done.
    exists (String c room). subst d1. unfold outcome, store_after.
    rewrite (join_with_room env1 d id meeting (String c room) u1) by done.
    simpl.
    by rewrite (join_with_room env2 d id meeting (String c room) u2).
  - apply membership_of_member in Hu1 as (tm1 & Htm1 & _).
    apply membership_of_member in Hu2 as (tm2 & Htm2 & _).
    unfold membership in Htm1, Htm2.
    pose proof (token_urlsafe_nonempty (entropy env1) 9) as Hne.
    exists (token_urlsafe (entropy env1) 10). split; [done|].
    subst d1. unfold join_meeting, gen_peer_room_id.
    remember (token_urlsafe (entropy env1) 10) as token eqn:Htoken.
    run_request.
    rewrite Hm. simpl. rewrite Htm1. simpl. rewrite Hlink. simpl.
    rewrite Hid, lookup_insert_eq. simpl. rewrite <- !Htoken.
    split; [done|].
    rewrite lookup_insert_eq. simpl. rewrite Htm2. simpl.
    destruct token; [done|]. done.
Qed.

(** The schema of a creation request refuses an end time at or before the
    start time, and lets a later one through; the schema of an update does the
    same when the request names both times. *)
Lemma validate_end_time_spec st en :
  (at_or_before en st →
     validate_end_time (Some st) en
     = Raise (ValueError "end_time must be greater than start_time")
     ∧ validate_end_time_update (Some st) (Some en)
       = Raise (ValueError "end_time must be greater than start_time"))
  ∧ (strictly_after en st →
     validate_end_time (Some st) en = Ok en
     ∧ validate_end_time_update (Some st) (Some en) = Ok (Some en)).
Proof.
  unfold at_or_before, strictly_after, validate_end_time,
    validate_end_time_update, datetime_le, datetime_gt.
  destruct (datetime_compare en st) as [[| |]|]; split; intros [=]; done.
Qed.

(** An update that names only an end time passes the schema whatever the
    stored start time is: the check of [update_meeting] is the one that sees
    the stored meeting. *)
Lemma validate_end_time_update_without_start en :
  validate_end_time_update None en = Ok en.
Proof. reflexivity. Qed.

(** * Further properties of the handlers *)

(** ** Meetings *)

Lemma may_mutate_allowed u tm meeting :
  may_mutate u tm meeting = true ↔ allowed u tm meeting.
Proof.
  unfold may_mutate, allowed.
  rewrite !orb_true_iff, bool_decide_eq_true, String.eqb_eq, N.eqb_eq.
  rewrite !elem_of_cons, elem_of_nil. tauto.
Qed.

Lemma le_false_strictly_after a b :
  datetime_le a b = Some false ↔ strictly_after a b.
Proof.
  unfold strictly_after, datetime_le, datetime_gt.
  destruct (datetime_compare a b) as [[| |]|]; split; intros [=]; done.
Qed.

(** The three ways an update by a permitted member ends, by the times of the
    meeting it would store. *)
Lemma update_meeting_permitted env d id meeting payload u tm :
  meetings d !! id = Some meeting →
  membership d (m_team_id meeting) (user_id u) = Some tm →
  may_mutate u tm meeting = true →
  let m' := apply_update meeting payload in
  run (update_meeting id payload u) env d
  = match m_start_time m', m_end_time m' with
    | Some st, Some en =>
        match datetime_le en st with
        | Some true =>
            (Raise (HTTPException 400 "end_time must be greater than start_time"), d)
        | Some false =>
            (Ok (to_response m'),
             with_meetings d (<[meeting_id m' := m']> (meetings d)))
        | None => (Raise TypeError, d)
        end
    | _, _ => (Ok (to_response m'),
               with_meetings d (<[meeting_id m' := m']> (meetings d)))
    end.
Proof.
  intros Hm Htm Hmay m'. unfold membership in Htm.
  unfold update_meeting. run_request. rewrite Hm. simpl. rewrite Htm. simpl.
  rewrite Hmay. simpl. fold m'.
  destruct (m_start_time m') as [st|], (m_end_time m') as [en|]; simpl;
    try (rewrite lookup_insert_eq; simpl; done).
  destruct (datetime_le en st) as [[|]|]; simpl; try done.
  rewrite lookup_insert_eq. simpl. done.
Qed.

Lemma apply_update_identity meeting payload :
  meeting_id (apply_update meeting payload) = meeting_id meeting
  ∧ m_team_id (apply_update meeting payload) = m_team_id meeting
  ∧ m_organizer_id (apply_update meeting payload) = m_organizer_id meeting
  ∧ m_created_at (apply_update meeting payload) = m_created_at meeting.
Proof.
  unfold apply_update.
  destruct (mu_title payload), (mu_start_time payload), (mu_end_time payload),
    (mu_meeting_link payload); done.
Qed.

(** An update either raises and leaves the store as it is, or replaces one
    meeting by a meeting whose times are in order. *)
Lemma update_meeting_cases env d id payload u :
  (∃ e, run (update_meeting id payload u) env d = (Raise e, d))
  ∨ ∃ meeting,
      meetings d !! id = Some meeting
      ∧ times_ok (apply_update meeting payload)
      ∧ run (update_meeting id payload u) env d
        = (Ok (to_response (apply_update meeting payload)),
           with_meetings d
             (<[meeting_id meeting := apply_update meeting payload]> (meetings d))).
Proof.
  destruct (meetings d !! id) as [meeting|] eqn:Hm.
  2: { left. unfold update_meeting. run_request. rewrite Hm. eauto. }
  destruct (membership d (m_team_id meeting) (user_id u)) as [tm|] eqn:Htm.
  2: { left. unfold membership in Htm. unfold update_meeting. run_request.
       rewrite Hm. simpl. rewrite Htm. eauto. }
  destruct (may_mutate u tm meeting) eqn:Hmay.
  2: { left. unfold membership in Htm. unfold update_meeting. run_request.
       rewrite Hm. simpl. rewrite Htm. simpl. rewrite Hmay. eauto. }
  pose proof (update_meeting_permitted env d id meeting payload u tm Hm Htm Hmay)
    as Hrun. simpl in Hrun.
  destruct (apply_update_identity meeting payload) as (Hid & _).
  rewrite Hrun.
  destruct (m_start_time (apply_update meeting payload)) as [st|] eqn:Hst;
    destruct (m_end_time (apply_update meeting payload)) as [en|] eqn:Hen;
    try (right; exists meeting; rewrite Hid; split_and!; try done;
         intros st' en' Hst' Hen'; congruence).
  destruct (datetime_le en st) as [[|]|] eqn:Hle; [left; eauto | | left; eauto].
  right. exists meeting. rewrite Hid. split_and!; try done.
  intros st' en' Hst' Hen'. rewrite Hst in Hst'. rewrite Hen in Hen'.
  injection Hst' as <-. injection Hen' as <-. by apply le_false_strictly_after.
Qed.

Lemma cancel_meeting_permitted env d id meeting u tm :
  meetings d !! id = Some meeting →
  membership d (m_team_id meeting) (user_id u) = Some tm →
  may_mutate u tm meeting = true →
  run (cancel_meeting id u) env d
  = (Ok {| c_message := "Meeting cancelled"; c_meeting_id := id |},
     with_meetings d (delete (meeting_id meeting) (meetings d))).
Proof.
  intros Hm Htm Hmay. unfold membership in Htm.
  unfold cancel_meeting. run_request. rewrite Hm. simpl. rewrite Htm. simpl.
  by rewrite Hmay.
Qed.

Lemma mutation_refused env d id meeting u tm :
  meetings d !! id = Some meeting →
  membership d (m_team_id meeting) (user_id u) = Some tm →
  may_mutate u tm meeting = false →
  run (cancel_meeting id u) env d
  = (Raise (HTTPException 403 "Not allowed to cancel this meeting"), d)
  ∧ ∀ payload, run (update_meeting id payload u) env d
               = (Raise (HTTPException 403 "Not allowed to update this meeting"), d).
Proof.
  intros Hm Htm Hmay. unfold membership in Htm. split; [|intros payload].
  - unfold cancel_meeting. run_request. rewrite Hm. simpl. rewrite Htm. simpl.
    by rewrite Hmay.
  - unfold update_meeting. run_request. rewrite Hm. simpl. rewrite Htm. simpl.
    by rewrite Hmay.
Qed.

(** X1.  The permission rule of update and cancel, for a caller whose
    membership row on the meeting's team is [tm] (the first one found): the
    caller is let through exactly when the global role is 1 or 4, or the row's
    role is ["LEADER"], or the caller organised the meeting.  Then cancel
    succeeds and update is not refused with 403; otherwise both are refused
    with their own 403 and the store is unchanged. *)
Theorem permission_rule_of_update_and_cancel env d id meeting tm u :
  meetings d !! id = Some meeting →
  membership d (m_team_id meeting) (user_id u) = Some tm →
  (allowed u tm meeting →
     run (cancel_meeting id u) env d
     = (Ok {| c_message := "Meeting cancelled"; c_meeting_id := id |},
        with_meetings d (delete (meeting_id meeting) (meetings d)))
     ∧ ∀ payload, ¬ is_forbidden (outcome (update_meeting id payload u) env d))
  ∧ (¬ allowed u tm meeting →
     run (cancel_meeting id u) env d
     = (Raise (HTTPException 403 "Not allowed to cancel this meeting"), d)
     ∧ ∀ payload, run (update_meeting id payload u) env d
                  = (Raise (HTTPException 403 "Not allowed to update this meeting"), d)).
Proof.
  intros Hm Htm. split.
  - intros Hall. apply may_mutate_allowed in Hall. split.
    + by apply (cancel_meeting_permitted env d id meeting u tm).
    + intros payload [detail Hf]. unfold outcome in Hf.
      rewrite (update_meeting_permitted env d id meeting payload u tm) in Hf by done.
      simpl in Hf.
      destruct (m_start_time (apply_update meeting payload)),
        (m_end_time (apply_update meeting payload)); try discriminate.
      destruct (datetime_le _ _) as [[|]|]; discriminate.
  - intros Hno. apply (mutation_refused env d id meeting u tm); [done | done |].
    destruct (may_mutate u tm meeting) eqn:E; [|done].
    exfalso. apply Hno. by apply may_mutate_allowed.
Qed.

Lemma permission_rule_of_update_and_cancel_witness :
  (meetings Sample.db !! 1 = Some Sample.standup
   ∧ membership Sample.db (m_team_id Sample.standup) (user_id Sample.bob)
     = Some {| tm_team_id := 7; tm_user_id := 12%N; tm_role := "MEMBER" |})
  ∧ run (cancel_meeting 1 Sample.bob) Sample.env Sample.db
    = (Raise (HTTPException 403 "Not allowed to cancel this meeting"), Sample.db).
Proof.
  assert (H1 : meetings Sample.db !! 1 = Some Sample.standup) by reflexivity.
  assert (H2 : membership Sample.db (m_team_id Sample.standup) (user_id Sample.bob)
               = Some {| tm_team_id := 7; tm_user_id := 12%N; tm_role := "MEMBER" |})
    by reflexivity.
  split; [done|].
  refine (proj1 (proj2 (permission_rule_of_update_and_cancel
                          Sample.env Sample.db 1 Sample.standup _ Sample.bob H1 H2) _)).
  unfold allowed. simpl. intros [H|[H|[H|H]]]; discriminate.
Defined.

(** X2.  A meeting identifier that is not in the store gives 404 "Meeting not
    found" from detail, update, cancel and join, for every caller and before
    membership or role is looked at; nothing is written. *)
Theorem missing_meeting_is_not_found env d id u :
  meetings d !! id = None →
  run (meeting_detail id u) env d
  = (Raise (HTTPException 404 "Meeting not found"), d)
  ∧ (∀ payload, run (update_meeting id payload u) env d
                = (Raise (HTTPException 404 "Meeting not found"), d))
  ∧ run (cancel_meeting id u) env d
    = (Raise (HTTPException 404 "Meeting not found"), d)
  ∧ run (join_meeting id u) env d
    = (Raise (HTTPException 404 "Meeting not found"), d).
Proof.
  intros Hm.
  split_and!; [| intros payload | |];
    unfold meeting_detail, update_meeting, cancel_meeting, join_meeting;
    run_request; by rewrite Hm.
Qed.

Lemma missing_meeting_is_not_found_witness :
  meetings Sample.db !! 9 = None
  ∧ run (join_meeting 9 Sample.admin) Sample.env Sample.db
    = (Raise (HTTPException 404 "Meeting not found"), Sample.db).
Proof.
  assert (H : meetings Sample.db !! 9 = None) by reflexivity.
  split; [exact H|].
  exact (proj2 (proj2 (proj2 (missing_meeting_is_not_found
                                Sample.env Sample.db 9 Sample.admin H)))).
Defined.

(** X3.  What a successful cancel does to the store: the meeting is gone,
    every other meeting is as before, and the notifications are untouched
    (the reminders that refer to the cancelled meeting stay); the identifier
    then answers 404. *)
Theorem cancel_removes_only_the_meeting env env' d id meeting u r :
  meetings d !! id = Some meeting →
  meeting_id meeting = id →
  outcome (cancel_meeting id u) env d = Ok r →
  let d' := store_after (cancel_meeting id u) env d in
  meetings d' !! id = None
  ∧ (∀ k, k ≠ id → meetings d' !! k = meetings d !! k)
  ∧ notifications d' = notifications d
  ∧ team_members d' = team_members d
  ∧ run (meeting_detail id u) env' d'
    = (Raise (HTTPException 404 "Meeting not found"), d').
Proof.
  intros Hm Hid Hok d'.
  assert (Hd' : d' = with_meetings d (delete id (meetings d))).
  { subst d'. unfold outcome, store_after in *.
    destruct (membership d (m_team_id meeting) (user_id u)) as [tm|] eqn:Htm.
    - destruct (may_mutate u tm meeting) eqn:Hmay.
      + rewrite (cancel_meeting_permitted env d id meeting u tm) by done.
        simpl. by rewrite Hid.
      + destruct (mutation_refused env d id meeting u tm Hm Htm Hmay) as [Hc _].
        rewrite Hc in Hok. discriminate.
    - unfold membership in Htm. unfold cancel_meeting in Hok.
      revert Hok. run_request. rewrite Hm. simpl. rewrite Htm. done. }
  rewrite Hd'. simpl. split_and!; try done.
  - apply lookup_delete_eq.
  - intros k Hk. by apply lookup_delete_ne.
  - unfold meeting_detail. run_request. by rewrite lookup_delete_eq.
Qed.

Lemma cancel_removes_only_the_meeting_witness :
  (meetings Sample.db !! 1 = Some Sample.standup
   ∧ meeting_id Sample.standup = 1
   ∧ outcome (cancel_meeting 1 Sample.alice) Sample.env Sample.db
     = Ok {| c_message := "Meeting cancelled"; c_meeting_id := 1 |})
  ∧ meetings (store_after (cancel_meeting 1 Sample.alice) Sample.env Sample.db) !! 1
    = None.
Proof.
  assert (H1 : meetings Sample.db !! 1 = Some Sample.standup) by reflexivity.
  assert (H2 : meeting_id Sample.standup = 1) by reflexivity.
  assert (H3 : outcome (cancel_meeting 1 Sample.alice) Sample.env Sample.db
               = Ok {| c_message := "Meeting cancelled"; c_meeting_id := 1 |})
    by reflexivity.
  split; [done|].
  exact (proj1 (cancel_removes_only_the_meeting Sample.env Sample.env Sample.db 1
                  Sample.standup Sample.alice _ H1 H2 H3)).
Defined.

(** X4.  A successful update is a partial update: in the response and in the
    stored row, a field the request gives has the given value, a field it
    leaves out keeps the stored value, and the identifier, the team, the
    organizer and the creation time are those of the stored meeting. *)
Theorem update_changes_only_given_fields env d id payload u resp :
  outcome (update_meeting id payload u) env d = Ok resp →
  let d' := store_after (update_meeting id payload u) env d in
  ∃ meeting,
    meetings d !! id = Some meeting
    ∧ to_response <$> meetings d' !! meeting_id meeting = Some resp
    ∧ r_meeting_id resp = meeting_id meeting
    ∧ r_team_id resp = m_team_id meeting
    ∧ r_created_by resp = m_organizer_id meeting
    ∧ r_created_at resp = m_created_at meeting
    ∧ r_title resp = from_option Some (m_title meeting) (mu_title payload)
    ∧ r_start_time resp
      = from_option Some (m_start_time meeting) (mu_start_time payload)
    ∧ r_end_time resp = from_option Some (m_end_time meeting) (mu_end_time payload)
    ∧ r_meeting_link resp
      = from_option Some (m_link_url meeting) (mu_meeting_link payload).
Proof.
  intros Hok d'. subst d'. unfold outcome, store_after in *.
  destruct (update_meeting_cases env d id payload u)
    as [[e He] | (meeting & Hm & _ & Hrun)].
  - rewrite He in Hok. discriminate.
  - exists meeting. rewrite Hrun in Hok |- *. simpl in *. injection Hok as <-.
    rewrite lookup_insert_eq. simpl. unfold apply_update.
    destruct (mu_title payload), (mu_start_time payload), (mu_end_time payload),
      (mu_meeting_link payload); simpl; split_and!; done.
Qed.

Lemma update_changes_only_given_fields_witness :
  outcome (update_meeting 1
             {| mu_title := Some "Daily"; mu_start_time := None;
                mu_end_time := None; mu_meeting_link := None |}
             Sample.alice) Sample.env Sample.db
  = Ok {| r_meeting_id := 1; r_team_id := 7; r_title := Some "Daily";
          r_start_time := Some Sample.one_pm; r_end_time := Some Sample.two_pm;
          r_meeting_link := Some "room-1"; r_created_by := 11%N;
          r_created_at := Sample.noon |}
  ∧ ∃ meeting,
      meetings Sample.db !! 1 = Some meeting
      ∧ m_start_time meeting = Some Sample.one_pm.
Proof.
  assert (H : outcome (update_meeting 1
                {| mu_title := Some "Daily"; mu_start_time := None;
                   mu_end_time := None; mu_meeting_link := None |}
                Sample.alice) Sample.env Sample.db
              = Ok {| r_meeting_id := 1; r_team_id := 7; r_title := Some "Daily";
                      r_start_time := Some Sample.one_pm;
                      r_end_time := Some Sample.two_pm;
                      r_meeting_link := Some "room-1"; r_created_by := 11%N;
                      r_created_at := Sample.noon |})
    by (vm_compute; reflexivity).
  split; [exact H|].
  destruct (update_changes_only_given_fields _ _ _ _ _ _ H)
    as (meeting & Hm & _ & _ & _ & _ & _ & _ & Hst & _).
  exists meeting. split; [exact Hm|]. simpl in Hst. congruence.
Defined.

(** What stays of a store when a meeting is created. *)
Lemma create_meeting_store iso env d payload u resp :
  outcome (create_meeting iso payload u) env d = Ok resp →
  ∃ tm new,
    membership d (mc_team_id payload) (user_id u) = Some tm
    ∧ resp = to_response (new_meeting env d payload u)
    ∧ store_after (create_meeting iso payload u) env d
      = with_notifications
          (with_meetings d
             (<[next_key (meetings d) := new_meeting env d payload u]> (meetings d)))
          (notifications d ++ new).
Proof.
  intros Hok.
  destruct (create_meeting_succeeds_inv _ _ _ _ _ _ Hok) as (t & tm & Ht & Htm).
  destruct (create_meeting_runs iso env d payload u t tm Ht Htm
              (create_meeting_succeeds_range _ _ _ _ _ _ Hok))
    as (pending & _ & Hrun).
  unfold outcome, store_after in *. rewrite Hrun in Hok |- *. simpl in *.
  injection Hok as <-. eauto.
Qed.

Lemma member_after_create (d d' : DB) team user :
  team_members d' = team_members d →
  is_member d team user → is_member d' team user.
Proof. unfold is_member. intros ->. done. Qed.

(** X5.  Create, then read: on the store a successful creation leaves, every
    member of the team gets from the detail endpoint exactly the response the
    creation returned, and the read writes nothing. *)
Theorem detail_returns_the_created_meeting iso env env' d payload u u' resp :
  outcome (create_meeting iso payload u) env d = Ok resp →
  is_member d (mc_team_id payload) (user_id u') →
  let d' := store_after (create_meeting iso payload u) env d in
  run (meeting_detail (r_meeting_id resp) u') env' d' = (Ok resp, d').
Proof.
  intros Hok Hu' d'. subst d'.
  destruct (create_meeting_store _ _ _ _ _ _ Hok) as (tm & new & _ & -> & ->).
  apply membership_of_member in Hu' as (tm' & Htm' & _). unfold membership in Htm'.
  unfold meeting_detail. run_request. rewrite lookup_insert_eq. simpl.
  by rewrite Htm'.
Qed.

Lemma detail_returns_the_created_meeting_witness :
  (outcome (create_meeting Sample.isoformat Sample.kickoff Sample.bob)
     Sample.env Sample.db = Ok Sample.kickoff_response
   ∧ is_member Sample.db (mc_team_id Sample.kickoff) (user_id Sample.alice))
  ∧ outcome (meeting_detail 2 Sample.alice) Sample.env
      (store_after (create_meeting Sample.isoformat Sample.kickoff Sample.bob)
         Sample.env Sample.db)
    = Ok Sample.kickoff_response.
Proof.
  assert (H1 : outcome (create_meeting Sample.isoformat Sample.kickoff Sample.bob)
                 Sample.env Sample.db = Ok Sample.kickoff_response)
    by (vm_compute; reflexivity).
  assert (H2 : is_member Sample.db (mc_team_id Sample.kickoff) (user_id Sample.alice)).
  { exists {| tm_team_id := 7; tm_user_id := 11%N; tm_role := "LEADER" |}.
    split; [|split; reflexivity]. simpl. repeat constructor. }
  split; [done|].
  exact (f_equal fst
           (detail_returns_the_created_meeting Sample.isoformat Sample.env
              Sample.env Sample.db Sample.kickoff Sample.bob Sample.alice
              Sample.kickoff_response H1 H2)).
Defined.

(** X6.  Create, then cancel: the organizer of a meeting just created may
    cancel it, and the meetings of the store are then what they were before
    the creation.  The reminders the creation wrote are still there. *)
Theorem cancel_undoes_create iso env env' d payload u resp :
  outcome (create_meeting iso payload u) env d = Ok resp →
  let d' := store_after (create_meeting iso payload u) env d in
  let d'' := store_after (cancel_meeting (r_meeting_id resp) u) env' d' in
  outcome (cancel_meeting (r_meeting_id resp) u) env' d'
  = Ok {| c_message := "Meeting cancelled"; c_meeting_id := r_meeting_id resp |}
  ∧ meetings d'' = meetings d
  ∧ notifications d'' = notifications d'.
Proof.
  intros Hok d' d''. subst d'' d'.
  destruct (create_meeting_store _ _ _ _ _ _ Hok) as (tm & new & Htm & -> & ->).
  set (d' := with_notifications _ _).
  assert (Hrun : run (cancel_meeting (next_key (meetings d)) u) env' d'
                 = (Ok {| c_message := "Meeting cancelled";
                          c_meeting_id := next_key (meetings d) |},
                    with_meetings d'
                      (delete (next_key (meetings d)) (meetings d')))).
  { apply (cancel_meeting_permitted env' d' _ (new_meeting env d payload u) u tm).
    - subst d'. simpl. apply lookup_insert_eq.
    - done.
    - unfold may_mutate. simpl. rewrite N.eqb_refl. by rewrite !orb_true_r. }
  unfold outcome, store_after. simpl. rewrite Hrun. simpl.
  split_and!; try done.
  rewrite delete_insert_eq. apply delete_id, next_key_fresh.
Qed.

Lemma cancel_undoes_create_witness :
  outcome (create_meeting Sample.isoformat Sample.kickoff Sample.bob)
    Sample.env Sample.db = Ok Sample.kickoff_response
  ∧ meetings (store_after (cancel_meeting 2 Sample.bob) Sample.env
                (store_after (create_meeting Sample.isoformat Sample.kickoff
                                Sample.bob) Sample.env Sample.db))
    = meetings Sample.db.
Proof.
  assert (H1 : outcome (create_meeting Sample.isoformat Sample.kickoff Sample.bob)
                 Sample.env Sample.db = Ok Sample.kickoff_response)
    by (vm_compute; reflexivity).
  split; [exact H1|].
  exact (proj1 (proj2 (cancel_undoes_create Sample.isoformat Sample.env Sample.env
                         Sample.db Sample.kickoff Sample.bob
                         Sample.kickoff_response H1))).
Defined.

(** X7.  A creation adds and never overwrites: the new identifier was not in
    use, every meeting of the store is still there unchanged, the other
    tables apart from the notifications are untouched, and the response
    repeats the request with the caller as organizer. *)
Theorem create_keeps_existing_meetings iso env d payload u resp :
  outcome (create_meeting iso payload u) env d = Ok resp →
  let d' := store_after (create_meeting iso payload u) env d in
  meetings d !! r_meeting_id resp = None
  ∧ (∀ k m, meetings d !! k = Some m → meetings d' !! k = Some m)
  ∧ teams d' = teams d ∧ team_members d' = team_members d
  ∧ classes d' = classes d ∧ milestones d' = milestones d
  ∧ checkpoints d' = checkpoints d
  ∧ r_team_id resp = mc_team_id payload
  ∧ r_title resp = Some (mc_title payload)
  ∧ r_start_time resp = Some (mc_start_time payload)
  ∧ r_end_time resp = Some (mc_end_time payload)
  ∧ r_created_by resp = user_id u.
Proof.
  intros Hok d'. subst d'.
  destruct (create_meeting_store _ _ _ _ _ _ Hok) as (tm & new & _ & -> & ->).
  simpl. split_and!; try done.
  - apply next_key_fresh.
  - intros k m Hk. rewrite lookup_insert_ne; [done|].
    intros <-. by rewrite next_key_fresh in Hk.
Qed.

Lemma create_keeps_existing_meetings_witness :
  outcome (create_meeting Sample.isoformat Sample.kickoff Sample.bob)
    Sample.env Sample.db = Ok Sample.kickoff_response
  ∧ meetings Sample.db !! r_meeting_id Sample.kickoff_response = None.
Proof.
  assert (H1 : outcome (create_meeting Sample.isoformat Sample.kickoff Sample.bob)
                 Sample.env Sample.db = Ok Sample.kickoff_response)
    by (vm_compute; reflexivity).
  split; [exact H1|].
  exact (proj1 (create_keeps_existing_meetings Sample.isoformat Sample.env
                  Sample.db Sample.kickoff Sample.bob Sample.kickoff_response H1)).
Defined.

(** X8.  When a creation succeeds: exactly when the team exists, the caller
    has a membership row on it, and the start time minus 15 minutes is a
    value a [datetime] can hold (not before 0001-01-01T00:00:00).  A missing
    team is a 404 whatever the membership rows say, a caller outside an
    existing team gets 403, and a member whose start time lies in the first
    15 minutes of year 1 gets the [OverflowError] of the subtraction; in all
    three cases nothing is stored. *)
Theorem create_meeting_succeeds_iff iso env d payload u :
  let representable :=
    - (719162 * 86400000000) ≤ wall (mc_start_time payload) - 15 * 60 * 1000000
    ∧ wall (mc_start_time payload) - 15 * 60 * 1000000 < 2932897 * 86400000000 in
  ((∃ resp, outcome (create_meeting iso payload u) env d = Ok resp)
   ↔ is_Some (teams d !! mc_team_id payload)
     ∧ is_member d (mc_team_id payload) (user_id u)
     ∧ representable)
  ∧ (teams d !! mc_team_id payload = None →
     run (create_meeting iso payload u) env d
     = (Raise (HTTPException 404 "Team not found"), d))
  ∧ (is_Some (teams d !! mc_team_id payload) →
     ¬ is_member d (mc_team_id payload) (user_id u) →
     run (create_meeting iso payload u) env d
     = (Raise (HTTPException 403 "You are not a member of this team"), d))
  ∧ (is_Some (teams d !! mc_team_id payload) →
     is_member d (mc_team_id payload) (user_id u) →
     ¬ representable →
     run (create_meeting iso payload u) env d = (Raise OverflowError, d)).
Proof.
  intros representable.
  assert (Hrep : representable ↔ reminder_representable payload).
  { unfold representable, reminder_representable, datetime_min_wall,
      datetime_max_wall. lia. }
  split_and!.
  - split.
    + intros [resp Hok].
      destruct (create_meeting_succeeds_inv _ _ _ _ _ _ Hok) as (t & tm & Ht & Htm).
      split; [by rewrite Ht|].
      destruct (membership_row _ _ _ _ Htm) as [Hin Hu].
      apply list_elem_of_filter in Hin as [Hteam Hin].
      split; [by exists tm|].
      apply Hrep. by eapply create_meeting_succeeds_range.
    + intros ([t Ht] & Hmem & Hr).
      apply membership_of_member in Hmem as (tm & Htm & _).
      destruct (create_meeting_runs iso env d payload u t tm Ht Htm
                  (proj1 Hrep Hr)) as (pending & _ & Hrun).
      eexists. unfold outcome. by rewrite Hrun.
  - intros Ht. unfold create_meeting. run_request. by rewrite Ht.
  - intros [t Ht] Hno. apply membership_of_stranger in Hno.
    unfold membership in Hno. unfold create_meeting. run_request.
    rewrite Ht. simpl. by rewrite Hno.
  - intros [t Ht] Hmem Hr.
    apply membership_of_member in Hmem as (tm & Htm & _).
    apply (create_meeting_overflows iso env d payload u t tm Ht Htm).
    intros H. apply Hr. by apply Hrep.
Qed.

(** ** Meetings: the read endpoints *)

#[global] Instance start_time_asc_total : Total start_time_asc.
Proof.
  intros a b. unfold start_time_asc.
  destruct (m_start_time a), (m_start_time b); try tauto. lia.
Qed.

#[global] Instance start_time_asc_trans : Transitive start_time_asc.
Proof.
  intros a b c. unfold start_time_asc.
  destruct (m_start_time a), (m_start_time b), (m_start_time c); try tauto. lia.
Qed.

#[global] Instance start_time_asc_ranked_total rank : Total (start_time_asc_ranked rank).
Proof.
  intros a b. unfold start_time_asc_ranked.
  destruct (total start_time_asc a b) as [Hab|Hba].
  - destruct (decide (start_time_asc b a)) as [Hba|Hba]; [|tauto].
    destruct (Z.le_ge_cases (rank (meeting_id a)) (rank (meeting_id b))); tauto.
  - destruct (decide (start_time_asc a b)) as [Hab|Hab]; [|tauto].
    destruct (Z.le_ge_cases (rank (meeting_id a)) (rank (meeting_id b))); tauto.
Qed.

#[global] Instance start_time_asc_ranked_trans rank :
  Transitive (start_time_asc_ranked rank).
Proof.
  intros a b c [Hab Hba] [Hbc Hcb]. split.
  - by transitivity b.
  - intros Hca.
    assert (Hcb' : start_time_asc c b) by (by transitivity a).
    assert (Hba' : start_time_asc b a) by (by transitivity c).
    specialize (Hba Hba'). specialize (Hcb Hcb'). lia.
Qed.

(** X9.  The listing of a team's meetings, for a member of an existing team:
    it holds the stored meetings of that team and no others, one entry per
    stored meeting, [total] is their number, any two entries that have a start
    time appear in the order of their start instants, and nothing is
    written. *)
Theorem list_meetings_is_the_team_schedule env d team u t :
  teams d !! team = Some t →
  is_member d team (user_id u) →
  ∃ l,
    run (list_meetings team u) env d
    = (Ok {| ml_team_id := team; ml_total := length l;
             ml_meetings := map to_response l |}, d)
    ∧ l ≡ₚ filter (fun m => m_team_id m = team) (map_to_list (meetings d)).*2
    ∧ (∀ m, m ∈ l ↔ m_team_id m = team ∧ ∃ k, meetings d !! k = Some m)
    ∧ (∀ i j a b x y, (i < j)%nat → l !! i = Some a → l !! j = Some b →
         m_start_time a = Some x → m_start_time b = Some y →
         instant x ≤ instant y).
Proof.
  intros Ht Hmem. apply membership_of_member in Hmem as (tm & Htm & _).
  unfold membership in Htm.
  set (rows := filter (fun m => m_team_id m = team) (map_to_list (meetings d)).*2).
  exists (merge_sort (start_time_asc_ranked (row_order env)) rows).
  assert (Hperm : merge_sort (start_time_asc_ranked (row_order env)) rows ≡ₚ rows)
    by apply merge_sort_Permutation.
  split_and!.
  - unfold list_meetings. run_request. rewrite Ht. simpl. by rewrite Htm.
  - done.
  - intros m. rewrite Hperm. subst rows.
    rewrite list_elem_of_filter, elem_of_rows. done.
  - intros i j a b x y Hij Hi Hj Hx Hy.
    pose proof (StronglySorted_lookup (start_time_asc_ranked (row_order env)) _ i j a b
                  (StronglySorted_merge_sort (start_time_asc_ranked (row_order env)) rows)
                  Hij Hi Hj) as [H _].
    unfold start_time_asc in H. by rewrite Hx, Hy in H.
Qed.

Lemma list_meetings_is_the_team_schedule_witness :
  (teams Sample.db !! 7 = Some {| team_id := 7; team_class_id := 3 |}
   ∧ is_member Sample.db 7 (user_id Sample.bob))
  ∧ ∃ l, run (list_meetings 7 Sample.bob) Sample.env Sample.db
         = (Ok {| ml_team_id := 7; ml_total := length l;
                  ml_meetings := map to_response l |}, Sample.db)
         ∧ (∀ m, m ∈ l ↔ m_team_id m = 7 ∧ ∃ k, meetings Sample.db !! k = Some m).
Proof.
  assert (H1 : teams Sample.db !! 7 = Some {| team_id := 7; team_class_id := 3 |})
    by reflexivity.
  assert (H2 : is_member Sample.db 7 (user_id Sample.bob)).
  { exists {| tm_team_id := 7; tm_user_id := 12%N; tm_role := "MEMBER" |}.
    split; [|split; reflexivity]. simpl. repeat constructor. }
  split; [done|].
  destruct (list_meetings_is_the_team_schedule Sample.env Sample.db 7 Sample.bob
              _ H1 H2) as (l & Hrun & _ & Hin & _).
  exists l. done.
Defined.

(** X10.  The read endpoints are for members: a caller without a membership
    row on the team gets 403 from the listing of an existing team and from the
    detail of a stored meeting; a listing for a team that does not exist is a
    404 whoever asks. *)
Theorem reading_requires_membership env d u :
  (∀ team, teams d !! team = None →
     run (list_meetings team u) env d
     = (Raise (HTTPException 404 "Team not found"), d))
  ∧ (∀ team, is_Some (teams d !! team) → ¬ is_member d team (user_id u) →
       run (list_meetings team u) env d
       = (Raise (HTTPException 403 "You are not a member of this team"), d))
  ∧ (∀ id meeting, meetings d !! id = Some meeting →
       ¬ is_member d (m_team_id meeting) (user_id u) →
       run (meeting_detail id u) env d
       = (Raise (HTTPException 403 "You are not a member of this team"), d)).
Proof.
  split_and!.
  - intros team Ht. unfold list_meetings. run_request. by rewrite Ht.
  - intros team [t Ht] Hno. apply membership_of_stranger in Hno.
    unfold membership in Hno. unfold list_meetings. run_request.
    rewrite Ht. simpl. by rewrite Hno.
  - intros id meeting Hm Hno. apply membership_of_stranger in Hno.
    unfold membership in Hno. unfold meeting_detail. run_request.
    rewrite Hm. simpl. by rewrite Hno.
Qed.

Lemma reading_requires_membership_witness :
  (meetings Sample.db !! 1 = Some Sample.standup
   ∧ ¬ is_member Sample.db (m_team_id Sample.standup) (user_id Sample.admin))
  ∧ run (meeting_detail 1 Sample.admin) Sample.env Sample.db
    = (Raise (HTTPException 403 "You are not a member of this team"), Sample.db).
Proof.
  assert (H1 : meetings Sample.db !! 1 = Some Sample.standup) by reflexivity.
  assert (H2 : ¬ is_member Sample.db (m_team_id Sample.standup)
                   (user_id Sample.admin)).
  { intros (tm & Hin & Ht & Hu). simpl in Hin.
    repeat (apply elem_of_cons in Hin as [-> | Hin]; [discriminate|]).
    by apply elem_of_nil in Hin. }
  split; [done|].
  exact (proj2 (proj2 (reading_requires_membership Sample.env Sample.db
                         Sample.admin)) 1 Sample.standup H1 H2).
Defined.

(** ** What each mutating handler does to the store *)

Arguments next_key : simpl never.

Lemma cancel_meeting_cases env d id u :
  store_after (cancel_meeting id u) env d = d
  ∨ ∃ meeting,
      meetings d !! id = Some meeting
      ∧ store_after (cancel_meeting id u) env d
        = with_meetings d (delete (meeting_id meeting) (meetings d)).
Proof.
  unfold cancel_meeting. run_request.
  destruct (meetings d !! id) as [meeting|] eqn:Hm; simpl; [|by left].
  destruct (find _ (team_members d)) as [tm|]; simpl; [|by left].
  destruct (may_mutate u tm meeting); simpl; [|by left].
  right. by exists meeting.
Qed.

Lemma join_meeting_cases env d id u :
  store_after (join_meeting id u) env d = d
  ∨ ∃ meeting token,
      meetings d !! id = Some meeting
      ∧ store_after (join_meeting id u) env d
        = with_meetings d
            (<[meeting_id meeting := set_link_url meeting (Some token)]> (meetings d)).
Proof.
  unfold join_meeting, gen_peer_room_id. run_request.
  destruct (meetings d !! id) as [meeting|] eqn:Hm; simpl; [|by left].
  destruct (find _ (team_members d)) as [tm|]; simpl; [|by left].
  destruct (str_truthy (m_link_url meeting)); simpl; [by left|].
  rewrite lookup_insert_eq. simpl. right. eauto.
Qed.

Lemma create_meeting_cases iso env d payload u :
  store_after (create_meeting iso payload u) env d = d
  ∨ ∃ resp, outcome (create_meeting iso payload u) env d = Ok resp.
Proof.
  destruct (teams d !! mc_team_id payload) as [t|] eqn:Ht.
  2: { left. unfold create_meeting. run_request. by rewrite Ht. }
  destruct (membership d (mc_team_id payload) (user_id u)) as [tm|] eqn:Htm.
  2: { left. unfold membership in Htm. unfold create_meeting. run_request.
       rewrite Ht. simpl. by rewrite Htm. }
  destruct (decide (reminder_representable payload)) as [Hr|Hr].
  2: { left. unfold store_after.
       by rewrite (create_meeting_overflows iso env d payload u t tm Ht Htm Hr). }
  right. destruct (create_meeting_runs iso env d payload u t tm Ht Htm Hr)
    as (pending & _ & Hrun).
  eexists. unfold outcome. by rewrite Hrun.
Qed.

Lemma create_milestone_cases dflt env d data u :
  store_after (create_milestone dflt data u) env d = d
  ∨ ∃ new,
      milestone_id new = next_key (milestones d)
      ∧ outcome (create_milestone dflt data u) env d = Ok new
      ∧ store_after (create_milestone dflt data u) env d
        = with_milestones d (<[next_key (milestones d) := new]> (milestones d)).
Proof.
  unfold create_milestone. run_request.
  destruct (classes d !! msc_class_id data) as [ac|]; simpl; [|by left].
  destruct (N.eqb (lecturer_id ac) (user_id u)); simpl; [|by left].
  destruct (datetime_le _ _) as [[|]|]; simpl; [by left | | by left].
  rewrite lookup_insert_eq. simpl. right.
  match goal with |- context [Ok ?m] => exists m end.
  split_and!; reflexivity.
Qed.

Lemma update_milestone_cases env d id upd u :
  store_after (update_milestone id upd u) env d = d
  ∨ ∃ ms ms',
      milestones d !! id = Some ms
      ∧ ms_created_by ms = user_id u
      ∧ milestone_id ms' = milestone_id ms
      ∧ ms_class_id ms' = ms_class_id ms
      ∧ ms_created_by ms' = ms_created_by ms
      ∧ outcome (update_milestone id upd u) env d = Ok ms'
      ∧ store_after (update_milestone id upd u) env d
        = with_milestones d (<[milestone_id ms := ms']> (milestones d)).
Proof.
  unfold update_milestone. run_request.
  destruct (milestones d !! id) as [ms|] eqn:Hms; simpl; [|by left].
  destruct (N.eqb (ms_created_by ms) (user_id u)) eqn:Hby; simpl; [|by left].
  apply N.eqb_eq in Hby.
  destruct (msu_due_date upd) as [|[due|]]; simpl; [| |by left].
  - destruct (msu_title upd), (msu_description upd), (msu_weight upd); simpl;
      rewrite lookup_insert_eq; simpl; right; exists ms;
      match goal with |- context [Ok ?m] => exists m end;
      split_and!; reflexivity || done.
  - destruct (datetime_le _ _) as [[|]|]; simpl; [by left | | by left].
    destruct (msu_title upd), (msu_description upd), (msu_weight upd); simpl;
      rewrite lookup_insert_eq; simpl; right; exists ms;
      match goal with |- context [Ok ?m] => exists m end;
      split_and!; reflexivity || done.
Qed.

Lemma delete_milestone_cases env d id u :
  store_after (delete_milestone id u) env d = d
  ∨ ∃ ms,
      milestones d !! id = Some ms
      ∧ ms_created_by ms = user_id u
      ∧ store_after (delete_milestone id u) env d
        = with_checkpoints
            (with_milestones d (delete (milestone_id ms) (milestones d)))
            (filter (fun kc => cp_milestone_id kc.2 ≠ milestone_id ms) (checkpoints d)).
Proof.
  unfold delete_milestone. run_request.
  destruct (milestones d !! id) as [ms|] eqn:Hms; simpl; [|by left].
  destruct (N.eqb (ms_created_by ms) (user_id u)) eqn:Hby; simpl; [|by left].
  apply N.eqb_eq in Hby. right. by exists ms.
Qed.

Lemma create_checkpoint_cases env d id data u :
  store_after (create_checkpoint id data u) env d = d
  ∨ ∃ ms ac team cp,
      milestones d !! id = Some ms
      ∧ classes d !! ms_class_id ms = Some ac
      ∧ lecturer_id ac = user_id u
      ∧ teams d !! cp_team_id cp = Some team
      ∧ team_class_id team = ms_class_id ms
      ∧ cp_milestone_id cp = id
      ∧ cp_team_id cp = cc_team_id data
      ∧ checkpoint_id cp = next_key (checkpoints d)
      ∧ outcome (create_checkpoint id data u) env d = Ok cp
      ∧ store_after (create_checkpoint id data u) env d
        = with_checkpoints d (<[next_key (checkpoints d) := cp]> (checkpoints d)).
Proof.
  unfold create_checkpoint.
  destruct (cc_milestone_id data =? id); simpl; [|by left].
  run_request.
  destruct (milestones d !! id) as [ms|] eqn:Hms; simpl; [|by left].
  destruct (classes d !! ms_class_id ms) as [ac|] eqn:Hac; simpl; [|by left].
  destruct (N.eqb (lecturer_id ac) (user_id u)) eqn:Hlec; simpl; [|by left].
  apply N.eqb_eq in Hlec.
  destruct (teams d !! cc_team_id data) as [team|] eqn:Hteam; simpl; [|by left].
  destruct (team_class_id team =? ms_class_id ms) eqn:Hcls; simpl; [|by left].
  apply Z.eqb_eq in Hcls.
  rewrite lookup_insert_eq. simpl. right. exists ms, ac, team.
  match goal with |- context [Ok ?m] => exists m end.
  split_and!; try reflexivity; done.
Qed.

Lemma select_checkpoint_some (d : DB) mid cid c :
  match checkpoints d !! cid with
  | Some c => if cp_milestone_id c =? mid then Some c else None
  | None => None
  end = Some c →
  checkpoints d !! cid = Some c ∧ cp_milestone_id c = mid.
Proof.
  destruct (checkpoints d !! cid) as [c'|]; [|done].
  destruct (cp_milestone_id c' =? mid) eqn:E; [|done].
  intros [= ->]. split; [done|]. by apply Z.eqb_eq.
Qed.

Lemma apply_checkpoint_update_identity c upd :
  checkpoint_id (apply_checkpoint_update c upd) = checkpoint_id c
  ∧ cp_milestone_id (apply_checkpoint_update c upd) = cp_milestone_id c
  ∧ cp_team_id (apply_checkpoint_update c upd) = cp_team_id c.
Proof.
  unfold apply_checkpoint_update. by destruct (cu_title upd), (cu_status upd).
Qed.

Lemma update_checkpoint_cases env d mid cid upd u :
  store_after (update_checkpoint mid cid upd u) env d = d
  ∨ ∃ c,
      checkpoints d !! cid = Some c
      ∧ cp_milestone_id c = mid
      ∧ outcome (update_checkpoint mid cid upd u) env d
        = Ok (apply_checkpoint_update c upd)
      ∧ store_after (update_checkpoint mid cid upd u) env d
        = with_checkpoints d
            (<[checkpoint_id c := apply_checkpoint_update c upd]> (checkpoints d)).
Proof.
  unfold update_checkpoint, select_checkpoint, checkpoint_lecturer,
    db_dirty_checkpoint. run_request.
  destruct (match checkpoints d !! cid with Some _ => _ | None => _ end)
    as [c|] eqn:Hsel; simpl; [|by left].
  apply select_checkpoint_some in Hsel as [Hc Hmid].
  destruct (milestones d !! cp_milestone_id c) as [ms|]; simpl; [|by left].
  destruct (classes d !! ms_class_id ms) as [ac|]; simpl; [|by left].
  destruct (N.eqb (lecturer_id ac) (user_id u)); simpl; [|by left].
  destruct (apply_checkpoint_update_identity c upd) as (Hid & _).
  rewrite lookup_insert_eq. simpl. right. exists c. rewrite Hid. done.
Qed.

Lemma delete_checkpoint_cases env d mid cid u :
  store_after (delete_checkpoint mid cid u) env d = d
  ∨ ∃ c,
      checkpoints d !! cid = Some c
      ∧ cp_milestone_id c = mid
      ∧ store_after (delete_checkpoint mid cid u) env d
        = with_checkpoints d (delete (checkpoint_id c) (checkpoints d)).
Proof.
  unfold delete_checkpoint, select_checkpoint, checkpoint_lecturer,
    db_delete_checkpoint. run_request.
  destruct (match checkpoints d !! cid with Some _ => _ | None => _ end)
    as [c|] eqn:Hsel; simpl; [|by left].
  apply select_checkpoint_some in Hsel as [Hc Hmid].
  destruct (milestones d !! cp_milestone_id c) as [ms|]; simpl; [|by left].
  destruct (classes d !! ms_class_id ms) as [ac|]; simpl; [|by left].
  destruct (N.eqb (lecturer_id ac) (user_id u)); simpl; [|by left].
  right. by exists c.
Qed.

(** ** Invariants of the store *)

Lemma store_ok_notifications d l : store_ok d → store_ok (with_notifications d l).
Proof. by intros [(? & ? & ?) ?]. Qed.

Lemma store_ok_insert_meeting d k m :
  store_ok d → meeting_id m = k →
  store_ok (with_meetings d (<[k := m]> (meetings d))).
Proof.
  intros [(Hm & Hms & Hc) Hcp] Hk. split; [split_and!|]; try done.
  simpl. intros k' m'. rewrite lookup_insert. case_decide.
  - intros [= <-]. congruence.
  - apply Hm.
Qed.

Lemma store_ok_delete_meeting d k :
  store_ok d → store_ok (with_meetings d (delete k (meetings d))).
Proof.
  intros [(Hm & Hms & Hc) Hcp]. split; [split_and!|]; try done.
  simpl. intros k' m'. rewrite lookup_delete. case_decide; [done|]. apply Hm.
Qed.

Lemma store_ok_insert_milestone d k ms' :
  store_ok d → milestone_id ms' = k →
  (∀ old, milestones d !! k = Some old → ms_class_id ms' = ms_class_id old) →
  store_ok (with_milestones d (<[k := ms']> (milestones d))).
Proof.
  intros [(Hm & Hms & Hc) Hcp] Hk Hold. split; [split_and!|]; try done.
  - simpl. intros k' m'. rewrite lookup_insert. case_decide.
    + intros [= <-]. congruence.
    + apply Hms.
  - intros kc c Hkc. simpl in *.
    destruct (Hcp kc c Hkc) as (ms & team & Hmsl & Ht & Hcls).
    destruct (decide (k = cp_milestone_id c)) as [->|Hne].
    + exists ms', team. rewrite lookup_insert_eq. split_and!; try done.
      rewrite (Hold ms Hmsl). done.
    + exists ms, team. rewrite lookup_insert_ne by done. done.
Qed.

Lemma store_ok_delete_milestone d k :
  store_ok d →
  store_ok (with_checkpoints
              (with_milestones d (delete k (milestones d)))
              (filter (fun kc => cp_milestone_id kc.2 ≠ k) (checkpoints d))).
Proof.
  intros [(Hm & Hms & Hc) Hcp]. split; [split_and!|]; simpl; try done.
  - intros k' m'. rewrite lookup_delete. case_decide; [done|]. apply Hms.
  - intros kc c Hkc. apply map_lookup_filter_Some in Hkc as [Hkc _]. by apply Hc.
  - intros kc c Hkc. simpl in *.
    apply map_lookup_filter_Some in Hkc as [Hkc Hne]. simpl in Hne.
    destruct (Hcp kc c Hkc) as (ms & team & Hmsl & Ht & Hcls).
    exists ms, team. rewrite lookup_delete_ne by done. done.
Qed.

Lemma store_ok_insert_checkpoint d k c ms team :
  store_ok d → checkpoint_id c = k →
  milestones d !! cp_milestone_id c = Some ms →
  teams d !! cp_team_id c = Some team →
  team_class_id team = ms_class_id ms →
  store_ok (with_checkpoints d (<[k := c]> (checkpoints d))).
Proof.
  intros [(Hm & Hms & Hc) Hcp] Hk Hmsl Ht Hcls. split; [split_and!|]; try done.
  - simpl. intros k' c'. rewrite lookup_insert. case_decide.
    + intros [= <-]. congruence.
    + apply Hc.
  - intros k' c'. simpl. rewrite lookup_insert. case_decide.
    + intros [= <-]. eauto.
    + apply Hcp.
Qed.

Lemma store_ok_delete_checkpoint d k :
  store_ok d → store_ok (with_checkpoints d (delete k (checkpoints d))).
Proof.
  intros [(Hm & Hms & Hc) Hcp]. split; [split_and!|]; simpl; try done.
  - intros k' c'. rewrite lookup_delete. case_decide; [done|]. apply Hc.
  - intros k' c'. simpl. rewrite lookup_delete. case_decide; [done|]. apply Hcp.
Qed.

(** X11.  The consistency of the store is an invariant of every mutating
    handler: if each row is stored under its own primary key and each
    checkpoint refers to a stored milestone and to a stored team of that
    milestone's class, the same holds of the store after any request to any
    of the ten handlers, whoever sends it and however it ends. *)
Theorem handlers_keep_the_store_consistent iso dflt env d u :
  store_ok d →
  (∀ payload, store_ok (store_after (create_meeting iso payload u) env d))
  ∧ (∀ id payload, store_ok (store_after (update_meeting id payload u) env d))
  ∧ (∀ id, store_ok (store_after (cancel_meeting id u) env d))
  ∧ (∀ id, store_ok (store_after (join_meeting id u) env d))
  ∧ (∀ data, store_ok (store_after (create_milestone dflt data u) env d))
  ∧ (∀ id upd, store_ok (store_after (update_milestone id upd u) env d))
  ∧ (∀ id, store_ok (store_after (delete_milestone id u) env d))
  ∧ (∀ id data, store_ok (store_after (create_checkpoint id data u) env d))
  ∧ (∀ mid cid upd, store_ok (store_after (update_checkpoint mid cid upd u) env d))
  ∧ (∀ mid cid, store_ok (store_after (delete_checkpoint mid cid u) env d)).
Proof.
  intros Hok. split_and!.
  - intros payload.
    destruct (create_meeting_cases iso env d payload u) as [-> | [resp Hr]]; [done|].
    destruct (create_meeting_store _ _ _ _ _ _ Hr) as (tm & new & _ & _ & ->).
    apply store_ok_notifications. by apply store_ok_insert_meeting.
  - intros id payload. unfold store_after.
    destruct (update_meeting_cases env d id payload u)
      as [[e ->] | (meeting & Hm & _ & ->)]; [done|].
    simpl. apply store_ok_insert_meeting; [done|].
    apply apply_update_identity.
  - intros id.
    destruct (cancel_meeting_cases env d id u) as [-> | (meeting & _ & ->)]; [done|].
    by apply store_ok_delete_meeting.
  - intros id.
    destruct (join_meeting_cases env d id u)
      as [-> | (meeting & token & _ & ->)]; [done|].
    by apply store_ok_insert_meeting.
  - intros data.
    destruct (create_milestone_cases dflt env d data u)
      as [-> | (new & Hid & _ & ->)]; [done|].
    apply store_ok_insert_milestone; [done | done |].
    intros old Hold. by rewrite next_key_fresh in Hold.
  - intros id upd.
    destruct (update_milestone_cases env d id upd u)
      as [-> | (ms & ms' & Hms & _ & Hid & Hcls & _ & _ & ->)]; [done|].
    apply store_ok_insert_milestone; [done | done |].
    intros old Hold. destruct Hok as [(_ & Hk & _) _].
    rewrite (Hk _ _ Hms) in Hold. congruence.
  - intros id.
    destruct (delete_milestone_cases env d id u) as [-> | (ms & _ & _ & ->)]; [done|].
    by apply store_ok_delete_milestone.
  - intros id data.
    destruct (create_checkpoint_cases env d id data u)
      as [-> | (ms & ac & team & cp & Hms & _ & _ & Ht & Hcls & Hmid & _ & Hid & _ & ->)];
      [done|].
    apply (store_ok_insert_checkpoint d _ cp ms team); try done. by rewrite Hmid.
  - intros mid cid upd.
    destruct (update_checkpoint_cases env d mid cid upd u)
      as [-> | (c & Hc & _ & _ & ->)]; [done|].
    destruct (apply_checkpoint_update_identity c upd) as (Hid & Hmid & Hteam).
    destruct (proj2 Hok _ _ Hc) as (ms & team & Hms & Ht & Hcls).
    apply (store_ok_insert_checkpoint d _ _ ms team); try done.
    + by rewrite Hmid.
    + by rewrite Hteam.
  - intros mid cid.
    destruct (delete_checkpoint_cases env d mid cid u) as [-> | (c & _ & _ & ->)];
      [done|].
    by apply store_ok_delete_checkpoint.
Qed.

(** The sample store is consistent. *)
Lemma sample_store_ok : store_ok Sample.db.
Proof.
  split; [split_and!|]; simpl.
  - intros k m H. apply lookup_singleton_Some in H as [<- <-]. done.
  - intros k m H. apply lookup_insert_Some in H as [[<- <-]|[_ H]]; [done|].
    apply lookup_singleton_Some in H as [<- <-]. done.
  - intros k c H. apply lookup_singleton_Some in H as [<- <-]. done.
  - intros k c H. simpl in H. apply lookup_singleton_Some in H as [<- <-].
    exists Sample.proposal, {| team_id := 7; team_class_id := 3 |}.
    split_and!; reflexivity.
Qed.

Lemma handlers_keep_the_store_consistent_witness :
  store_ok Sample.db
  ∧ store_ok (store_after (delete_milestone 1 Sample.lecturer) Sample.env Sample.db)
  ∧ store_ok (store_after
                (create_checkpoint 1 Sample.first_draft_data Sample.lecturer)
                Sample.env Sample.db).
Proof.
  pose proof sample_store_ok as H.
  split; [exact H|].
  destruct (handlers_keep_the_store_consistent Sample.isoformat None Sample.env
              Sample.db Sample.lecturer H)
    as (_ & _ & _ & _ & _ & _ & Hdel & Hcp & _).
  split; [apply Hdel | apply Hcp].
Defined.

Lemma meetings_ok_insert d k m l :
  meetings_ok d → times_ok m →
  meetings_ok (with_notifications (with_meetings d (<[k := m]> (meetings d))) l).
Proof.
  intros Hok Hm k' m'. simpl. rewrite lookup_insert. case_decide.
  - by intros [= <-].
  - apply Hok.
Qed.

(** X12.  Stored meetings keep their times in order.  If every stored
    meeting that has both times ends strictly after it starts, this still
    holds after an update, a cancel or a join, however the request ends, and
    after the creation of a meeting whose request passed the end-time check
    of the creation schema. *)
Theorem meeting_times_stay_in_order iso env d u :
  meetings_ok d →
  (∀ payload,
     validate_end_time (Some (mc_start_time payload)) (mc_end_time payload)
     = Ok (mc_end_time payload) →
     meetings_ok (store_after (create_meeting iso payload u) env d))
  ∧ (∀ id payload, meetings_ok (store_after (update_meeting id payload u) env d))
  ∧ (∀ id, meetings_ok (store_after (cancel_meeting id u) env d))
  ∧ (∀ id, meetings_ok (store_after (join_meeting id u) env d)).
Proof.
  intros Hok. split_and!.
  - intros payload Hval.
    destruct (create_meeting_cases iso env d payload u) as [-> | [resp Hr]]; [done|].
    destruct (create_meeting_store _ _ _ _ _ _ Hr) as (tm & new & _ & _ & ->).
    apply meetings_ok_insert; [done|].
    intros st en [= <-] [= <-]. apply le_false_strictly_after.
    unfold validate_end_time in Hval.
    by destruct (datetime_le (mc_end_time payload) (mc_start_time payload))
      as [[|]|].
  - intros id payload. unfold store_after.
    destruct (update_meeting_cases env d id payload u)
      as [[e ->] | (meeting & Hm & Ht & ->)]; [done|].
    simpl. rewrite <- (with_notifications_id (with_meetings d _)).
    by apply meetings_ok_insert.
  - intros id.
    destruct (cancel_meeting_cases env d id u) as [-> | (meeting & _ & ->)]; [done|].
    intros k m. simpl. rewrite lookup_delete. case_decide; [done|]. apply Hok.
  - intros id.
    destruct (join_meeting_cases env d id u)
      as [-> | (meeting & token & Hm & ->)]; [done|].
    rewrite <- (with_notifications_id (with_meetings d _)).
    apply meetings_ok_insert; [done|]. apply (Hok _ _ Hm).
Qed.

Lemma sample_meetings_ok : meetings_ok Sample.db.
Proof.
  intros k m H. simpl in H. apply lookup_singleton_Some in H as [<- <-].
  intros st en [= <-] [= <-]. reflexivity.
Qed.

Lemma meeting_times_stay_in_order_witness :
  (meetings_ok Sample.db
   ∧ validate_end_time (Some (mc_start_time Sample.kickoff))
       (mc_end_time Sample.kickoff) = Ok (mc_end_time Sample.kickoff))
  ∧ meetings_ok (store_after (create_meeting Sample.isoformat Sample.kickoff
                                Sample.bob) Sample.env Sample.db).
Proof.
  pose proof sample_meetings_ok as H.
  assert (Hv : validate_end_time (Some (mc_start_time Sample.kickoff))
                 (mc_end_time Sample.kickoff) = Ok (mc_end_time Sample.kickoff))
    by reflexivity.
  split; [done|].
  exact (proj1 (meeting_times_stay_in_order Sample.isoformat Sample.env Sample.db
                  Sample.bob H) Sample.kickoff Hv).
Defined.

(** The creation handler itself does not compare the two times: a request
    that did not go through the schema is stored as it is. *)
Example create_meeting_does_not_check_times :
  outcome (create_meeting Sample.isoformat
             {| mc_team_id := 7; mc_title := "Backwards";
                mc_start_time := Sample.two_pm; mc_end_time := Sample.one_pm;
                mc_meeting_link := None |} Sample.bob) Sample.env Sample.db
  = Ok {| r_meeting_id := 2; r_team_id := 7; r_title := Some "Backwards";
          r_start_time := Some Sample.two_pm; r_end_time := Some Sample.one_pm;
          r_meeting_link := Some "AAECAwQFBgcICQ"; r_created_by := 12%N;
          r_created_at := Sample.noon |}.
Proof. vm_compute. reflexivity. Qed.

(** ** Milestones and checkpoints *)

(** X13.  The creator's delete cascades: the milestone is gone, no checkpoint
    that referred to it is left, every other milestone and every checkpoint of
    another milestone is as before, and the identifier then answers 404 to a
    read of the milestone and to a listing of its checkpoints. *)
Theorem deleting_a_milestone_cascades env env' d id ms u :
  milestones d !! id = Some ms →
  milestone_id ms = id →
  ms_created_by ms = user_id u →
  let d' := store_after (delete_milestone id u) env d in
  outcome (delete_milestone id u) env d = Ok tt
  ∧ milestones d' !! id = None
  ∧ (∀ k c, checkpoints d' !! k = Some c → cp_milestone_id c ≠ id)
  ∧ (∀ k, k ≠ id → milestones d' !! k = milestones d !! k)
  ∧ (∀ k c, checkpoints d !! k = Some c → cp_milestone_id c ≠ id →
            checkpoints d' !! k = Some c)
  ∧ run (get_milestone id u) env' d'
    = (Raise (HTTPException 404 "Milestone not found"), d')
  ∧ (∀ team, run (list_checkpoints id team) env' d'
             = (Raise (HTTPException 404 "Milestone not found"), d')).
Proof.
  intros Hms Hid Hby d'. subst d'. unfold outcome, store_after.
  rewrite (creator_deletes_milestone env d id ms u) by done. simpl. rewrite Hid.
  split_and!.
  - done.
  - apply lookup_delete_eq.
  - intros k c Hk. by apply map_lookup_filter_Some in Hk as [_ Hne].
  - intros k Hk. by apply lookup_delete_ne.
  - intros k c Hk Hne. by apply map_lookup_filter_Some.
  - unfold get_milestone. run_request. by rewrite lookup_delete_eq.
  - intros team. unfold list_checkpoints. run_request. by rewrite lookup_delete_eq.
Qed.

Lemma deleting_a_milestone_cascades_witness :
  (milestones Sample.db !! 1 = Some Sample.proposal
   ∧ milestone_id Sample.proposal = 1
   ∧ ms_created_by Sample.proposal = user_id Sample.lecturer)
  ∧ checkpoints (store_after (delete_milestone 1 Sample.lecturer)
                   Sample.env Sample.db) !! 1 = None.
Proof.
  assert (H1 : milestones Sample.db !! 1 = Some Sample.proposal) by reflexivity.
  assert (H2 : milestone_id Sample.proposal = 1) by reflexivity.
  assert (H3 : ms_created_by Sample.proposal = user_id Sample.lecturer)
    by reflexivity.
  split; [done|].
  destruct (deleting_a_milestone_cascades Sample.env Sample.env Sample.db 1
              Sample.proposal Sample.lecturer H1 H2 H3) as (_ & _ & Hnone & _).
  destruct (checkpoints (store_after (delete_milestone 1 Sample.lecturer)
                           Sample.env Sample.db) !! 1) as [c|] eqn:E; [|done].
  exfalso. apply (Hnone 1 c E). revert E. vm_compute. discriminate.
Defined.

(** X14.  Who may change or remove a checkpoint, and how it is addressed.
    The checkpoint must be stored under the milestone named in the path:
    under another milestone identifier the answer is 404 although the
    checkpoint exists.  Then only the lecturer of the milestone's class is let
    through; anyone else, the milestone's creator included, gets 403.  In both
    cases the store is unchanged. *)
Theorem checkpoint_mutation_is_for_the_class_lecturer env d mid cid c ms ac u :
  checkpoints d !! cid = Some c →
  milestones d !! cp_milestone_id c = Some ms →
  classes d !! ms_class_id ms = Some ac →
  (cp_milestone_id c ≠ mid →
     (∀ upd, run (update_checkpoint mid cid upd u) env d
             = (Raise (HTTPException 404 "Checkpoint not found"), d))
     ∧ run (delete_checkpoint mid cid u) env d
       = (Raise (HTTPException 404 "Checkpoint not found"), d))
  ∧ (cp_milestone_id c = mid → lecturer_id ac ≠ user_id u →
     (∀ upd, run (update_checkpoint mid cid upd u) env d
             = (Raise (HTTPException 403
                         "Only the class lecturer can update checkpoints"), d))
     ∧ run (delete_checkpoint mid cid u) env d
       = (Raise (HTTPException 403
                   "Only the class lecturer can delete checkpoints"), d)).
Proof.
  intros Hc Hms Hac. split.
  - intros Hne. apply Z.eqb_neq in Hne.
    split; [intros upd|];
      unfold update_checkpoint, delete_checkpoint, select_checkpoint;
      run_request; rewrite Hc, Hne; done.
  - intros Hmid Hlec. apply Z.eqb_eq in Hmid. apply N.eqb_neq in Hlec.
    split; [intros upd|];
      unfold update_checkpoint, delete_checkpoint, select_checkpoint,
        checkpoint_lecturer;
      run_request; rewrite Hc, Hmid; simpl; rewrite Hms; simpl; rewrite Hac;
      simpl; rewrite Hlec; done.
Qed.

Lemma checkpoint_mutation_is_for_the_class_lecturer_witness :
  (checkpoints Sample.db !! 1 = Some Sample.draft
   ∧ milestones Sample.db !! cp_milestone_id Sample.draft = Some Sample.proposal
   ∧ classes Sample.db !! ms_class_id Sample.proposal
     = Some {| class_id := 3; lecturer_id := 14%N |})
  ∧ run (delete_checkpoint 2 1 Sample.lecturer) Sample.env Sample.db
    = (Raise (HTTPException 404 "Checkpoint not found"), Sample.db)
  ∧ run (delete_checkpoint 1 1 Sample.admin) Sample.env Sample.db
    = (Raise (HTTPException 403 "Only the class lecturer can delete checkpoints"),
       Sample.db).
Proof.
  assert (H1 : checkpoints Sample.db !! 1 = Some Sample.draft) by reflexivity.
  assert (H2 : milestones Sample.db !! cp_milestone_id Sample.draft
               = Some Sample.proposal) by reflexivity.
  assert (H3 : classes Sample.db !! ms_class_id Sample.proposal
               = Some {| class_id := 3; lecturer_id := 14%N |}) by reflexivity.
  split; [done|]. split.
  - refine (proj2 (proj1 (checkpoint_mutation_is_for_the_class_lecturer
                            Sample.env Sample.db 2 1 Sample.draft Sample.proposal
                            _ Sample.lecturer H1 H2 H3) _)).
    discriminate.
  - refine (proj2 (proj2 (checkpoint_mutation_is_for_the_class_lecturer
                            Sample.env Sample.db 1 1 Sample.draft Sample.proposal
                            _ Sample.admin H1 H2 H3) _ _)).
    + reflexivity.
    + discriminate.
Defined.

(** X15.  An update of a checkpoint by the class lecturer is a partial
    update without a transition rule: a given title or status, whatever its
    value, null included, replaces the stored one; a field left out keeps its
    value; the checkpoint stays under its milestone and with its team; no
    other checkpoint changes. *)
Theorem update_checkpoint_changes_only_given_fields env d mid cid c ms ac u upd :
  checkpoints d !! cid = Some c →
  checkpoint_id c = cid →
  cp_milestone_id c = mid →
  milestones d !! mid = Some ms →
  classes d !! ms_class_id ms = Some ac →
  lecturer_id ac = user_id u →
  ∃ c',
    run (update_checkpoint mid cid upd u) env d
    = (Ok c', with_checkpoints d (<[cid := c']> (checkpoints d)))
    ∧ checkpoint_id c' = cid ∧ cp_milestone_id c' = mid
    ∧ cp_team_id c' = cp_team_id c
    ∧ cp_title c' = match cu_title upd with Given v => v | Unset => cp_title c end
    ∧ cp_status c' = match cu_status upd with Given v => v | Unset => cp_status c end.
Proof.
  intros Hc Hid Hmid Hms Hac Hlec. subst mid.
  exists (apply_checkpoint_update c upd).
  destruct (apply_checkpoint_update_identity c upd) as (Hid' & Hmid' & Hteam').
  split_and!; try congruence.
  - unfold update_checkpoint, select_checkpoint, checkpoint_lecturer,
      db_dirty_checkpoint. run_request.
    rewrite Hc, Z.eqb_refl. simpl. rewrite Hms. simpl. rewrite Hac. simpl.
    rewrite Hlec, N.eqb_refl. simpl. rewrite lookup_insert_eq. simpl.
    by rewrite Hid', Hid.
  - unfold apply_checkpoint_update. by destruct (cu_title upd), (cu_status upd).
  - unfold apply_checkpoint_update. by destruct (cu_title upd), (cu_status upd).
Qed.

Lemma update_checkpoint_changes_only_given_fields_witness :
  (checkpoints Sample.db !! 1 = Some Sample.draft
   ∧ checkpoint_id Sample.draft = 1
   ∧ cp_milestone_id Sample.draft = 1
   ∧ milestones Sample.db !! 1 = Some Sample.proposal
   ∧ classes Sample.db !! ms_class_id Sample.proposal
     = Some {| class_id := 3; lecturer_id := 14%N |})
  ∧ ∃ c', outcome (update_checkpoint 1 1
                     {| cu_title := Unset; cu_status := Given (Some "completed") |}
                     Sample.lecturer) Sample.env Sample.db = Ok c'
          ∧ cp_status c' = Some "completed"
          ∧ cp_title c' = Some "Initial Draft".
Proof.
  assert (H1 : checkpoints Sample.db !! 1 = Some Sample.draft) by reflexivity.
  assert (H2 : milestones Sample.db !! 1 = Some Sample.proposal) by reflexivity.
  assert (H3 : classes Sample.db !! ms_class_id Sample.proposal
               = Some {| class_id := 3; lecturer_id := 14%N |}) by reflexivity.
  split; [done|].
  destruct (update_checkpoint_changes_only_given_fields Sample.env Sample.db 1 1
              Sample.draft Sample.proposal _ Sample.lecturer
              {| cu_title := Unset; cu_status := Given (Some "completed") |}
              H1 eq_refl eq_refl H2 H3 eq_refl)
    as (c' & Hrun & _ & _ & _ & Ht & Hs).
  exists c'. unfold outcome. rewrite Hrun. done.
Defined.

(** X16.  A delete by the class lecturer removes the checkpoint and nothing
    else: the other checkpoints and the milestones are as before, and a
    second delete of the same checkpoint is a 404. *)
Theorem delete_checkpoint_removes_only_it env env' d mid cid c ms ac u :
  checkpoints d !! cid = Some c →
  checkpoint_id c = cid →
  cp_milestone_id c = mid →
  milestones d !! mid = Some ms →
  classes d !! ms_class_id ms = Some ac →
  lecturer_id ac = user_id u →
  let d' := store_after (delete_checkpoint mid cid u) env d in
  outcome (delete_checkpoint mid cid u) env d = Ok tt
  ∧ checkpoints d' !! cid = None
  ∧ (∀ k, k ≠ cid → checkpoints d' !! k = checkpoints d !! k)
  ∧ milestones d' = milestones d
  ∧ run (delete_checkpoint mid cid u) env' d'
    = (Raise (HTTPException 404 "Checkpoint not found"), d').
Proof.
  intros Hc Hid Hmid Hms Hac Hlec d'. subst mid.
  assert (Hrun : run (delete_checkpoint (cp_milestone_id c) cid u) env d
                 = (Ok tt, with_checkpoints d (delete cid (checkpoints d)))).
  { unfold delete_checkpoint, select_checkpoint, checkpoint_lecturer,
      db_delete_checkpoint. run_request.
    rewrite Hc, Z.eqb_refl. simpl. rewrite Hms. simpl. rewrite Hac. simpl.
    rewrite Hlec, N.eqb_refl. simpl. by rewrite Hid. }
  subst d'. unfold outcome, store_after. rewrite Hrun. simpl.
  split_and!; try done.
  - apply lookup_delete_eq.
  - intros k Hk. by apply lookup_delete_ne.
  - unfold delete_checkpoint, select_checkpoint. run_request.
    by rewrite lookup_delete_eq.
Qed.

Lemma delete_checkpoint_removes_only_it_witness :
  (checkpoints Sample.db !! 1 = Some Sample.draft
   ∧ milestones Sample.db !! 1 = Some Sample.proposal
   ∧ classes Sample.db !! ms_class_id Sample.proposal
     = Some {| class_id := 3; lecturer_id := 14%N |})
  ∧ outcome (delete_checkpoint 1 1 Sample.lecturer) Sample.env Sample.db = Ok tt.
Proof.
  assert (H1 : checkpoints Sample.db !! 1 = Some Sample.draft) by reflexivity.
  assert (H2 : milestones Sample.db !! 1 = Some Sample.proposal) by reflexivity.
  assert (H3 : classes Sample.db !! ms_class_id Sample.proposal
               = Some {| class_id := 3; lecturer_id := 14%N |}) by reflexivity.
  split; [done|].
  exact (proj1 (delete_checkpoint_removes_only_it Sample.env Sample.env Sample.db
                  1 1 Sample.draft Sample.proposal _ Sample.lecturer
                  H1 eq_refl eq_refl H2 H3 eq_refl)).
Defined.

(** ** Listings *)




(** With two milestones due at the same time, two requests may list them in
    different orders, and then the first entry of one request's listing is
    also the second entry of the other's. *)
Example tied_milestones_come_in_the_order_of_the_store :
  let ids env skip limit :=
    match outcome (list_milestones None skip limit) env Cases.same_due with
    | Ok l => map lr_milestone_id l
    | Raise _ => []
    end in
  ids Sample.env 0%nat 100%nat = [1; 2]
  ∧ ids Cases.descending 0%nat 100%nat = [2; 1]
  ∧ ids Sample.env 0%nat 1%nat = [1]
  ∧ ids Cases.descending 1%nat 1%nat = [1].
Proof. vm_compute. split_and!; reflexivity. Qed.

(** X19.  The listing of a stored milestone's checkpoints holds exactly the
    stored checkpoints that refer to the milestone and pass the team filter
    (all teams when the filter is missing or 0), in the order of their
    identifiers; for an identifier that is not a stored milestone the answer
    is 404.  Nothing is written. *)
Theorem list_checkpoints_of_a_milestone env d id team :
  (milestones d !! id = None →
     run (list_checkpoints id team) env d
     = (Raise (HTTPException 404 "Milestone not found"), d))
  ∧ (is_Some (milestones d !! id) →
     ∃ rows,
       run (list_checkpoints id team) env d = (Ok rows, d)
       ∧ rows ≡ₚ filter (fun c => selected team (cp_team_id c))
                   (filter (fun c => cp_milestone_id c = id)
                           (map_to_list (checkpoints d)).*2)
       ∧ (∀ c, c ∈ rows ↔ (∃ k, checkpoints d !! k = Some c)
                          ∧ cp_milestone_id c = id
                          ∧ selected team (cp_team_id c))
       ∧ (∀ i j a b, (i < j)%nat → rows !! i = Some a → rows !! j = Some b →
            checkpoint_id a ≤ checkpoint_id b)).
Proof.
  split.
  - intros Hms. unfold list_checkpoints. run_request. by rewrite Hms.
  - intros [ms Hms].
    destruct (list_checkpoints_arranged env d id team ms Hms)
      as (rows & Hrun & Hp & Hs).
    exists rows. split_and!.
    + done.
    + done.
    + intros c. rewrite Hp, !list_elem_of_filter, elem_of_rows. tauto.
    + intros i j a b.
      by apply (StronglySorted_lookup (fun a b => checkpoint_id a ≤ checkpoint_id b)).
Qed.

Lemma list_checkpoints_of_a_milestone_witness :
  is_Some (milestones Sample.db !! 1)
  ∧ ∃ rows, run (list_checkpoints 1 (Some 7)) Sample.env Sample.db
            = (Ok rows, Sample.db)
            ∧ (∀ c, c ∈ rows ↔ (∃ k, checkpoints Sample.db !! k = Some c)
                               ∧ cp_milestone_id c = 1
                               ∧ selected (Some 7) (cp_team_id c)).
Proof.
  assert (H : is_Some (milestones Sample.db !! 1)) by (eexists; reflexivity).
  split; [exact H|].
  destruct (proj2 (list_checkpoints_of_a_milestone Sample.env Sample.db 1 (Some 7)) H)
    as (rows & Hrun & _ & Hin & _).
  exists rows. done.
Defined.

(** X20.  The order of the checks of a checkpoint creation.  A body whose
    milestone identifier differs from the path's is a 400 before anything is
    looked up; then a missing milestone is a 404; then a caller who is not the
    lecturer of the milestone's class gets 403, whether or not the team
    exists; then a missing team is a 404.  Nothing is stored in any of these
    cases. *)
Theorem create_checkpoint_checks_in_order env d id data u :
  (cc_milestone_id data ≠ id →
     run (create_checkpoint id data u) env d
     = (Raise (HTTPException 400 "Milestone ID mismatch"), d))
  ∧ (cc_milestone_id data = id → milestones d !! id = None →
     run (create_checkpoint id data u) env d
     = (Raise (HTTPException 404 "Milestone not found"), d))
  ∧ (∀ ms ac, cc_milestone_id data = id → milestones d !! id = Some ms →
       classes d !! ms_class_id ms = Some ac →
       (lecturer_id ac ≠ user_id u →
          run (create_checkpoint id data u) env d
          = (Raise (HTTPException 403
                      "Only the class lecturer can create checkpoints"), d))
       ∧ (lecturer_id ac = user_id u → teams d !! cc_team_id data = None →
          run (create_checkpoint id data u) env d
          = (Raise (HTTPException 404 "Team not found"), d))).
Proof.
  split_and!.
  - intros Hne. apply Z.eqb_neq in Hne. unfold create_checkpoint.
    by rewrite Hne.
  - intros Heq Hms. apply Z.eqb_eq in Heq. unfold create_checkpoint.
    rewrite Heq. simpl. run_request. by rewrite Hms.
  - intros ms ac Heq Hms Hac. apply Z.eqb_eq in Heq. split.
    + intros Hlec. apply N.eqb_neq in Hlec. unfold create_checkpoint.
      rewrite Heq. simpl. run_request. rewrite Hms. simpl. rewrite Hac. simpl.
      by rewrite Hlec.
    + intros Hlec Hteam. unfold create_checkpoint.
      rewrite Heq. simpl. run_request. rewrite Hms. simpl. rewrite Hac. simpl.
      rewrite Hlec, N.eqb_refl. simpl. by rewrite Hteam.
Qed.

Lemma create_checkpoint_checks_in_order_witness :
  (cc_milestone_id Sample.first_draft_data ≠ 9 ∧ milestones Sample.db !! 9 = None)
  ∧ run (create_checkpoint 9 Sample.first_draft_data Sample.bob)
      Sample.env Sample.db
    = (Raise (HTTPException 400 "Milestone ID mismatch"), Sample.db).
Proof.
  assert (H : cc_milestone_id Sample.first_draft_data ≠ 9) by discriminate.
  split; [split; [exact H | reflexivity]|].
  exact (proj1 (create_checkpoint_checks_in_order Sample.env Sample.db 9
                  Sample.first_draft_data Sample.bob) H).
Defined.

(** X21.  The order of the checks of a milestone creation: a missing class is
    a 404; a caller who is not the lecturer of the class gets 403 whatever the
    due date, so a due date in the past does not turn the refusal into a
    400.  Nothing is stored. *)
Theorem create_milestone_checks_in_order dflt env d data u :
  (classes d !! msc_class_id data = None →
     run (create_milestone dflt data u) env d
     = (Raise (HTTPException 404 "Class not found"), d))
  ∧ (∀ ac, classes d !! msc_class_id data = Some ac →
       lecturer_id ac ≠ user_id u →
       run (create_milestone dflt data u) env d
       = (Raise (HTTPException 403
                   "Only the class lecturer can create milestones"), d)).
Proof.
  split.
  - intros Hc. unfold create_milestone. run_request. by rewrite Hc.
  - intros ac Hc Hlec. apply N.eqb_neq in Hlec.
    unfold create_milestone. run_request. rewrite Hc. simpl. by rewrite Hlec.
Qed.

Lemma create_milestone_checks_in_order_witness :
  (classes Sample.db !! msc_class_id (Sample.report 1)
   = Some {| class_id := 3; lecturer_id := 14%N |}
   ∧ lecturer_id {| class_id := 3; lecturer_id := 14%N |} ≠ user_id Sample.admin)
  ∧ run (create_milestone None (Sample.report 1) Sample.admin) Sample.env Sample.db
    = (Raise (HTTPException 403 "Only the class lecturer can create milestones"),
       Sample.db).
Proof.
  assert (H1 : classes Sample.db !! msc_class_id (Sample.report 1)
               = Some {| class_id := 3; lecturer_id := 14%N |}) by reflexivity.
  assert (H2 : lecturer_id {| class_id := 3; lecturer_id := 14%N |}
               ≠ user_id Sample.admin) by discriminate.
  split; [done|].
  exact (proj2 (create_milestone_checks_in_order None Sample.env Sample.db
                  (Sample.report 1) Sample.admin) _ H1 H2).
Defined.

(** X22.  A successful update of a milestone is a partial update: a given
    title, description or weight, null included, replaces the stored value, a
    given due date replaces the stored one, a field left out keeps its value,
    and the identifier, the class and the creator never change. *)
Theorem update_milestone_changes_only_given_fields env d id upd u ms' :
  outcome (update_milestone id upd u) env d = Ok ms' →
  ∃ ms,
    milestones d !! id = Some ms
    ∧ ms_created_by ms = user_id u
    ∧ store_after (update_milestone id upd u) env d
      = with_milestones d (<[milestone_id ms := ms']> (milestones d))
    ∧ milestone_id ms' = milestone_id ms
    ∧ ms_class_id ms' = ms_class_id ms
    ∧ ms_created_by ms' = ms_created_by ms
    ∧ ms_title ms' = match msu_title upd with Given v => v | Unset => ms_title ms end
    ∧ ms_description ms'
      = match msu_description upd with Given v => v | Unset => ms_description ms end
    ∧ ms_weight ms' = match msu_weight upd with Given v => v | Unset => ms_weight ms end
    ∧ ms_due_date ms'
      = match msu_due_date upd with
        | Given (Some due) => due
        | _ => ms_due_date ms
        end.
Proof.
  unfold outcome, store_after, update_milestone. run_request.
  destruct (milestones d !! id) as [ms|] eqn:Hms; simpl; [|done].
  destruct (N.eqb (ms_created_by ms) (user_id u)) eqn:Hby; simpl; [|done].
  apply N.eqb_eq in Hby.
  destruct (msu_due_date upd) as [|[due|]]; simpl; [| |done].
  - destruct (msu_title upd), (msu_description upd), (msu_weight upd); simpl;
      rewrite lookup_insert_eq; simpl; intros [= <-]; exists ms;
      split_and!; done.
  - destruct (datetime_le _ _) as [[|]|]; simpl; [done | | done].
    destruct (msu_title upd), (msu_description upd), (msu_weight upd); simpl;
      rewrite lookup_insert_eq; simpl; intros [= <-]; exists ms;
      split_and!; done.
Qed.

Lemma update_milestone_changes_only_given_fields_witness :
  outcome (update_milestone 1
             {| msu_title := Given (Some "Proposal v2"); msu_description := Unset;
                msu_due_date := Unset; msu_weight := Given None |}
             Sample.lecturer) Sample.env Sample.db
  = Ok {| milestone_id := 1; ms_class_id := 3; ms_title := Some "Proposal v2";
          ms_description := None; ms_due_date := Sample.two_pm;
          ms_weight := None; ms_created_by := 14%N |}
  ∧ ∃ ms, milestones Sample.db !! 1 = Some ms
          ∧ ms_created_by ms = user_id Sample.lecturer.
Proof.
  assert (H : outcome (update_milestone 1
                {| msu_title := Given (Some "Proposal v2");
                   msu_description := Unset; msu_due_date := Unset;
                   msu_weight := Given None |}
                Sample.lecturer) Sample.env Sample.db
              = Ok {| milestone_id := 1; ms_class_id := 3;
                      ms_title := Some "Proposal v2"; ms_description := None;
                      ms_due_date := Sample.two_pm; ms_weight := None;
                      ms_created_by := 14%N |})
    by (vm_compute; reflexivity).
  split; [exact H|].
  destruct (update_milestone_changes_only_given_fields _ _ _ _ _ _ H)
    as (ms & Hms & Hby & _).
  exists ms. done.
Defined.

(** ** Milestones: reading back *)

Lemma rows_insert_fresh {V} (t : gmap Z V) k (x : V) :
  t !! k = None →
  (map_to_list (<[k := x]> t)).*2 ≡ₚ x :: (map_to_list t).*2.
Proof. intros H. by rewrite (map_to_list_insert t k x H). Qed.

Lemma create_milestone_succeeds_inv dflt env d data u new :
  outcome (create_milestone dflt data u) env d = Ok new →
  milestone_id new = next_key (milestones d)
  ∧ ms_class_id new = msc_class_id data
  ∧ ms_created_by new = user_id u
  ∧ store_after (create_milestone dflt data u) env d
    = with_milestones d (<[next_key (milestones d) := new]> (milestones d)).
Proof.
  unfold outcome, store_after, create_milestone. run_request.
  destruct (classes d !! msc_class_id data) as [ac|]; simpl; [|done].
  destruct (N.eqb (lecturer_id ac) (user_id u)); simpl; [|done].
  destruct (datetime_le _ _) as [[|]|]; simpl; [done | | done].
  rewrite lookup_insert_eq. simpl. by intros [= <-].
Qed.

Lemma create_checkpoint_succeeds_inv env d id data u cp :
  outcome (create_checkpoint id data u) env d = Ok cp →
  is_Some (milestones d !! id)
  ∧ checkpoint_id cp = next_key (checkpoints d)
  ∧ cp_milestone_id cp = id
  ∧ cp_team_id cp = cc_team_id data
  ∧ cp_title cp = Some (cc_title data)
  ∧ store_after (create_checkpoint id data u) env d
    = with_checkpoints d (<[next_key (checkpoints d) := cp]> (checkpoints d)).
Proof.
  unfold outcome, store_after, create_checkpoint.
  destruct (cc_milestone_id data =? id); simpl; [|done].
  run_request.
  destruct (milestones d !! id) as [ms|] eqn:Hms; simpl; [|done].
  destruct (classes d !! ms_class_id ms) as [ac|]; simpl; [|done].
  destruct (N.eqb (lecturer_id ac) (user_id u)); simpl; [|done].
  destruct (teams d !! cc_team_id data) as [team|]; simpl; [|done].
  destruct (team_class_id team =? ms_class_id ms); simpl; [|done].
  rewrite lookup_insert_eq. simpl. intros [= <-]. split_and!; done.
Qed.

Lemma filter_none {A} (P : A → Prop) `{∀ x, Decision (P x)} (l : list A) :
  (∀ x, x ∈ l → ¬ P x) → filter P l = [].
Proof.
  induction l as [|x l IH]; intros Hl; [done|].
  rewrite filter_cons_False by (apply Hl; left).
  apply IH. intros y Hy. apply Hl. by right.
Qed.

(** X23.  Create, then read: on a consistent store, the milestone a
    successful creation returns is what the read endpoint then returns for its
    identifier, to any caller, with an empty list of checkpoints. *)
Theorem get_returns_the_created_milestone dflt env env' d data u u' new :
  store_ok d →
  outcome (create_milestone dflt data u) env d = Ok new →
  let d' := store_after (create_milestone dflt data u) env d in
  run (get_milestone (milestone_id new) u') env' d' = (Ok (new, []), d').
Proof.
  intros [_ Hcp] Hok d'. subst d'.
  destruct (create_milestone_succeeds_inv _ _ _ _ _ _ Hok) as (Hid & _ & _ & ->).
  unfold get_milestone, milestone_checkpoints. run_request.
  rewrite Hid, lookup_insert_eq. simpl. rewrite Hid.
  rewrite filter_none; [done|].
  intros c Hc Hrefers. apply elem_of_rows in Hc as [k Hk].
  destruct (Hcp k c Hk) as (ms & _ & Hms & _).
  rewrite Hrefers, next_key_fresh in Hms. done.
Qed.

Lemma get_returns_the_created_milestone_witness :
  (store_ok Sample.db
   ∧ outcome (create_milestone None (Sample.report 1) Sample.lecturer)
       Sample.env Sample.db
     = Ok {| milestone_id := 3; ms_class_id := 3; ms_title := Some "Report";
             ms_description := None; ms_due_date := Sample.one_pm;
             ms_weight := None; ms_created_by := 14%N |})
  ∧ outcome (get_milestone 3 Sample.bob) Sample.env
      (store_after (create_milestone None (Sample.report 1) Sample.lecturer)
         Sample.env Sample.db)
    = Ok ({| milestone_id := 3; ms_class_id := 3; ms_title := Some "Report";
             ms_description := None; ms_due_date := Sample.one_pm;
             ms_weight := None; ms_created_by := 14%N |}, []).
Proof.
  pose proof sample_store_ok as H1.
  assert (H2 : outcome (create_milestone None (Sample.report 1) Sample.lecturer)
                 Sample.env Sample.db
               = Ok {| milestone_id := 3; ms_class_id := 3;
                       ms_title := Some "Report"; ms_description := None;
                       ms_due_date := Sample.one_pm; ms_weight := None;
                       ms_created_by := 14%N |})
    by (vm_compute; reflexivity).
  split; [done|].
  exact (f_equal fst
           (get_returns_the_created_milestone None Sample.env Sample.env
              Sample.db (Sample.report 1) Sample.lecturer Sample.bob _ H1 H2)).
Defined.

(** X24.  A new checkpoint shows up where it should: after a successful
    creation under a milestone of a consistent store, the read of the
    milestone returns its former checkpoints and the new one, the checkpoint
    count of that milestone in the listing is one higher, and the count of
    every other milestone is what it was. *)
Theorem new_checkpoint_shows_up env env' d id data u u' cp :
  store_ok d →
  outcome (create_checkpoint id data u) env d = Ok cp →
  let d' := store_after (create_checkpoint id data u) env d in
  checkpoint_count d' id = S (checkpoint_count d id)
  ∧ (∀ mid, mid ≠ id → checkpoint_count d' mid = checkpoint_count d mid)
  ∧ ∃ ms l,
      milestones d !! id = Some ms
      ∧ run (get_milestone id u') env' d' = (Ok (ms, l), d')
      ∧ l ≡ₚ cp :: milestone_checkpoints d ms.
Proof.
  intros [(_ & Hkeys & _) _] Hok d'. subst d'.
  destruct (create_checkpoint_succeeds_inv _ _ _ _ _ _ Hok)
    as ([ms Hms] & Hid & Hmid & _ & _ & ->).
  pose proof (next_key_fresh (checkpoints d)) as Hfresh.
  split_and!.
  - unfold checkpoint_count. simpl.
    rewrite (map_to_list_insert _ _ cp Hfresh).
    by rewrite filter_cons_True.
  - intros mid Hne. unfold checkpoint_count. simpl.
    rewrite (map_to_list_insert _ _ cp Hfresh).
    rewrite filter_cons_False; [done|]. simpl. congruence.
  - exists ms. eexists. split; [done|]. split.
    + unfold get_milestone. run_request. rewrite Hms. reflexivity.
    + unfold milestone_checkpoints. simpl.
      rewrite (rows_insert_fresh _ _ cp Hfresh).
      rewrite filter_cons_True; [done|]. rewrite (Hkeys _ _ Hms). done.
Qed.

Lemma new_checkpoint_shows_up_witness :
  (store_ok Sample.db
   ∧ outcome (create_checkpoint 1 Sample.first_draft_data Sample.lecturer)
       Sample.env Sample.db
     = Ok {| checkpoint_id := 2; cp_milestone_id := 1; cp_team_id := 7;
             cp_title := Some "First draft"; cp_status := Some "pending" |})
  ∧ checkpoint_count
      (store_after (create_checkpoint 1 Sample.first_draft_data Sample.lecturer)
         Sample.env Sample.db) 1
    = S (checkpoint_count Sample.db 1).
Proof.
  pose proof sample_store_ok as H1.
  assert (H2 : outcome (create_checkpoint 1 Sample.first_draft_data Sample.lecturer)
                 Sample.env Sample.db
               = Ok {| checkpoint_id := 2; cp_milestone_id := 1; cp_team_id := 7;
                       cp_title := Some "First draft";
                       cp_status := Some "pending" |})
    by (vm_compute; reflexivity).
  split; [done|].
  exact (proj1 (new_checkpoint_shows_up Sample.env Sample.env Sample.db 1
                  Sample.first_draft_data Sample.lecturer Sample.bob _ H1 H2)).
Defined.

(** ** Roles *)

(** X25.  The role table is total and one-to-one on the five roles, a role
    is read back from its value, and the identifiers the meeting handlers
    treat as privileged (1 and 4) are those of Admin and Lecturer and of no
    other role. *)
Theorem role_identifiers (self : UserCreate) :
  ∃ id,
    get_role_id self = Some id
    ∧ 1 ≤ id ≤ 5
    ∧ RoleName_of_value (RoleName_value (uc_role_name self)) = Some (uc_role_name self)
    ∧ (∀ other, get_role_id other = Some id → uc_role_name other = uc_role_name self)
    ∧ (id ∈ [1; 4] ↔ uc_role_name self = ADMIN ∨ uc_role_name self = LECTURER)
    ∧ (∀ u tm meeting,
         role_id u = id →
         uc_role_name self = ADMIN ∨ uc_role_name self = LECTURER →
         may_mutate u tm meeting = true).
Proof.
  unfold get_role_id.
  exists (match uc_role_name self with
          | ADMIN => 1 | STAFF => 2 | HEAD_OF_DEPARTMENT => 3
          | LECTURER => 4 | STUDENT => 5
          end).
  destruct (uc_role_name self) eqn:E;
    (split_and!;
     [ reflexivity
     | lia
     | lia
     | reflexivity
     | intros other; destruct (uc_role_name other); vm_compute; congruence
     | rewrite !elem_of_cons, elem_of_nil; split;
       [ intros [?|[?|[]]]; (discriminate || tauto)
       | intros [?|?]; (discriminate || tauto) ]
     | intros u tm meeting Hr [?|?]; try discriminate;
       apply privileged_may_mutate; rewrite Hr; tauto ]).
Qed.

(** ** Access tokens *)

(** X26.  The expiry of an access token: with a duration other than zero the
    token expires that long after the clock reading; without a duration it
    expires after the configured number of minutes; and a duration of zero
    counts as no duration, so the token gets the configured lifetime instead
    of expiring at once.  The token is what the JWT library makes of the
    expiry and the subject under the configured key and algorithm, and the
    library's refusal is the handler's.  An expiry outside the years 1 to
    9999, or a configured lifetime that no [timedelta] holds, is an
    [OverflowError].  Nothing is stored. *)
Theorem access_token_expiry jwt_encode settings env d subject :
  let now := utc_clock env 0 in
  let representable expire :=
    - (719162 * 86400000000) ≤ expire ∧ expire < 2932897 * 86400000000 in
  let issue expire : Result string :=
    match jwt_encode {| exp := {| wall := expire; tzinfo := None |}; sub := subject |}
            (SECRET_KEY settings) (ALGORITHM settings) with
    | Some token => Ok token
    | None => Raise JWTError
    end in
  let lifetime := ACCESS_TOKEN_EXPIRE_MINUTES settings * 60 * 1000000 in
  let configurable :=
    - (999999999 * 86400000000) ≤ lifetime ∧ lifetime < 1000000000 * 86400000000 in
  (∀ delta, delta ≠ 0 → representable (now + delta) →
     run (create_access_token jwt_encode settings subject (Some delta)) env d
     = (issue (now + delta), d))
  ∧ (∀ delta, delta ≠ 0 → ¬ representable (now + delta) →
     run (create_access_token jwt_encode settings subject (Some delta)) env d
     = (Raise OverflowError, d))
  ∧ (configurable → representable (now + lifetime) →
     run (create_access_token jwt_encode settings subject None) env d
     = (issue (now + lifetime), d))
  ∧ (¬ (configurable ∧ representable (now + lifetime)) →
     run (create_access_token jwt_encode settings subject None) env d
     = (Raise OverflowError, d))
  ∧ run (create_access_token jwt_encode settings subject (Some 0)) env d
    = run (create_access_token jwt_encode settings subject None) env d.
Proof.
  intros now representable issue lifetime configurable.
  assert (Hadd : ∀ delta, representable (now + delta) →
            datetime_add {| wall := now; tzinfo := None |} delta
            = Some {| wall := now + delta; tzinfo := None |}).
  { intros delta H. unfold datetime_add, datetime_in_range, datetime_shift. simpl.
    rewrite bool_decide_eq_true_2; [done|].
    unfold representable, datetime_min_wall, datetime_max_wall in *. lia. }
  assert (Hover : ∀ delta, ¬ representable (now + delta) →
            datetime_add {| wall := now; tzinfo := None |} delta = None).
  { intros delta H. unfold datetime_add, datetime_in_range, datetime_shift. simpl.
    rewrite bool_decide_eq_false_2; [done|].
    unfold representable, datetime_min_wall, datetime_max_wall in *. lia. }
  assert (Hminutes : configurable →
            timedelta_of_minutes (ACCESS_TOKEN_EXPIRE_MINUTES settings) = Some lifetime).
  { intros H. unfold timedelta_of_minutes, timedelta_in_range, timedelta_minutes.
    rewrite bool_decide_eq_true_2 by (unfold configurable, lifetime in H; lia).
    f_equal. unfold lifetime. lia. }
  assert (Hno_minutes : ¬ configurable →
            timedelta_of_minutes (ACCESS_TOKEN_EXPIRE_MINUTES settings) = None).
  { intros H. unfold timedelta_of_minutes, timedelta_in_range, timedelta_minutes.
    rewrite bool_decide_eq_false_2; [done|].
    unfold configurable, lifetime in H. lia. }
  split_and!.
  - intros delta Hne Hr. apply Z.eqb_neq in Hne.
    unfold create_access_token, timedelta_truthy, datetime_utcnow, run. rewrite Hne.
    simpl. unfold mbind, req_bind. simpl. fold now. rewrite (Hadd _ Hr). simpl.
    unfold issue. by destruct (jwt_encode _ _ _).
  - intros delta Hne Hr. apply Z.eqb_neq in Hne.
    unfold create_access_token, timedelta_truthy, datetime_utcnow, run. rewrite Hne.
    simpl. unfold mbind, req_bind. simpl. fold now. by rewrite (Hover _ Hr).
  - intros Hc Hr.
    unfold create_access_token, timedelta_truthy, datetime_utcnow, run.
    simpl. unfold mbind, req_bind. simpl. rewrite (Hminutes Hc). simpl.
    fold now. rewrite (Hadd _ Hr). simpl.
    unfold issue. by destruct (jwt_encode _ _ _).
  - intros Hnot.
    unfold create_access_token, timedelta_truthy, datetime_utcnow, run.
    simpl. unfold mbind, req_bind. simpl.
    destruct (decide configurable) as [Hc|Hc].
    + rewrite (Hminutes Hc). simpl. fold now. rewrite Hover; [done|tauto].
    + by rewrite (Hno_minutes Hc).
  - reflexivity.
Qed.

(** ** Room identifiers *)

(** The six-bit groups the encoder forms from two bytes. *)
Lemma sextets_in_range_check :
  forallb (fun a =>
    forallb (fun b =>
      forallb (fun n => N.ltb n 64)
        [ N.shiftr a 2;
          N.lor (N.shiftl (N.land a 3) 4) (N.shiftr b 4);
          N.lor (N.shiftl (N.land a 15) 2) (N.shiftr b 6);
          N.land a 63;
          N.shiftl (N.land a 3) 4;
          N.shiftl (N.land a 15) 2 ])
      (map N.of_nat (seq 0 256)))
    (map N.of_nat (seq 0 256)) = true.
Proof. vm_compute. reflexivity. Qed.

Lemma byte_in_range (a : N) : (a < 256)%N → a ∈ map N.of_nat (seq 0 256).
Proof.
  intros Ha. apply list_elem_of_fmap. exists (N.to_nat a).
  split; [by rewrite N2Nat.id|]. apply elem_of_seq. lia.
Qed.

Lemma sextets_of_bytes (a b : N) :
  (a < 256)%N → (b < 256)%N →
  (N.shiftr a 2 < 64)%N
  ∧ (N.lor (N.shiftl (N.land a 3) 4) (N.shiftr b 4) < 64)%N
  ∧ (N.lor (N.shiftl (N.land a 15) 2) (N.shiftr b 6) < 64)%N
  ∧ (N.land a 63 < 64)%N
  ∧ (N.shiftl (N.land a 3) 4 < 64)%N
  ∧ (N.shiftl (N.land a 15) 2 < 64)%N.
Proof.
  intros Ha Hb. pose proof sextets_in_range_check as H.
  rewrite forallb_forall in H.
  specialize (H a (proj1 (list_elem_of_In _ _) (byte_in_range a Ha))).
  rewrite forallb_forall in H.
  specialize (H b (proj1 (list_elem_of_In _ _) (byte_in_range b Hb))).
  rewrite forallb_forall in H.
  split_and!; apply N.ltb_lt, H; simpl; tauto.
Qed.

Lemma b64_sextets_in_range bs :
  Forall (fun b => (b < 256)%N) bs →
  Forall (fun n => (n < 64)%N) (b64_sextets bs).
Proof.
  induction bs as [bs IH] using (induction_ltof1 _ (@length N)).
  unfold ltof in IH. intros Hbs.
  destruct bs as [|a [|b [|c bs]]].
  - constructor.
  - apply Forall_cons in Hbs as [Ha _].
    destruct (sextets_of_bytes a a Ha Ha) as (H1 & _ & _ & _ & H5 & _).
    cbn [b64_sextets]. repeat (apply Forall_cons; split; [done|]). constructor.
  - apply Forall_cons in Hbs as [Ha Hbs]. apply Forall_cons in Hbs as [Hb _].
    destruct (sextets_of_bytes a b Ha Hb) as (H1 & H2 & _).
    destruct (sextets_of_bytes b b Hb Hb) as (_ & _ & _ & _ & _ & H6).
    cbn [b64_sextets]. repeat (apply Forall_cons; split; [done|]). constructor.
  - apply Forall_cons in Hbs as [Ha Hbs]. apply Forall_cons in Hbs as [Hb Hbs].
    apply Forall_cons in Hbs as [Hc Hbs].
    destruct (sextets_of_bytes a b Ha Hb) as (H1 & H2 & _).
    destruct (sextets_of_bytes b c Hb Hc) as (_ & _ & H3 & _).
    destruct (sextets_of_bytes c c Hc Hc) as (_ & _ & _ & H4 & _).
    cbn [b64_sextets]. repeat (apply Forall_cons; split; [done|]).
    apply IH; [simpl; lia | done].
Qed.

Lemma b64_char_in_alphabet n : (n < 64)%N → b64_char n ∈ urlsafe_alphabet.
Proof.
  intros Hn. unfold b64_char. apply list_elem_of_In, nth_In.
  change (length urlsafe_alphabet) with 64%nat. lia.
Qed.

Lemma byte_to_N_range (b : Byte.byte) : (Byte.to_N b < 256)%N.
Proof. pose proof (Byte.to_N_bounded b). lia. Qed.

(** X27.  A generated room identifier is 14 characters long, each of them a
    letter, a digit, a hyphen or an underscore, whatever the random bytes
    are; in particular it is not empty. *)
Theorem room_identifier_is_url_safe env s :
  ∃ room,
    gen_peer_room_id env s = (Ok room, s)
    ∧ String.length room = 14%nat
    ∧ Forall (fun c => c ∈ urlsafe_alphabet) (list_ascii_of_string room)
    ∧ room ≠ EmptyString.
Proof.
  exists (token_urlsafe (entropy env) 10). split_and!.
  - reflexivity.
  - apply gen_peer_room_id_length.
  - unfold token_urlsafe. rewrite list_ascii_of_string_of_list_ascii.
    apply Forall_forall. intros c Hc.
    apply list_elem_of_fmap in Hc as (n & -> & Hn).
    apply b64_char_in_alphabet.
    assert (H : Forall (fun n => (n < 64)%N)
                  (b64_sextets (token_bytes (entropy env) 10))).
    { apply b64_sextets_in_range. unfold token_bytes.
      apply Forall_forall. intros b Hb.
      apply list_elem_of_fmap in Hb as (i & -> & _). apply byte_to_N_range. }
    rewrite Forall_forall in H. by apply H.
  - apply token_urlsafe_nonempty.
Qed.

(** ** Meetings: the room allocated by a join *)

(** X28.  The join of a meeting that has no room yet (no link, or an empty
    one), by a member: a room identifier is generated, returned, and stored
    as the link of that meeting; the meeting's other fields, the other
    meetings and the other tables are unchanged, and the detail endpoint then
    shows the new link. *)
Theorem join_allocates_a_room env env' d id meeting u :
  meetings d !! id = Some meeting →
  meeting_id meeting = id →
  str_truthy (m_link_url meeting) = false →
  is_member d (m_team_id meeting) (user_id u) →
  let room := token_urlsafe (entropy env) 10 in
  let d' := store_after (join_meeting id u) env d in
  outcome (join_meeting id u) env d
  = Ok {| j_meeting_id := id; j_team_id := m_team_id meeting;
          j_peer_room_id := Some room |}
  ∧ d' = with_meetings d (<[id := set_link_url meeting (Some room)]> (meetings d))
  ∧ (∀ k, k ≠ id → meetings d' !! k = meetings d !! k)
  ∧ outcome (meeting_detail id u) env' d'
    = Ok (to_response (set_link_url meeting (Some room))).
Proof.
  intros Hm Hid Hlink Hu room d'.
  apply membership_of_member in Hu as (tm & Htm & _). unfold membership in Htm.
  assert (Hrun : run (join_meeting id u) env d
                 = (Ok {| j_meeting_id := id; j_team_id := m_team_id meeting;
                          j_peer_room_id := Some room |},
                    with_meetings d
                      (<[id := set_link_url meeting (Some room)]> (meetings d)))).
  { subst room. unfold join_meeting, gen_peer_room_id.
    remember (token_urlsafe (entropy env) 10) as token eqn:Htoken.
    run_request. rewrite Hm. simpl. rewrite Htm. simpl. rewrite Hlink. simpl.
    rewrite Hid, lookup_insert_eq. simpl. by rewrite <- !Htoken. }
  subst d'. unfold outcome, store_after. rewrite Hrun. simpl.
  split_and!; try done.
  - intros k Hk. by apply lookup_insert_ne.
  - unfold meeting_detail. run_request. rewrite lookup_insert_eq. simpl.
    by rewrite Htm.
Qed.

Lemma join_allocates_a_room_witness :
  (meetings Cases.db !! 1 = Some Cases.unplanned
   ∧ meeting_id Cases.unplanned = 1
   ∧ str_truthy (m_link_url Cases.unplanned) = false
   ∧ is_member Cases.db (m_team_id Cases.unplanned) (user_id Sample.bob))
  ∧ outcome (join_meeting 1 Sample.bob) Sample.env Cases.db
    = Ok {| j_meeting_id := 1; j_team_id := 7;
            j_peer_room_id := Some "AAECAwQFBgcICQ" |}.
Proof.
  assert (H1 : meetings Cases.db !! 1 = Some Cases.unplanned) by reflexivity.
  assert (H2 : is_member Cases.db (m_team_id Cases.unplanned) (user_id Sample.bob)).
  { exists {| tm_team_id := 7; tm_user_id := 12%N; tm_role := "MEMBER" |}.
    split; [|split; reflexivity]. simpl. repeat constructor. }
  split; [done|].
  exact (proj1 (join_allocates_a_room Sample.env Sample.env Cases.db 1
                  Cases.unplanned Sample.bob H1 eq_refl eq_refl H2)).
Defined.

Lemma join_twice_agrees_witness :
  (meetings Cases.db !! 1 = Some Cases.unplanned
   ∧ meeting_id Cases.unplanned = 1
   ∧ is_member Cases.db (m_team_id Cases.unplanned) (user_id Sample.bob)
   ∧ is_member Cases.db (m_team_id Cases.unplanned) (user_id Sample.alice))
  ∧ ∃ room,
      room ≠ EmptyString
      ∧ outcome (join_meeting 1 Sample.bob) Sample.env Cases.db
        = Ok {| j_meeting_id := 1; j_team_id := 7; j_peer_room_id := Some room |}
      ∧ run (join_meeting 1 Sample.alice) Sample.env
          (store_after (join_meeting 1 Sample.bob) Sample.env Cases.db)
        = (Ok {| j_meeting_id := 1; j_team_id := 7; j_peer_room_id := Some room |},
           store_after (join_meeting 1 Sample.bob) Sample.env Cases.db).
Proof.
  assert (H1 : meetings Cases.db !! 1 = Some Cases.unplanned) by reflexivity.
  assert (H2 : is_member Cases.db (m_team_id Cases.unplanned) (user_id Sample.bob)).
  { exists {| tm_team_id := 7; tm_user_id := 12%N; tm_role := "MEMBER" |}.
    split; [|split; reflexivity]. simpl. repeat constructor. }
  assert (H3 : is_member Cases.db (m_team_id Cases.unplanned)
                 (user_id Sample.alice)).
  { exists {| tm_team_id := 7; tm_user_id := 11%N; tm_role := "LEADER" |}.
    split; [|split; reflexivity]. simpl. repeat constructor. }
  split; [done|].
  exact (join_twice_agrees Sample.env Sample.env Cases.db 1 Cases.unplanned
           Sample.bob Sample.alice H1 eq_refl H2 H3).
Defined.

(** ** Meetings: one reminder for each member *)

(** X30.  When no user has two membership rows on the team and the reminder
    is still due, a successful creation writes, for every member of the team,
    exactly one notification addressed to that member, and each notification
    it writes refers to the new meeting. *)
Theorem each_member_gets_one_reminder iso env d payload u resp v :
  outcome (create_meeting iso payload u) env d = Ok resp →
  strictly_after (remind_at payload) (reminder_check_time env) →
  NoDup (map tm_user_id (team_rows d (mc_team_id payload))) →
  is_member d (mc_team_id payload) v →
  ∃ new,
    notifications (store_after (create_meeting iso payload u) env d)
    = (notifications d ++ new)%list
    ∧ length (filter (fun n => n_user_id n = v) new) = 1%nat
    ∧ Forall (fun n => n_related_entity_type n = "meeting"
                       ∧ n_related_entity_id n = r_meeting_id resp) new.
Proof.
  intros Hok Hdue Hnd (tm & Hin & Ht & Hv).
  destruct (create_meeting_succeeds_inv _ _ _ _ _ _ Hok) as (t & tm' & Hteam & Htm').
  destruct (create_meeting_runs iso env d payload u t tm' Hteam Htm'
              (create_meeting_succeeds_range _ _ _ _ _ _ Hok))
    as (pending & Hcmp & Hrun).
  unfold strictly_after in Hdue. rewrite Hcmp in Hdue. injection Hdue as ->.
  unfold outcome, store_after in *. rewrite Hrun in Hok |- *. simpl in *.
  injection Hok as <-.
  eexists. split; [reflexivity|]. split.
  - apply one_reminder_per_member; [done|]. exists tm. split; [|done].
    unfold team_rows. by apply list_elem_of_filter.
  - apply (reminders_count_and_target iso payload (new_meeting env d payload u)).
Qed.

Lemma each_member_gets_one_reminder_witness :
  (outcome (create_meeting Sample.isoformat Sample.kickoff Sample.bob)
     Sample.env Sample.db = Ok Sample.kickoff_response
   ∧ strictly_after (remind_at Sample.kickoff) (reminder_check_time Sample.env)
   ∧ NoDup (map tm_user_id (team_rows Sample.db (mc_team_id Sample.kickoff)))
   ∧ is_member Sample.db (mc_team_id Sample.kickoff) (user_id Sample.alice))
  ∧ ∃ new,
      notifications (store_after (create_meeting Sample.isoformat Sample.kickoff
                                    Sample.bob) Sample.env Sample.db)
      = (notifications Sample.db ++ new)%list
      ∧ length (filter (fun n => n_user_id n = user_id Sample.alice) new) = 1%nat.
Proof.
  assert (H1 : outcome (create_meeting Sample.isoformat Sample.kickoff Sample.bob)
                 Sample.env Sample.db = Ok Sample.kickoff_response)
    by (vm_compute; reflexivity).
  assert (H2 : strictly_after (remind_at Sample.kickoff)
                 (reminder_check_time Sample.env)) by reflexivity.
  assert (H3 : NoDup (map tm_user_id
                        (team_rows Sample.db (mc_team_id Sample.kickoff)))).
  { apply (bool_decide_unpack _). vm_compute. exact I. }
  assert (H4 : is_member Sample.db (mc_team_id Sample.kickoff)
                 (user_id Sample.alice)).
  { exists {| tm_team_id := 7; tm_user_id := 11%N; tm_role := "LEADER" |}.
    split; [|split; reflexivity]. simpl. repeat constructor. }
  split; [done|].
  destruct (each_member_gets_one_reminder Sample.isoformat Sample.env Sample.db
              Sample.kickoff Sample.bob Sample.kickoff_response
              (user_id Sample.alice) H1 H2 H3 H4) as (new & Hn & Hone & _).
  exists new. done.
Defined.
